(** * Storefront API: order, payment and analytics handlers

    A shallow embedding of [src/app/api/[[...path]]/route.js]: the slug
    generator, the store directory, the order engine, the payment bridge
    and the counts and rate of the summary of the analytics report, with
    the properties the specification states about them.

    Conventions.
    - Request bodies are JSON values ([Js.value]); JavaScript numbers are
      IEEE-754 binary64 ([float]), with the kernel's arithmetic.
    - The three collections are lists of documents in insertion order;
      [findOne] and [updateOne] act on the first match, [insertOne] appends.
    - A thrown exception is [None] in the [option] monad; the handler's
      [catch] turns it into the 500 response. This covers the [TypeError]
      of converting to a string or a number an object that has no
      primitive value (a JSON object with a property named [toString]).
    - What the JavaScript engine and the external services compute
      (Unicode lower-casing, number/string conversions, HMAC-SHA256, the
      Razorpay SDK) is a parameter of the development. *)

From Stdlib Require Import List String Ascii ZArith Lia Bool DecimalString.
From Stdlib Require Import PrimFloat SpecFloat FloatOps FloatAxioms.
From Stdlib Require Import Permutation Sorted.
From Stdlib Require Import NArith.
From Stdlib Require Decimal DecimalFacts DecimalPos.
Import ListNotations.
Local Open Scope string_scope.
Set Warnings "-register-all,-inexact-float".

(* ================================================================= *)
(** ** JavaScript values *)

Module Js.

(** The result of [request.json()], plus [undefined] for a property
    that is absent. An object is the list of its own properties; [assoc]
    reads the first entry of a key. *)
Inductive value : Type :=
| VUndefined
| VNull
| VBool (b : bool)
| VNum (x : float)
| VStr (s : string)
| VArr (elems : list value)
| VObj (props : list (string * value)).

(** Truthiness: what [!v] and [v || d] test. *)
Definition ToBoolean (v : value) : bool :=
  match v with
  | VUndefined | VNull => false
  | VBool b => b
  | VNum x => negb (PrimFloat.is_zero x || PrimFloat.is_nan x)
  | VStr s => negb (String.eqb s "")
  | VArr _ | VObj _ => true
  end.

(** [v || d] *)
Definition or_else (v d : value) : value :=
  if ToBoolean v then v else d.

(** [v === s] (and the equality of a Mongo filter) against a string. *)
Definition is_string (v : value) (s : string) : bool :=
  match v with
  | VStr t => String.eqb t s
  | _ => false
  end.

Fixpoint assoc (k : string) (props : list (string * value)) : value :=
  match props with
  | [] => VUndefined
  | (k', v) :: rest => if String.eqb k' k then v else assoc k rest
  end.

(** Property read [v.k], for the keys the handlers destructure (none of
    them is [length]): a [TypeError] on [null] and [undefined], the own
    property of an object, [undefined] on every other value. *)
Definition get (v : value) (k : string) : option value :=
  match v with
  | VUndefined | VNull => None
  | VObj props => Some (assoc k props)
  | _ => Some VUndefined
  end.

(** The part of the engine that is not modelled bit by bit. *)
Record Engine : Type := {
  toLowerCase : string -> string;        (* String.prototype.toLowerCase *)
  NumberToString : float -> string;      (* Number::toString *)
  StringToNumber : string -> float;      (* StringToNumber *)
  TypeError_message : string             (* [error.message] of the TypeError
                                            that OrdinaryToPrimitive throws *)
}.

(** [Object.hasOwn(v, k)] for the object with the properties [props]. *)
Definition has_own (k : string) (props : list (string * value)) : bool :=
  existsb (fun kv => String.eqb (fst kv) k) props.

Fixpoint join (sep : string) (parts : list string) : string :=
  match parts with
  | [] => ""
  | [p] => p
  | p :: rest => p ++ sep ++ join sep rest
  end.

Section Conversions.
Variable js : Engine.

(** [ToString], as string concatenation with [+], [parseFloat] and
    [parseInt] apply it to a value that came from JSON. [None] is the
    [TypeError] of an object without a primitive value: a property of its
    own named [toString] hides [Object.prototype.toString], and no value
    from JSON is a function, so neither [toString] nor [valueOf] yields a
    primitive. An object without such a property is ["[object Object]"];
    an array joins the strings of its elements, and throws when one of
    them does. *)
Fixpoint ToString (v : value) : option string :=
  match v with
  | VUndefined => Some "undefined"
  | VNull => Some "null"
  | VBool true => Some "true"
  | VBool false => Some "false"
  | VNum x => Some (NumberToString js x)
  | VStr s => Some s
  | VArr elems =>
      option_map (join ",")
        ((fix strings (elems : list value) : option (list string) :=
            match elems with
            | [] => Some []
            | e :: rest =>
                match match e with
                      | VUndefined | VNull => Some ""
                      | _ => ToString e
                      end with
                | None => None
                | Some s => option_map (cons s) (strings rest)
                end
            end) elems)
  | VObj props =>
      if has_own "toString" props then None else Some "[object Object]"
  end.

(** [ToNumber], as [*] and [<] apply it to an operand that came from
    JSON; [None] is the [TypeError] of [ToString]. *)
Definition ToNumber (v : value) : option float :=
  match v with
  | VUndefined => Some PrimFloat.nan
  | VNull => Some 0%float
  | VBool true => Some 1%float
  | VBool false => Some 0%float
  | VNum x => Some x
  | VStr s => Some (StringToNumber js s)
  | VArr _ | VObj _ => option_map (StringToNumber js) (ToString v)
  end.
End Conversions.

(** A non-negative integer (a count) as a JavaScript number. *)
Definition of_Z (n : Z) : float :=
  SF2Prim (binary_normalize prec emax n 0 false).

Definition of_nat (n : nat) : float := of_Z (Z.of_nat n).

Definition decimal (n : Z) : string := NilZero.string_of_int (Z.to_int n).

(** The integer nearest to [10 * m * 2^e], the larger one on a tie. *)
Definition tenths (m e : Z) : Z :=
  (20 * m * 2 ^ Z.max 0 e + 2 ^ Z.max 0 (- e)) / (2 * 2 ^ Z.max 0 (- e)).

(** [x.toFixed(1)] (Number.prototype.toFixed with one fraction digit). *)
Definition toFixed1 (js : Engine) (x : float) : string :=
  match Prim2SF x with
  | S754_nan => "NaN"
  | S754_infinity false => "Infinity"
  | S754_infinity true => "-Infinity"
  | S754_zero _ => "0.0"
  | S754_finite s m e =>
      if (10 ^ 21 * 2 ^ Z.max 0 (- e) <=? Z.pos m * 2 ^ Z.max 0 e)%Z
      then NumberToString js x
      else
        let n := tenths (Z.pos m) e in
        (if s then "-" else "") ++ decimal (n / 10) ++ "." ++ decimal (n mod 10)
  end.

(** [Math.round(x)]: the integer nearest to [x], the larger one on a tie. *)
Definition Math_round (x : float) : float :=
  match Prim2SF x with
  | S754_finite s m e =>
      if (0 <=? e)%Z then x
      else
        let v := if s then Z.neg m else Z.pos m in
        let n := ((2 * v + 2 ^ (- e)) / (2 * 2 ^ (- e)))%Z in
        SF2Prim (binary_normalize prec emax n 0 s)
  | _ => x
  end.

End Js.

Import Js.

(* ================================================================= *)
(** ** Documents and collections *)

Module Store.
Record t : Type := mk {
  id : string;
  name : string;
  slug : string;
  description : value;
  domain : value;
  isActive : bool;
  createdAt : Z;
  updatedAt : Z
}.
End Store.

Module Product.
Record t : Type := mk {
  id : string;
  name : string;
  slug : string;
  description : value;
  price : float;
  inventory : float;
  images : value;
  isActive : bool;
  storeId : string;
  createdAt : Z;
  updatedAt : Z
}.
End Product.

Module OrderItem.
Record t : Type := mk {
  productId : value;
  productName : string;
  quantity : value;
  price : float;
  total : float
}.
End OrderItem.

Module Order.
Record t : Type := mk {
  id : string;
  orderNumber : string;
  storeId : string;
  items : list OrderItem.t;
  total : value;
  status : value;
  customerInfo : value;
  createdAt : Z;
  updatedAt : Z;
  (* set by the payment verification only *)
  paymentStatus : option string;
  razorpayOrderId : option value;
  razorpayPaymentId : option value;
  paymentCompletedAt : option Z
}.
End Order.

(** The database: the [stores], [products] and [orders] collections. *)
Record DB : Type := mkDB {
  stores : list Store.t;
  products : list Product.t;
  orders : list Order.t
}.

(** What a request reads from outside the database: the value [uuidv4()]
    returns and the clock in milliseconds. The readings one request makes
    ([Date.now()], [new Date()]) are taken at the same instant [now]. *)
Record Env : Type := mkEnv {
  uuidv4 : string;
  now : Z
}.

(* ================================================================= *)
(** ** External services *)

Module Razorpay.
(** The argument of [razorpay.orders.create]; [notes] and [storeId] are
    the two parts of the [notes: { ...notes, storeId }] object. *)
Record order_request : Type := mk {
  amount : float;
  currency : value;
  receipt : value;
  notes : value;
  storeId : value;
  payment_capture : Z
}.
End Razorpay.

Record Services : Type := {
  (** [process.env.RAZORPAY_KEY_SECRET] *)
  RAZORPAY_KEY_SECRET : option string;
  (** [crypto.createHmac('sha256', key).update(msg).digest('hex')] *)
  hmac_sha256_hex : string -> string -> string;
  (** the message of the error [createHmac] throws when the key is undefined *)
  missing_key_message : string;
  (** [new Razorpay({ key_id, key_secret })]: the message of the error
      the constructor throws, if it throws *)
  razorpay_new : option string;
  (** [razorpay.orders.create(req)]: the order handle, or the message of
      the error it throws *)
  razorpay_orders_create : Razorpay.order_request -> string + value;
  (** MongoDB's reading of a filter value that is an object, for a field
      that holds a string: the predicate it denotes (a document of query
      operators such as [$ne]; an embedded document, which no string
      equals), or the message of the error the server answers (an unknown
      operator) *)
  query_object : list (string * value) -> string + (string -> bool);
  (** MongoDB refuses an [$in] list one element of which is a document of
      query operators *)
  in_list_refused : list value -> bool
}.

(* ================================================================= *)
(** ** Responses *)

Module Summary.
Record t : Type := mk {
  totalOrders : nat;
  completedOrders : nat;
  pendingOrders : nat;
  totalProducts : nat;
  conversionRate : value
}.
End Summary.

Inductive body : Type :=
| Error (error : string)              (* { error } *)
| Failure (error : string)            (* { success: false, error } *)
| Success (message : string)          (* { success: true, message } *)
| GatewayOrder (order : value)        (* { success: true, order } *)
| StoreDoc (store : Store.t)
| OrderDoc (order : Order.t)
| Analytics (summary : Summary.t).    (* { summary, ... }: the counts and
                                         the rate of [summary] *)

(** [NextResponse.json(payload, { status })]; the status defaults to 200. *)
Record response : Type := Json {
  payload : body;
  status : nat
}.

Definition internal_server_error : response :=
  Json (Error "Internal server error") 500.

(** The option monad carries a thrown exception as [None]. *)
Definition bind {A B : Type} (m : option A) (k : A -> option B) : option B :=
  match m with
  | Some a => k a
  | None => None
  end.

Notation "x <- m ;; k" := (bind m (fun x => k))
  (at level 61, m at next level, right associativity).

(** [try { attempt } catch { handler }] *)
Definition try_catch {A : Type} (attempt : option A) (handler : A) : A :=
  match attempt with
  | Some a => a
  | None => handler
  end.

(* ================================================================= *)
(** ** Slug generator *)

(** The class [[a-z0-9]]. *)
Definition is_slug_char (c : ascii) : bool :=
  let n := nat_of_ascii c in
  ((97 <=? n) && (n <=? 122) || (48 <=? n) && (n <=? 57))%nat.

(** [.replace(/[^a-z0-9]+/g, '-')]: every maximal run of characters
    outside the class becomes one dash; [in_run] tells that the previous
    character was already outside it. *)
Fixpoint replace_runs (in_run : bool) (s : string) : string :=
  match s with
  | EmptyString => EmptyString
  | String c rest =>
      if is_slug_char c then String c (replace_runs false rest)
      else if in_run then replace_runs true rest
      else String "-" (replace_runs true rest)
  end.

Definition drop_leading_dash (s : string) : string :=
  match s with
  | String "-" rest => rest
  | _ => s
  end.

Fixpoint drop_trailing_dash (s : string) : string :=
  match s with
  | EmptyString => EmptyString
  | String "-" EmptyString => EmptyString
  | String c rest => String c (drop_trailing_dash rest)
  end.

(** [.replace(/(^-|-$)/g, '')] *)
Definition strip_edge_dashes (s : string) : string :=
  drop_trailing_dash (drop_leading_dash s).

(** Lower-casing restricted to ASCII, the instance used in the examples. *)
Definition ascii_lower (c : ascii) : ascii :=
  let n := nat_of_ascii c in
  if ((65 <=? n) && (n <=? 90))%nat then ascii_of_nat (n + 32) else c.

Fixpoint ascii_toLowerCase (s : string) : string :=
  match s with
  | EmptyString => EmptyString
  | String c rest => String (ascii_lower c) (ascii_toLowerCase rest)
  end.

(* ================================================================= *)
(** ** Route handlers *)

Section Handlers.
Variable js : Engine.
Variable svc : Services.

(** [generateSlug(name)] for a string [name]. *)
Definition generateSlug (name : string) : string :=
  strip_edge_dashes (replace_runs false (toLowerCase js name)).

(** [validateStoreAccess(storeId)]: [findOne({ id: storeId, isActive: true })],
    then [!!store]. *)
Definition validateStoreAccess (db : DB) (storeId : string) : bool :=
  match find (fun s => String.eqb (Store.id s) storeId && Store.isActive s)
             (stores db) with
  | Some _ => true
  | None => false
  end.

(** *** POST /api/stores *)

Definition POST_stores (env : Env) (db : DB) (body : value) : response * DB :=
  try_catch
    (name <- get body "name" ;;
     description <- get body "description" ;;
     domain <- get body "domain" ;;
     if negb (ToBoolean name)
     then Some (Json (Error "Store name is required") 400, db)
     else
       match name with
       | VStr name =>
           let slug := generateSlug name in
           (* Check if slug already exists *)
           match find (fun s => String.eqb (Store.slug s) slug) (stores db) with
           | Some existingStore =>
               Some (Json (Error "Store name already taken") 400, db)
           | None =>
               let newStore :=
                 {| Store.id := uuidv4 env;
                    Store.name := name;
                    Store.slug := slug;
                    Store.description := or_else description (VStr "");
                    Store.domain := or_else domain VNull;
                    Store.isActive := true;
                    Store.createdAt := now env;
                    Store.updatedAt := now env |} in
               Some (Json (StoreDoc newStore) 201,
                     mkDB (stores db ++ [newStore]) (products db) (orders db))
           end
       | _ => None (* name.toLowerCase is not a function *)
       end)
    (internal_server_error, db).

(** *** POST /api/orders/:storeId *)

(** [items.map(item => item.productId)] *)
Fixpoint productIds_of (items : list value) : option (list value) :=
  match items with
  | [] => Some []
  | item :: rest =>
      productId <- get item "productId" ;;
      productIds <- productIds_of rest ;;
      Some (productId :: productIds)
  end.

(** [find({ id: { $in: productIds }, storeId, isActive: true }).toArray()],
    on a list the server accepts: the ids of the collection are strings, so
    an element of the list selects the products whose id it is. *)
Definition find_products (db : DB) (storeId : string) (productIds : list value)
  : list Product.t :=
  filter (fun p => existsb (fun v => is_string v (Product.id p)) productIds
                   && String.eqb (Product.storeId p) storeId
                   && Product.isActive p)
         (products db).

(** The callback of [items.map] that builds one order item; reading
    [product.price] throws when [products.find] returned [undefined], and
    the product [product.price * item.quantity] throws when the quantity
    has no primitive value. *)
Definition orderItem_of (found : list Product.t) (item : value)
  : option OrderItem.t :=
  productId <- get item "productId" ;;
  product <- find (fun p => is_string productId (Product.id p)) found ;;
  quantity <- get item "quantity" ;;
  q <- ToNumber js quantity ;;
  let itemTotal := (Product.price product * q)%float in
  Some {| OrderItem.productId := productId;
          OrderItem.productName := Product.name product;
          OrderItem.quantity := quantity;
          OrderItem.price := Product.price product;
          OrderItem.total := itemTotal |}.

(** The whole [items.map(...)] with the running [calculatedTotal], which
    each call of the callback increases by its [itemTotal]. *)
Fixpoint orderItems_of (found : list Product.t) (items : list value)
  (calculatedTotal : float) : option (list OrderItem.t * float) :=
  match items with
  | [] => Some ([], calculatedTotal)
  | item :: rest =>
      orderItem <- orderItem_of found item ;;
      r <- orderItems_of found rest
             (calculatedTotal + OrderItem.total orderItem)%float ;;
      Some (orderItem :: fst r, snd r)
  end.

(** [s.slice(-n)] *)
Definition slice_last (n : nat) (s : string) : string :=
  substring (String.length s - n) n s.

(** [`ORD-${Date.now().toString().slice(-8)}`] *)
Definition orderNumber_at (t : Z) : string :=
  "ORD-" ++ slice_last 8 (decimal t).

(** [const newOrder = { ... }] *)
Definition newOrder (env : Env) (storeId : string)
  (orderItems : list OrderItem.t) (calculatedTotal : float)
  (customerInfo total : value) : Order.t :=
  {| Order.id := uuidv4 env;
     Order.orderNumber := orderNumber_at (now env);
     Order.storeId := storeId;
     Order.items := orderItems;
     Order.total := or_else total (VNum calculatedTotal);
     Order.status := VStr "pending";
     Order.customerInfo := or_else customerInfo (VObj []);
     Order.createdAt := now env;
     Order.updatedAt := now env;
     Order.paymentStatus := None;
     Order.razorpayOrderId := None;
     Order.razorpayPaymentId := None;
     Order.paymentCompletedAt := None |}.

(** The handler after [const { items, customerInfo, total } = body]. *)
Definition createOrder (env : Env) (db : DB) (storeId : string)
  (items customerInfo total : value) : option (response * DB) :=
  match items with
  | VArr ((_ :: _) as items) =>
      (* Validate store exists *)
      if negb (validateStoreAccess db storeId)
      then Some (Json (Error "Store not found") 404, db)
      else
        (* Validate products exist *)
        productIds <- productIds_of items ;;
        if in_list_refused svc productIds then None else
        let found := find_products db storeId productIds in
        if negb (List.length found =? List.length productIds)%nat
        then Some (Json (Error "One or more products not found") 400, db)
        else
          (* Calculate total if not provided *)
          r <- orderItems_of found items 0%float ;;
          let order := newOrder env storeId (fst r) (snd r) customerInfo total in
          Some (Json (OrderDoc order) 201,
                mkDB (stores db) (products db) (orders db ++ [order]))
  | _ => Some (Json (Error "Order items are required") 400, db)
  end.

Definition POST_orders (env : Env) (db : DB) (storeId : string) (body : value)
  : response * DB :=
  try_catch
    (items <- get body "items" ;;
     customerInfo <- get body "customerInfo" ;;
     total <- get body "total" ;;
     createOrder env db storeId items customerInfo total)
    (internal_server_error, db).

(** *** POST /api/payment/create-order *)

(** The response, and the requests handed to [razorpay.orders.create].
    The inner [try] answers 500 with the message of what it caught: the
    error of the constructor, the [TypeError] of [amount * 100], or the
    error of the gateway call. *)
Definition POST_payment_create_order (body : value)
  : response * list Razorpay.order_request :=
  try_catch
    (amount <- get body "amount" ;;
     currency <- get body "currency" ;;
     receipt <- get body "receipt" ;;
     notes <- get body "notes" ;;
     storeId <- get body "storeId" ;;
     let currency := match currency with
                     | VUndefined => VStr "INR"
                     | _ => currency
                     end in
     if negb (ToBoolean amount) || negb (ToBoolean receipt)
     then Some (Json (Error "Amount and receipt are required") 400, [])
     else
       (* Initialize Razorpay *)
       match razorpay_new svc with
       | Some message => Some (Json (Failure message) 500, [])
       | None =>
           match ToNumber js amount with
           | None => Some (Json (Failure (TypeError_message js)) 500, [])
           | Some x =>
               (* Create order *)
               let req :=
                 {| Razorpay.amount := Math_round (x * 100)%float;
                    Razorpay.currency := currency;
                    Razorpay.receipt := receipt;
                    Razorpay.notes := notes;
                    Razorpay.storeId := storeId;
                    Razorpay.payment_capture := 1 |} in
               match razorpay_orders_create svc req with
               | inr order => Some (Json (GatewayOrder order) 200, [req])
               | inl message => Some (Json (Failure message) 500, [req])
               end
           end
       end)
    (internal_server_error, []).

(** *** POST /api/payment/verify *)

(** A filter value for a field that holds a string: a string selects the
    documents whose field equals it; an object is read by the server; any
    other value ([null], a number, a boolean, an array) equals no string. *)
Definition field_filter (q : value) : string + (string -> bool) :=
  match q with
  | VStr s => inr (String.eqb s)
  | VObj props => query_object svc props
  | _ => inr (fun _ => false)
  end.

(** The filter [{ id: orderId, storeId }] on the orders collection, once
    its two values are read. *)
Definition order_matches (id_ok storeId_ok : string -> bool) (o : Order.t)
  : bool :=
  id_ok (Order.id o) && storeId_ok (Order.storeId o).

(** The [$set] of the verification on one order. *)
Definition set_paid (env : Env) (razorpay_order_id razorpay_payment_id : value)
  (o : Order.t) : Order.t :=
  {| Order.id := Order.id o;
     Order.orderNumber := Order.orderNumber o;
     Order.storeId := Order.storeId o;
     Order.items := Order.items o;
     Order.total := Order.total o;
     Order.status := VStr "paid";
     Order.customerInfo := Order.customerInfo o;
     Order.createdAt := Order.createdAt o;
     Order.updatedAt := now env;
     Order.paymentStatus := Some "completed";
     Order.razorpayOrderId := Some razorpay_order_id;
     Order.razorpayPaymentId := Some razorpay_payment_id;
     Order.paymentCompletedAt := Some (now env) |}.

(** [updateOne(filter, { $set })]: the first matching document is
    rewritten; the result is the collection and [matchedCount]. *)
Fixpoint updateOne {A : Type} (matches : A -> bool) (set : A -> A)
  (docs : list A) : list A * nat :=
  match docs with
  | [] => ([], 0%nat)
  | d :: rest =>
      if matches d then (set d :: rest, 1%nat)
      else let r := updateOne matches set rest in (d :: fst r, snd r)
  end.

(** The signature the handler recomputes; [None] is the [TypeError] of
    the concatenation [razorpay_order_id + '|' + razorpay_payment_id]. *)
Definition generatedSignature (key : string)
  (razorpay_order_id razorpay_payment_id : value) : option string :=
  order_id <- ToString js razorpay_order_id ;;
  payment_id <- ToString js razorpay_payment_id ;;
  Some (hmac_sha256_hex svc key (order_id ++ "|" ++ payment_id)).

Definition POST_payment_verify (env : Env) (db : DB) (body : value)
  : response * DB :=
  try_catch
    (razorpay_order_id <- get body "razorpay_order_id" ;;
     razorpay_payment_id <- get body "razorpay_payment_id" ;;
     razorpay_signature <- get body "razorpay_signature" ;;
     orderId <- get body "orderId" ;;
     storeId <- get body "storeId" ;;
     if negb (ToBoolean razorpay_order_id)
        || negb (ToBoolean razorpay_payment_id)
        || negb (ToBoolean razorpay_signature)
     then Some (Json (Error "Missing payment verification parameters") 400, db)
     else
       match RAZORPAY_KEY_SECRET svc with
       | None => Some (Json (Failure (missing_key_message svc)) 500, db)
       | Some key =>
           (* Verify signature *)
           match generatedSignature key razorpay_order_id
                   razorpay_payment_id with
           | None => Some (Json (Failure (TypeError_message js)) 500, db)
           | Some generated =>
               if negb (is_string razorpay_signature generated)
               then Some (Json (Failure "Invalid payment signature") 400, db)
               else
                 (* Update order status in database *)
                 match field_filter orderId, field_filter storeId with
                 | inr id_ok, inr storeId_ok =>
                     let result :=
                       updateOne (order_matches id_ok storeId_ok)
                         (set_paid env razorpay_order_id razorpay_payment_id)
                         (orders db) in
                     let db' := mkDB (stores db) (products db) (fst result) in
                     if (snd result =? 0)%nat
                     then Some (Json (Error "Order not found") 404, db')
                     else
                       Some (Json (Success "Payment verified successfully") 200,
                             db')
                 | inl message, _ | _, inl message =>
                     Some (Json (Failure message) 500, db)
                 end
           end
       end)
    (internal_server_error, db).

(** *** GET /api/analytics/:storeId *)

(** A stored [status] against the string a filter asks for: equal to it,
    or an array that holds it. *)
Definition status_is (v : value) (s : string) : bool :=
  match v with
  | VStr t => String.eqb t s
  | VArr elems => existsb (fun e => is_string e s) elems
  | _ => false
  end.

(** [{ storeId, createdAt: { $gte: startDate } }] *)
Definition in_window (storeId : string) (startDate : Z) (o : Order.t) : bool :=
  String.eqb (Order.storeId o) storeId && (startDate <=? Order.createdAt o)%Z.

(** [status: { $in: ['paid', 'completed'] }] *)
Definition paid_or_completed (o : Order.t) : bool :=
  status_is (Order.status o) "paid" || status_is (Order.status o) "completed".

Definition countDocuments {A : Type} (filter_ : A -> bool) (docs : list A) : nat :=
  List.length (filter filter_ docs).

(** [totalOrders > 0 ? ((completedOrders / totalOrders) * 100).toFixed(1) : 0] *)
Definition conversionRate_of (completedOrders totalOrders : nat) : value :=
  if (0 <? totalOrders)%nat
  then VStr (toFixed1 js (of_nat completedOrders / of_nat totalOrders * 100)%float)
  else VNum 0%float.

(** The four counts and the rate of the [summary] object of the report;
    [startDate] is the start of the window, which the handler derives from
    the [period] parameter and the clock. The rest of the report (the
    revenue and the lists [topProducts], [recentOrders] and [chartData],
    which the database server aggregates) is not part of the payload
    modelled here, so the payload says nothing about it. *)
Definition GET_analytics (db : DB) (storeId : string) (startDate : Z)
  : response :=
  (* Validate store exists *)
  if negb (validateStoreAccess db storeId)
  then Json (Error "Store not found") 404
  else
    let totalOrders :=
      countDocuments (in_window storeId startDate) (orders db) in
    let completedOrders :=
      countDocuments (fun o => in_window storeId startDate o
                               && paid_or_completed o) (orders db) in
    let pendingOrders :=
      countDocuments (fun o => in_window storeId startDate o
                               && status_is (Order.status o) "pending")
                     (orders db) in
    let totalProducts :=
      countDocuments (fun p => String.eqb (Product.storeId p) storeId
                               && Product.isActive p) (products db) in
    Json (Analytics
            {| Summary.totalOrders := totalOrders;
               Summary.completedOrders := completedOrders;
               Summary.pendingOrders := pendingOrders;
               Summary.totalProducts := totalProducts;
               Summary.conversionRate :=
                 conversionRate_of completedOrders totalOrders |})
         200.

End Handlers.

(* ================================================================= *)
(** ** Specification vocabulary *)

(** The sum the handler accumulates in [calculatedTotal]: the item totals
    added from the left, starting from [acc]. *)
Definition sum_from (acc : float) (totals : list float) : float :=
  fold_left PrimFloat.add totals acc.

(** The filter of the batch lookup on one requested id: [productId]
    names an active product of the store. *)
Definition resolves (db : DB) (storeId : string) (productId : value) : bool :=
  existsb (fun p => is_string productId (Product.id p)
                    && String.eqb (Product.storeId p) storeId
                    && Product.isActive p)
          (products db).

(** The product ids of a cart, each one once. *)
Definition distinct (productIds : list string) : list string :=
  nodup string_dec productIds.

(** [line] is the snapshot of the cart line [item]: an active product [p]
    of the store carries the id the line asks for, the quantity is a number
    [q], and the order item holds the name and price of [p], [q], and
    [price * q] as its total. *)
Definition snapshot_of (db : DB) (storeId : string) (item : value)
  (line : OrderItem.t) : Prop :=
  exists (p : Product.t) (q : float),
    In p (products db)
    /\ Product.storeId p = storeId
    /\ Product.isActive p = true
    /\ get item "productId" = Some (VStr (Product.id p))
    /\ get item "quantity" = Some (VNum q)
    /\ line = {| OrderItem.productId := VStr (Product.id p);
                 OrderItem.productName := Product.name p;
                 OrderItem.quantity := VNum q;
                 OrderItem.price := Product.price p;
                 OrderItem.total := (Product.price p * q)%float |}.

(** [n] of the documents [docs] satisfy [P]. *)
Inductive counts {A : Type} (P : A -> Prop) : list A -> nat -> Prop :=
| counts_nil : counts P [] 0
| counts_in (d : A) (docs : list A) (n : nat) :
    P d -> counts P docs n -> counts P (d :: docs) (S n)
| counts_out (d : A) (docs : list A) (n : nat) :
    ~ P d -> counts P docs n -> counts P (d :: docs) n.

(** The order belongs to the store and was created at the start of the
    window or later. *)
Definition placed_in_window (storeId : string) (startDate : Z) (o : Order.t)
  : Prop :=
  Order.storeId o = storeId /\ (startDate <= Order.createdAt o)%Z.

(** The stored status of the order is the string [s], or an array one
    element of which is [s]. *)
Definition has_status (o : Order.t) (s : string) : Prop :=
  Order.status o = VStr s
  \/ exists elems, Order.status o = VArr elems /\ In (VStr s) elems.

(** The order counts as completed: paid or completed. *)
Definition is_completed (o : Order.t) : Prop :=
  has_status o "paid" \/ has_status o "completed".

(** [n] is the integer nearest to ten times [m * 2^e], the larger one on a
    tie: [n - 1/2 <= 10 * m * 2^e < n + 1/2]. *)
Definition nearest_tenth (m e n : Z) : Prop :=
  if (0 <=? e)%Z then n = (10 * m * 2 ^ e)%Z
  else (2 ^ (- e) * (2 * n - 1) <= 20 * m < 2 ^ (- e) * (2 * n + 1))%Z.

(** [m * 2^e < 10^21] *)
Definition below_1e21 (m e : Z) : Prop :=
  if (0 <=? e)%Z then (m * 2 ^ e < 10 ^ 21)%Z
  else (m < 10 ^ 21 * 2 ^ (- e))%Z.

(** [rate] is the number [x] written with one digit after the point, as
    Number.prototype.toFixed specifies it: for a finite [x] of absolute
    value [m * 2^e] below [10^21], the digits of the nearest integer to ten
    times that value, with the point before the last digit and the sign in
    front. *)
Definition one_fraction_digit (js : Engine) (x : float) (rate : string) : Prop :=
  match Prim2SF x with
  | S754_nan => rate = "NaN"
  | S754_infinity negative => rate = if negative then "-Infinity" else "Infinity"
  | S754_zero _ => rate = "0.0"
  | S754_finite negative m e =>
      (below_1e21 (Z.pos m) e ->
       exists n,
         nearest_tenth (Z.pos m) e n
         /\ rate = (if negative then "-" else "")
                   ++ decimal (n / 10) ++ "." ++ decimal (n mod 10))
      /\ (~ below_1e21 (Z.pos m) e -> rate = NumberToString js x)
  end.

(* ================================================================= *)
(** ** Example data *)

(** An engine and services to run the handlers on concrete requests. The
    examples use string identifiers and numeric quantities and amounts, so
    the two number/string conversions of the engine are never reached; the
    digest is a stand-in that is injective in the key and the message. *)
Definition example_engine : Engine :=
  {| toLowerCase := ascii_toLowerCase;
     NumberToString := fun _ => "NaN";
     StringToNumber := fun _ => PrimFloat.nan;
     TypeError_message := "Cannot convert object to primitive value" |}.

Definition example_services : Services :=
  {| RAZORPAY_KEY_SECRET := Some "key_secret";
     hmac_sha256_hex := fun key msg => "hmac:" ++ key ++ ":" ++ msg;
     missing_key_message := "The key argument must be of type string";
     razorpay_new := None;
     razorpay_orders_create :=
       fun req => inr (VObj [("id", VStr "order_R1");
                             ("amount", VNum (Razorpay.amount req));
                             ("currency", Razorpay.currency req)]);
     query_object := fun _ => inr (fun _ => false);
     in_list_refused := fun _ => false |}.

Definition acme : Store.t :=
  {| Store.id := "s1"; Store.name := "Acme"; Store.slug := "acme";
     Store.description := VStr ""; Store.domain := VNull;
     Store.isActive := true; Store.createdAt := 1000; Store.updatedAt := 1000 |}.

(** A soft-deleted store. *)
Definition closed_shop : Store.t :=
  {| Store.id := "s2"; Store.name := "Closed Shop"; Store.slug := "closed-shop";
     Store.description := VStr ""; Store.domain := VNull;
     Store.isActive := false; Store.createdAt := 900; Store.updatedAt := 950 |}.

Definition widget : Product.t :=
  {| Product.id := "p1"; Product.name := "Widget"; Product.slug := "widget";
     Product.description := VStr ""; Product.price := 9.99%float;
     Product.inventory := 3%float; Product.images := VArr [];
     Product.isActive := true; Product.storeId := "s1";
     Product.createdAt := 1100; Product.updatedAt := 1100 |}.

Definition gadget : Product.t :=
  {| Product.id := "p2"; Product.name := "Gadget"; Product.slug := "gadget";
     Product.description := VStr ""; Product.price := 5%float;
     Product.inventory := 10%float; Product.images := VArr [];
     Product.isActive := true; Product.storeId := "s1";
     Product.createdAt := 1200; Product.updatedAt := 1200 |}.

Definition example_db : DB :=
  {| stores := [acme; closed_shop]; products := [widget; gadget]; orders := [] |}.

Definition example_env : Env := {| uuidv4 := "o1"; now := 1730000000123 |}.

(** [{ productId, quantity }] *)
Definition cart_line (productId : string) (quantity : float) : value :=
  VObj [("productId", VStr productId); ("quantity", VNum quantity)].

(** The scenario of the specification: two widgets at 9.99. *)
Definition scenario_body : value :=
  VObj [("items", VArr [cart_line "p1" 2]);
        ("customerInfo", VObj [("name", VStr "Ada"); ("email", VStr "ada@example.org")])].

(** A cart with two lines for the same product. *)
Definition repeated_cart_body : value :=
  VObj [("items", VArr [cart_line "p1" 1; cart_line "p1" 1])].

(** One gadget at 5, with a caller-supplied total of 0. *)
Definition zero_total_body : value :=
  VObj [("items", VArr [cart_line "p2" 1]); ("total", VNum 0)].

(** One gadget at 5, with a caller-supplied total of 1, and no customer. *)
Definition override_body : value :=
  VObj [("items", VArr [cart_line "p2" 1]); ("total", VNum 1)].

Definition negative_amount_body : value :=
  VObj [("amount", VNum (-5)); ("receipt", VStr "rcpt_1")].

Definition example_order (id : string) (status : string) (createdAt : Z)
  : Order.t :=
  {| Order.id := id;
     Order.orderNumber := "ORD-00000001";
     Order.storeId := "s1";
     Order.items := [];
     Order.total := VNum 5;
     Order.status := VStr status;
     Order.customerInfo := VObj [];
     Order.createdAt := createdAt;
     Order.updatedAt := createdAt;
     Order.paymentStatus := None;
     Order.razorpayOrderId := None;
     Order.razorpayPaymentId := None;
     Order.paymentCompletedAt := None |}.

(** Three orders of the store: one paid, two pending. *)
Definition orders_db : DB :=
  {| stores := [acme; closed_shop];
     products := [widget; gadget];
     orders := [example_order "o1" "paid" 2000;
                example_order "o2" "pending" 2100;
                example_order "o3" "pending" 2200] |}.

Definition verify_body (razorpay_signature orderId : string) : value :=
  VObj [("razorpay_order_id", VStr "order_R1");
        ("razorpay_payment_id", VStr "pay_1");
        ("razorpay_signature", VStr razorpay_signature);
        ("orderId", VStr orderId);
        ("storeId", VStr "s1")].

Definition store_body (name : string) : value := VObj [("name", VStr name)].

(* ================================================================= *)
(** ** The other routes *)

(** [NextResponse.json(x, { status })] of the routes below: [inl message]
    is the body [{ error: message }], [inr x] the document the route
    answers with. *)
Record reply (A : Type) : Type := Reply {
  answer : string + A;
  code : nat
}.
Arguments Reply {A} answer code.
Arguments answer {A} r.
Arguments code {A} r.

(** [parseFloat] and [parseInt] on the string of their argument. *)
Record Parsers : Type := {
  parseFloat : string -> float;
  parseInt : string -> float
}.

(** [.sort({ createdAt: -1 })]: newest first. Documents created at the same
    instant keep their collection order; the server leaves the order of
    such ties open. *)
Fixpoint insert_newest {A : Type} (createdAt : A -> Z) (d : A)
  (sorted : list A) : list A :=
  match sorted with
  | [] => [d]
  | x :: rest =>
      if (createdAt x <=? createdAt d)%Z then d :: sorted
      else x :: insert_newest createdAt d rest
  end.

Definition newest_first {A : Type} (createdAt : A -> Z) (docs : list A)
  : list A :=
  fold_right (insert_newest createdAt) [] docs.

(** [deleteOne(filter)]: the first matching document is removed; the
    result is the collection and [deletedCount]. *)
Fixpoint deleteOne {A : Type} (matches : A -> bool) (docs : list A)
  : list A * nat :=
  match docs with
  | [] => ([], 0%nat)
  | d :: rest =>
      if matches d then (rest, 1%nat)
      else let r := deleteOne matches rest in (d :: fst r, snd r)
  end.

(** Whether a value stored in [isActive] satisfies the filter
    [isActive: true]: the boolean [true], or an array that holds it.
    [Product.isActive] keeps this much of the stored value. *)
Definition satisfies_true (v : value) : bool :=
  match v with
  | VBool b => b
  | VArr elems => existsb (fun e => match e with VBool true => true | _ => false end) elems
  | _ => false
  end.

(** The class [\w]. *)
Definition is_word_char (c : ascii) : bool :=
  let n := nat_of_ascii c in
  ((97 <=? n) && (n <=? 122) || (65 <=? n) && (n <=? 90)
   || (48 <=? n) && (n <=? 57) || (n =? 95))%nat.

(** [l.toUpperCase()] for one character of the class [\w]. *)
Definition word_upper (c : ascii) : ascii :=
  let n := nat_of_ascii c in
  if ((97 <=? n) && (n <=? 122))%nat then ascii_of_nat (n - 32) else c.

(** [s.replace(pattern, '')] for a string [pattern]: the first occurrence
    is removed. *)
Fixpoint remove_first (pattern s : string) : string :=
  if String.prefix pattern s then substring (String.length pattern) (String.length s) s
  else match s with
       | EmptyString => EmptyString
       | String c rest => String c (remove_first pattern rest)
       end.

(** [.replace(/-/g, ' ')] *)
Fixpoint dashes_to_spaces (s : string) : string :=
  match s with
  | EmptyString => EmptyString
  | String c rest =>
      String (if Ascii.eqb c "-" then " "%char else c) (dashes_to_spaces rest)
  end.

(** [.replace(/\b\w/g, l => l.toUpperCase())]: a word character that
    starts the string or follows a character outside [\w] is upper-cased;
    [after_word] tells that the previous character was in [\w]. *)
Fixpoint capitalize_words (after_word : bool) (s : string) : string :=
  match s with
  | EmptyString => EmptyString
  | String c rest =>
      String (if is_word_char c && negb after_word then word_upper c else c)
             (capitalize_words (is_word_char c) rest)
  end.

(** The name of the demo store of a slug. *)
Definition demo_name (slug : string) : string :=
  capitalize_words false (dashes_to_spaces (remove_first "demo-" slug)).

Definition demoStore (env : Env) (slug : string) : Store.t :=
  {| Store.id := slug;
     Store.name := demo_name slug;
     Store.slug := slug;
     Store.description := VStr "Demo store with sample products";
     Store.domain := VNull;
     Store.isActive := true;
     Store.createdAt := now env;
     Store.updatedAt := now env |}.

Definition demoProduct (env : Env) (slug : string) (id name productSlug : string)
  (description : string) (price inventory : float) : Product.t :=
  {| Product.id := id;
     Product.name := name;
     Product.slug := productSlug;
     Product.description := VStr description;
     Product.price := price;
     Product.inventory := inventory;
     Product.images := VArr [];
     Product.isActive := true;
     Product.storeId := slug;
     Product.createdAt := now env;
     Product.updatedAt := now env |}.

Definition demoProducts (env : Env) (slug : string) : list Product.t :=
  [ demoProduct env slug "demo-product-1" "Premium Wireless Headphones"
      "premium-wireless-headphones"
      "High-quality wireless headphones with noise cancellation" 299.99 50;
    demoProduct env slug "demo-product-2" "Smart Fitness Watch"
      "smart-fitness-watch"
      "Track your health and fitness with this advanced smartwatch" 199.99 25;
    demoProduct env slug "demo-product-3" "Portable Bluetooth Speaker"
      "portable-bluetooth-speaker"
      "Compact speaker with powerful sound and long battery life" 89.99 100 ].

Section OtherRoutes.
Variable js : Engine.
Variable parsers : Parsers.

(** *** GET /api/stores *)

Definition GET_stores (db : DB) : reply (list Store.t) :=
  Reply (inr (newest_first Store.createdAt (filter Store.isActive (stores db))))
        200.

(** *** GET /api/storefront/:storeSlug, in the catch-all route *)

(** [find({ storeId: store.id, isActive: true }).sort({ createdAt: -1 })
    .limit(20).toArray()] *)
Definition storefront_products (db : DB) (store : Store.t) : list Product.t :=
  firstn 20
    (newest_first Product.createdAt
       (filter (fun p => String.eqb (Product.storeId p) (Store.id store)
                         && Product.isActive p)
               (products db))).

(** [findOne({ slug, isActive: true })] *)
Definition find_storefront (db : DB) (slug : string) : option Store.t :=
  find (fun s => String.eqb (Store.slug s) slug && Store.isActive s) (stores db).

Definition GET_storefront (db : DB) (slug : string)
  : reply (Store.t * list Product.t) :=
  match find_storefront db slug with
  | None => Reply (inl "Store not found") 404
  | Some store => Reply (inr (store, storefront_products db store)) 200
  end.

(** *** GET /api/storefront/:slug, in the route of its own *)

Definition GET_storefront_page (env : Env) (db : DB) (slug : string)
  : reply (Store.t * list Product.t) :=
  match find_storefront db slug with
  | None =>
      (* Check if this is a demo store *)
      if String.prefix "demo-" slug
      then Reply (inr (demoStore env slug, demoProducts env slug)) 200
      else Reply (inl "Store not found") 404
  | Some store => Reply (inr (store, storefront_products db store)) 200
  end.

(** *** POST /api/products/:storeId *)

Definition POST_products (env : Env) (db : DB) (storeId : string) (body : value)
  : reply Product.t * DB :=
  try_catch
    (name <- get body "name" ;;
     description <- get body "description" ;;
     price <- get body "price" ;;
     inventory <- get body "inventory" ;;
     images <- get body "images" ;;
     if negb (ToBoolean name)
        || match price with VUndefined => true | _ => false end
     then Some (Reply (inl "Product name and price are required") 400, db)
     else
       (* Validate store exists *)
       if negb (validateStoreAccess db storeId)
       then Some (Reply (inl "Store not found") 404, db)
       else
         match name with
         | VStr name =>
             let productSlug := generateSlug js name in
             (* Check if product slug exists within this store *)
             match find (fun p => String.eqb (Product.storeId p) storeId
                                  && String.eqb (Product.slug p) productSlug)
                        (products db) with
             | Some existingProduct =>
                 Some (Reply (inl "Product with this name already exists in store")
                             400, db)
             | None =>
                 price <- ToString js price ;;
                 inventory <- ToString js inventory ;;
                 let parsed := parseInt parsers inventory in
                 let newProduct :=
                   {| Product.id := uuidv4 env;
                      Product.name := name;
                      Product.slug := productSlug;
                      Product.description := or_else description (VStr "");
                      Product.price := parseFloat parsers price;
                      Product.inventory :=
                        if ToBoolean (VNum parsed) then parsed else 0%float;
                      Product.images := or_else images (VArr []);
                      Product.isActive := true;
                      Product.storeId := storeId;
                      Product.createdAt := now env;
                      Product.updatedAt := now env |} in
                 Some (Reply (inr newProduct) 201,
                       mkDB (stores db) (products db ++ [newProduct]) (orders db))
             end
         | _ => None (* name.toLowerCase is not a function *)
         end)
    (Reply (inl "Internal server error") 500, db).

(** *** PUT /api/products/:storeId/product/:itemId *)

(** The filter [{ id: itemId, storeId }] on the products collection. *)
Definition product_matches (itemId storeId : string) (p : Product.t) : bool :=
  String.eqb (Product.id p) itemId && String.eqb (Product.storeId p) storeId.

(** [if (v !== undefined) updateData.k = parse(v)]: the number to set, if
    any; [None] is the [TypeError] of [parse] on a value without a
    primitive value. *)
Definition parsed_update (parse : string -> float) (v : value)
  : option (option float) :=
  match v with
  | VUndefined => Some None
  | _ => option_map (fun s => Some (parse s)) (ToString js v)
  end.

(** The [$set] of [updateData]: [renamed] is the new name with its slug
    when the body has a truthy name, [price] and [inventory] the parsed
    numbers when the body has the two properties; each other property is
    set when the body has it. *)
Definition set_product (env : Env) (renamed : option (string * string))
  (description : value) (price inventory : option float)
  (images isActive : value) (p : Product.t) : Product.t :=
  {| Product.id := Product.id p;
     Product.name := match renamed with
                     | Some (name, _) => name
                     | None => Product.name p
                     end;
     Product.slug := match renamed with
                     | Some (_, slug) => slug
                     | None => Product.slug p
                     end;
     Product.description := match description with
                            | VUndefined => Product.description p
                            | _ => description
                            end;
     Product.price := match price with
                      | Some price => price
                      | None => Product.price p
                      end;
     Product.inventory := match inventory with
                          | Some inventory => inventory
                          | None => Product.inventory p
                          end;
     Product.images := match images with
                       | VUndefined => Product.images p
                       | _ => images
                       end;
     Product.isActive := match isActive with
                         | VUndefined => Product.isActive p
                         | _ => satisfies_true isActive
                         end;
     Product.storeId := Product.storeId p;
     Product.createdAt := Product.createdAt p;
     Product.updatedAt := now env |}.

Definition PUT_products (env : Env) (db : DB) (storeId itemId : string)
  (body : value) : reply (option Product.t) * DB :=
  try_catch
    (name <- get body "name" ;;
     description <- get body "description" ;;
     price <- get body "price" ;;
     inventory <- get body "inventory" ;;
     images <- get body "images" ;;
     isActive <- get body "isActive" ;;
     (* Validate store exists *)
     if negb (validateStoreAccess db storeId)
     then Some (Reply (inl "Store not found") 404, db)
     else
       renamed <- (if ToBoolean name
                   then match name with
                        | VStr name => Some (Some (name, generateSlug js name))
                        | _ => None (* name.toLowerCase is not a function *)
                        end
                   else Some None) ;;
       price <- parsed_update (parseFloat parsers) price ;;
       inventory <- parsed_update (parseInt parsers) inventory ;;
       let result :=
         updateOne (product_matches itemId storeId)
           (set_product env renamed description price inventory images isActive)
           (products db) in
       let db' := mkDB (stores db) (fst result) (orders db) in
       if (snd result =? 0)%nat
       then Some (Reply (inl "Product not found") 404, db')
       else
         Some (Reply (inr (find (product_matches itemId storeId) (products db')))
                     200, db'))
    (Reply (inl "Internal server error") 500, db).

(** *** DELETE /api/products/:storeId/product/:itemId *)

(** The answer [inr tt] is the body [{ success: true }]. *)
Definition DELETE_products (db : DB) (storeId itemId : string)
  : reply unit * DB :=
  (* Validate store exists *)
  if negb (validateStoreAccess db storeId)
  then (Reply (inl "Store not found") 404, db)
  else
    let result := deleteOne (product_matches itemId storeId) (products db) in
    let db' := mkDB (stores db) (fst result) (orders db) in
    if (snd result =? 0)%nat
    then (Reply (inl "Product not found") 404, db')
    else (Reply (inr tt) 200, db').

(** *** PUT /api/orders/:storeId/order/:itemId *)

(** The filter [{ id: itemId, storeId }] on the orders collection. *)
Definition order_is (itemId storeId : string) (o : Order.t) : bool :=
  String.eqb (Order.id o) itemId && String.eqb (Order.storeId o) storeId.

(** [$set: { status, updatedAt: new Date() }] *)
Definition set_status (env : Env) (status : value) (o : Order.t) : Order.t :=
  {| Order.id := Order.id o;
     Order.orderNumber := Order.orderNumber o;
     Order.storeId := Order.storeId o;
     Order.items := Order.items o;
     Order.total := Order.total o;
     Order.status := status;
     Order.customerInfo := Order.customerInfo o;
     Order.createdAt := Order.createdAt o;
     Order.updatedAt := now env;
     Order.paymentStatus := Order.paymentStatus o;
     Order.razorpayOrderId := Order.razorpayOrderId o;
     Order.razorpayPaymentId := Order.razorpayPaymentId o;
     Order.paymentCompletedAt := Order.paymentCompletedAt o |}.

(** The answer [inr None] is the body [null]. *)
Definition PUT_orders (env : Env) (db : DB) (storeId itemId : string)
  (body : value) : reply (option Order.t) * DB :=
  try_catch
    (status <- get body "status" ;;
     if negb (ToBoolean status)
     then Some (Reply (inl "Status is required") 400, db)
     else
       (* Validate store exists *)
       if negb (validateStoreAccess db storeId)
       then Some (Reply (inl "Store not found") 404, db)
       else
         let result :=
           updateOne (order_is itemId storeId) (set_status env status)
             (orders db) in
         let db' := mkDB (stores db) (products db) (fst result) in
         if (snd result =? 0)%nat
         then Some (Reply (inl "Order not found") 404, db')
         else
           Some (Reply (inr (find (order_is itemId storeId) (orders db'))) 200,
                 db'))
    (Reply (inl "Internal server error") 500, db).

End OtherRoutes.

(* ================================================================= *)
(** ** The storefront page: the cart *)

Module Cart.

(** A product as the page holds it (an element of the [products] array of
    the storefront response), with the properties the cart reads. *)
Record product : Type := mkProduct {
  id : string;
  price : value;
  inventory : value
}.

(** A cart line [{ ...product, quantity }]. *)
Record item : Type := mkItem {
  line_product : product;
  quantity : float
}.

Inductive toast : Type :=
| toast_success (message : string)
| toast_error (message : string).

Definition has_id (productId : string) (it : item) : bool :=
  String.eqb (id (line_product it)) productId.

(** [{ ...item, quantity }] *)
Definition with_quantity (it : item) (quantity : float) : item :=
  mkItem (line_product it) quantity.

Section Operations.
Variable js : Engine.

(** The cart after the handler and the toast it shows. A comparison with
    an inventory that has no primitive value throws: the cart stays as it
    was and no toast is shown. *)
Definition addToCart (cart : list item) (p : product)
  : list item * option toast :=
  match find (has_id (id p)) cart with
  | Some existingItem =>
      match ToNumber js (inventory p) with
      | None => (cart, None)
      | Some inventory =>
          if (quantity existingItem <? inventory)%float
          then (map (fun it => if has_id (id p) it
                               then with_quantity it (quantity it + 1)%float
                               else it) cart,
                Some (toast_success "Added to cart"))
          else (cart, Some (toast_error "Not enough inventory"))
      end
  | None =>
      match ToNumber js (inventory p) with
      | None => (cart, None)
      | Some inventory =>
          if (0 <? inventory)%float
          then ((cart ++ [mkItem p 1%float])%list,
                Some (toast_success "Added to cart"))
          else (cart, Some (toast_error "Product out of stock"))
      end
  end.

Definition removeFromCart (cart : list item) (productId : string) : list item :=
  filter (fun it => negb (has_id productId it)) cart.

(** [None] is the [TypeError] of reading [product.inventory] when the page
    has no product of that id, or of comparing with an inventory that has
    no primitive value; the second component is the toast, if any. *)
Definition updateCartQuantity (products : list product) (cart : list item)
  (productId : string) (newQuantity : float)
  : option (list item * option toast) :=
  if (newQuantity =? 0)%float then Some (removeFromCart cart productId, None)
  else
    product <- find (fun p => String.eqb (id p) productId) products ;;
    inventory <- ToNumber js (inventory product) ;;
    if (inventory <? newQuantity)%float
    then Some (cart, Some (toast_error "Not enough inventory"))
    else Some (map (fun it => if has_id productId it
                              then with_quantity it newQuantity
                              else it) cart,
               None).

End Operations.

(** [cart.map(item => ({ productId: item.id, quantity: item.quantity }))],
    the [items] of the order request of [checkout]. *)
Definition orderItems (cart : list item) : list value :=
  map (fun it => cart_line (id (line_product it)) (quantity it)) cart.

Definition ids (cart : list item) : list string :=
  map (fun it => id (line_product it)) cart.

End Cart.

(* ================================================================= *)
(** ** Vocabulary for the other routes *)

(** The shape of a slug: characters of [[a-z0-9]] and single dashes;
    [after_dash] tells that the previous character was a dash. *)
Fixpoint slug_shaped (after_dash : bool) (s : string) : bool :=
  match s with
  | EmptyString => true
  | String c rest =>
      if Ascii.eqb c "-" then negb after_dash && slug_shaped true rest
      else is_slug_char c && slug_shaped false rest
  end.

(** The key under which product creation looks for a duplicate. *)
Definition product_key (p : Product.t) : string * string :=
  (Product.storeId p, Product.slug p).

(** The decimal digit [d], below 10, put before the digits [u]. *)
Definition cons_digit (d : N) (u : Decimal.uint) : Decimal.uint :=
  match d with
  | 0 => Decimal.D0 u | 1 => Decimal.D1 u | 2 => Decimal.D2 u
  | 3 => Decimal.D3 u | 4 => Decimal.D4 u | 5 => Decimal.D5 u
  | 6 => Decimal.D6 u | 7 => Decimal.D7 u | 8 => Decimal.D8 u
  | _ => Decimal.D9 u
  end%N.

(** The [k] lowest decimal digits of [r], lowest first, before [tail]. *)
Fixpoint low_digits (k : nat) (r : N) (tail : Decimal.uint) : Decimal.uint :=
  match k with
  | O => tail
  | S k => cons_digit (r mod 10) (low_digits k (r / 10) tail)
  end.

(** The [k] lowest decimal digits of [r], highest first, before [acc]:
    [r] written with [k] digits, zeros in front. *)
Fixpoint digits_of (k : nat) (r : N) (acc : Decimal.uint) : Decimal.uint :=
  match k with
  | O => acc
  | S k => digits_of k (r / 10) (cons_digit (r mod 10) acc)
  end.

(** Newest first. *)
Definition newest_to_oldest {A : Type} (createdAt : A -> Z) (docs : list A)
  : Prop :=
  StronglySorted (fun a b => (createdAt b <= createdAt a)%Z) docs.

(* ================================================================= *)
(** ** Example data for the other routes *)

(** The two parsers on the strings of the examples. *)
Definition example_parsers : Parsers :=
  {| parseFloat := fun s => if String.eqb s "12.5" then 12.5%float else PrimFloat.nan;
     parseInt := fun s => if String.eqb s "7" then 7%float else PrimFloat.nan |}.

Definition lamp_body : value :=
  VObj [("name", VStr "Desk Lamp"); ("price", VStr "12.5"); ("inventory", VStr "7")].

(** The product that [lamp_body] creates in [example_db] under [example_env]. *)
Definition lamp : Product.t :=
  {| Product.id := "o1"; Product.name := "Desk Lamp"; Product.slug := "desk-lamp";
     Product.description := VStr ""; Product.price := 12.5%float;
     Product.inventory := 7%float; Product.images := VArr [];
     Product.isActive := true; Product.storeId := "s1";
     Product.createdAt := 1730000000123; Product.updatedAt := 1730000000123 |}.

Definition lamp_db : DB :=
  mkDB (stores example_db) (products example_db ++ [lamp]) (orders example_db).

(** The order that [scenario_body] creates in [example_db] under
    [example_env]. *)
Definition scenario_created : Order.t :=
  newOrder example_env "s1"
    [ {| OrderItem.productId := VStr "p1"; OrderItem.productName := "Widget";
         OrderItem.quantity := VNum 2; OrderItem.price := 9.99%float;
         OrderItem.total := 19.98%float |} ]
    19.98%float
    (VObj [("name", VStr "Ada"); ("email", VStr "ada@example.org")])
    VUndefined.

Definition scenario_db : DB :=
  mkDB (stores example_db) (products example_db) [scenario_created].

Definition status_body (status : string) : value :=
  VObj [("status", VStr status)].

Definition valid_signature : string := "hmac:key_secret:order_R1|pay_1".

Definition later_env : Env := {| uuidv4 := "o7"; now := 1730000500000 |}.

Definition widget_on_page : Cart.product :=
  {| Cart.id := "p1"; Cart.price := VNum 9.99; Cart.inventory := VNum 3 |}.

Definition example_cart : list Cart.item :=
  [ Cart.mkItem widget_on_page 2;
    Cart.mkItem {| Cart.id := "p2"; Cart.price := VNum 5; Cart.inventory := VNum 10 |} 1 ].

Definition checkout_body : value :=
  VObj [("items", VArr (Cart.orderItems example_cart));
        ("customerInfo", VObj [("name", VStr "Ada"); ("email", VStr "ada@example.org")]);
        ("total", VNum 24.98)].

(* ================================================================= *)
(** ** Properties *)

Section Properties.
Variable js : Engine.
Variable svc : Services.

(** *** Reading request bodies *)

(** A body one property of which can be read lets every property be read. *)
Lemma get_defined (body : value) (k k' : string) (v : value) :
  get body k = Some v -> exists v', get body k' = Some v'.
Proof.
  destruct body; simpl; intros H; try discriminate; eauto.
Qed.

Lemma ToBoolean_nonempty (s : string) : s <> "" -> ToBoolean (VStr s) = true.
Proof.
  intros Hs. simpl. destruct (String.eqb_spec s ""); [contradiction | reflexivity].
Qed.

(** *** Store directory *)

Lemma find_slug_present (slug : string) (l : list Store.t) (s : Store.t) :
  In s l -> Store.slug s = slug ->
  exists s', find (fun x => String.eqb (Store.slug x) slug) l = Some s'.
Proof.
  induction l as [| x l IH]; simpl; intros Hin Hslug; [contradiction |].
  destruct (String.eqb_spec (Store.slug x) slug) as [_ | Hne]; [eauto |].
  destruct Hin as [-> | Hin]; [contradiction | auto].
Qed.

(** A name whose slug some store document already carries is refused, and
    the database is left as it was. *)
Lemma POST_stores_slug_taken (env : Env) (db : DB) (body : value)
  (name : string) (s : Store.t) :
  get body "name" = Some (VStr name) -> name <> "" ->
  In s (stores db) -> Store.slug s = generateSlug js name ->
  POST_stores js env db body = (Json (Error "Store name already taken") 400, db).
Proof.
  intros Hname Hne Hin Hslug. unfold POST_stores.
  destruct (get_defined body "name" "description" _ Hname) as [d Hd].
  destruct (get_defined body "name" "domain" _ Hname) as [m Hm].
  rewrite Hname, Hd, Hm. cbn [bind].
  rewrite (ToBoolean_nonempty name Hne). cbn [negb].
  destruct (find_slug_present _ _ _ Hin Hslug) as [s' ->].
  reflexivity.
Qed.

(** After a creation request for [name], accepted or refused as taken, some
    store document carries the slug of [name]. *)
Lemma POST_stores_slug_registered (env : Env) (db : DB) (body : value)
  (name : string) :
  get body "name" = Some (VStr name) -> name <> "" ->
  exists s, In s (stores (snd (POST_stores js env db body)))
            /\ Store.slug s = generateSlug js name.
Proof.
  intros Hname Hne. unfold POST_stores.
  destruct (get_defined body "name" "description" _ Hname) as [d Hd].
  destruct (get_defined body "name" "domain" _ Hname) as [m Hm].
  rewrite Hname, Hd, Hm. cbn [bind].
  rewrite (ToBoolean_nonempty name Hne). cbn [negb].
  destruct (find _ (stores db)) as [s |] eqn:Hfind; cbn.
  - apply find_some in Hfind. destruct Hfind as [Hin Heq].
    apply String.eqb_eq in Heq. eauto.
  - eexists. split; [apply in_or_app; right; left; reflexivity | reflexivity].
Qed.

(** C8 — Slug uniqueness. Two creation requests carry names with the same
    slug. Whatever the first one answers, the second one — run on the
    database the first left, or on any later one that still holds its
    stores — is refused with "Store name already taken" (status 400) and
    inserts nothing. *)
Theorem slug_uniqueness (env1 env2 : Env) (db db2 : DB) (body1 body2 : value)
  (name1 name2 : string) :
  get body1 "name" = Some (VStr name1) -> name1 <> "" ->
  get body2 "name" = Some (VStr name2) -> name2 <> "" ->
  generateSlug js name1 = generateSlug js name2 ->
  incl (stores (snd (POST_stores js env1 db body1))) (stores db2) ->
  POST_stores js env2 db2 body2
  = (Json (Error "Store name already taken") 400, db2).
Proof.
  intros H1 Hne1 H2 Hne2 Hslug Hincl.
  destruct (POST_stores_slug_registered env1 db body1 name1 H1 Hne1)
    as (s & Hin & Hs).
  apply (POST_stores_slug_taken env2 db2 body2 name2 s H2 Hne2).
  - apply Hincl, Hin.
  - congruence.
Qed.

(** C10 — The duplicate-slug check reads every store document: a name whose
    slug belongs to a store with [isActive = false] is refused exactly as
    one whose slug belongs to an active store, and nothing is inserted. *)
Theorem slug_check_ignores_isActive (env : Env) (db : DB) (body : value)
  (name : string) (s : Store.t) (active : bool) :
  get body "name" = Some (VStr name) -> name <> "" ->
  In s (stores db) -> Store.isActive s = active ->
  Store.slug s = generateSlug js name ->
  POST_stores js env db body = (Json (Error "Store name already taken") 400, db).
Proof.
  intros Hname Hne Hin _ Hslug.
  exact (POST_stores_slug_taken env db body name s Hname Hne Hin Hslug).
Qed.

(** *** Payment bridge: verification *)

Lemma is_string_false (v : value) (s : string) :
  v <> VStr s -> is_string v s = false.
Proof.
  intros Hv. destruct v; simpl; try reflexivity.
  destruct (String.eqb_spec s0 s); [subst; contradiction | reflexivity].
Qed.

Lemma is_string_refl (s : string) : is_string (VStr s) s = true.
Proof. simpl. apply String.eqb_refl. Qed.


Lemma updateOne_first_match {A : Type} (matches : A -> bool) (set : A -> A)
  (pre post : list A) (d : A) :
  Forall (fun x => matches x = false) pre -> matches d = true ->
  updateOne matches set (pre ++ d :: post)%list
  = ((pre ++ set d :: post)%list, 1%nat).
Proof.
  intros Hpre Hd. induction Hpre as [| x pre Hx _ IH]; simpl.
  - rewrite Hd. reflexivity.
  - rewrite Hx, IH. reflexivity.
Qed.

Lemma mkDB_eta (db : DB) : mkDB (stores db) (products db) (orders db) = db.
Proof. destruct db; reflexivity. Qed.

(** The verification up to the comparison of the signatures, for a request
    that carries the three gateway identifiers, the first two of which have
    the strings [order_id] and [payment_id], and a configured secret. *)
Lemma POST_payment_verify_unfold (env : Env) (db : DB) (body : value)
  (oid pid sig : value) (order_id payment_id key : string) :
  get body "razorpay_order_id" = Some oid ->
  get body "razorpay_payment_id" = Some pid ->
  get body "razorpay_signature" = Some sig ->
  ToBoolean oid = true -> ToBoolean pid = true -> ToBoolean sig = true ->
  ToString js oid = Some order_id -> ToString js pid = Some payment_id ->
  RAZORPAY_KEY_SECRET svc = Some key ->
  exists orderId storeId,
    get body "orderId" = Some orderId /\ get body "storeId" = Some storeId /\
    POST_payment_verify js svc env db body
    = if negb (is_string sig
                 (hmac_sha256_hex svc key (order_id ++ "|" ++ payment_id)))
      then (Json (Failure "Invalid payment signature") 400, db)
      else
        match field_filter svc orderId, field_filter svc storeId with
        | inr id_ok, inr storeId_ok =>
            let result := updateOne (order_matches id_ok storeId_ok)
                            (set_paid env oid pid) (orders db) in
            let db' := mkDB (stores db) (products db) (fst result) in
            if (snd result =? 0)%nat
            then (Json (Error "Order not found") 404, db')
            else (Json (Success "Payment verified successfully") 200, db')
        | inl message, _ | _, inl message => (Json (Failure message) 500, db)
        end.
Proof.
  intros Ho Hp Hs To Tp Ts So Sp Hkey.
  destruct (get_defined body _ "orderId" _ Ho) as [orderId HorderId].
  destruct (get_defined body _ "storeId" _ Ho) as [storeId HstoreId].
  exists orderId, storeId. split; [assumption | split; [assumption |]].
  unfold POST_payment_verify, generatedSignature.
  rewrite Ho, Hp, Hs, HorderId, HstoreId. cbn [bind].
  rewrite To, Tp, Ts, Hkey, So, Sp. cbn [negb orb bind].
  destruct (negb (is_string sig _)); [reflexivity |].
  destruct (field_filter svc orderId) as [m1 | id_ok];
    destruct (field_filter svc storeId) as [m2 | storeId_ok]; try reflexivity.
  cbv zeta. destruct (snd _ =? 0)%nat; reflexivity.
Qed.

(** C4 — A verification request that carries the three gateway
    identifiers, where the concatenation
    [razorpay_order_id + "|" + razorpay_payment_id] is the string
    [order_id ++ "|" ++ payment_id] (the two identifiers are strings, or
    other values that have a string), and a signature different from the
    hex HMAC-SHA256 of that string under the secret of the server, is
    answered "Invalid payment signature" (status 400), and the database —
    every order with every field — is left as it was. *)
Theorem verifyPayment_rejects_bad_signature (env : Env) (db : DB)
  (body : value) (oid pid sig : value) (order_id payment_id key : string) :
  get body "razorpay_order_id" = Some oid ->
  get body "razorpay_payment_id" = Some pid ->
  get body "razorpay_signature" = Some sig ->
  ToBoolean oid = true -> ToBoolean pid = true -> ToBoolean sig = true ->
  ToString js oid = Some order_id -> ToString js pid = Some payment_id ->
  RAZORPAY_KEY_SECRET svc = Some key ->
  sig <> VStr (hmac_sha256_hex svc key (order_id ++ "|" ++ payment_id)) ->
  POST_payment_verify js svc env db body
  = (Json (Failure "Invalid payment signature") 400, db).
Proof.
  intros Ho Hp Hs To Tp Ts So Sp Hkey Hsig.
  destruct (POST_payment_verify_unfold env db body oid pid sig
              order_id payment_id key Ho Hp Hs To Tp Ts So Sp Hkey)
    as (orderId & storeId & _ & _ & ->).
  rewrite (is_string_false _ _ Hsig). reflexivity.
Qed.


(** *** Order engine *)

Lemma orderItem_of_inv (found : list Product.t) (item : value)
  (line : OrderItem.t) :
  orderItem_of js found item = Some line ->
  exists productId product quantity,
    get item "productId" = Some productId
    /\ find (fun p => is_string productId (Product.id p)) found = Some product
    /\ get item "quantity" = Some quantity
    /\ exists q,
         ToNumber js quantity = Some q
         /\ line = {| OrderItem.productId := productId;
                      OrderItem.productName := Product.name product;
                      OrderItem.quantity := quantity;
                      OrderItem.price := Product.price product;
                      OrderItem.total := (Product.price product * q)%float |}.
Proof.
  unfold orderItem_of, bind.
  destruct (get item "productId") as [productId |]; [| discriminate].
  destruct (find _ found) as [product |] eqn:Hfind; [| discriminate].
  destruct (get item "quantity") as [quantity |]; [| discriminate].
  destruct (ToNumber js quantity) as [q |] eqn:Hq; [| discriminate].
  intros [= <-]. exists productId, product, quantity.
  repeat split; try assumption. exists q. split; [exact Hq | reflexivity].
Qed.

Lemma orderItems_of_spec (found : list Product.t) (items : list value) :
  forall (acc : float) (lines : list OrderItem.t) (t : float),
    orderItems_of js found items acc = Some (lines, t) ->
    Forall2 (fun item line => orderItem_of js found item = Some line) items lines
    /\ t = sum_from acc (map OrderItem.total lines).
Proof.
  induction items as [| item rest IH]; simpl; intros acc lines t H.
  - injection H as <- <-. split; [constructor | reflexivity].
  - unfold bind in H.
    destruct (orderItem_of js found item) as [line |] eqn:Hline; [| discriminate].
    destruct (orderItems_of js found rest _) as [[lines' t'] |] eqn:Hrest;
      [| discriminate].
    injection H as <- <-. simpl.
    destruct (IH _ _ _ Hrest) as [Hall Ht].
    split; [constructor; assumption | exact Ht].
Qed.

Lemma find_products_In (db : DB) (storeId : string) (productIds : list value)
  (p : Product.t) :
  In p (find_products db storeId productIds) ->
  In p (products db) /\ Product.storeId p = storeId /\ Product.isActive p = true.
Proof.
  unfold find_products. intros H. apply filter_In in H. destruct H as [Hin Hf].
  apply andb_prop in Hf. destruct Hf as [Hf Hactive].
  apply andb_prop in Hf. destruct Hf as [_ Hstore].
  apply String.eqb_eq in Hstore. auto.
Qed.

Lemma is_string_true (v : value) (s : string) :
  is_string v s = true -> v = VStr s.
Proof.
  destruct v; simpl; try discriminate.
  intros H. apply String.eqb_eq in H. congruence.
Qed.

(** Everything that holds when the handler answers 201. *)
Lemma createOrder_created (env : Env) (db : DB) (storeId : string)
  (items customerInfo total : value) (r : response) (db' : DB) :
  createOrder js svc env db storeId items customerInfo total = Some (r, db') ->
  status r = 201%nat ->
  exists cart productIds lines calculatedTotal,
    items = VArr cart
    /\ validateStoreAccess db storeId = true
    /\ productIds_of cart = Some productIds
    /\ List.length (find_products db storeId productIds) = List.length productIds
    /\ orderItems_of js (find_products db storeId productIds) cart 0%float
       = Some (lines, calculatedTotal)
    /\ r = Json (OrderDoc (newOrder env storeId lines calculatedTotal
                             customerInfo total)) 201
    /\ db' = mkDB (stores db) (products db)
               (orders db ++ [newOrder env storeId lines calculatedTotal
                                customerInfo total]).
Proof.
  unfold createOrder. intros H Hstatus.
  destruct items as [| | | | | cart |];
    try (injection H as <- <-; discriminate Hstatus).
  destruct cart as [| item cart];
    [injection H as <- <-; discriminate Hstatus |].
  destruct (validateStoreAccess db storeId);
    [| injection H as <- <-; discriminate Hstatus].
  cbn [negb] in H. unfold bind in H.
  destruct (productIds_of (item :: cart)) as [productIds |] eqn:Hids;
    [| discriminate].
  destruct (in_list_refused svc productIds); [discriminate |].
  destruct (Nat.eqb_spec (List.length (find_products db storeId productIds))
              (List.length productIds)) as [Hlen | _];
    [| injection H as <- <-; discriminate Hstatus].
  cbn [negb] in H.
  destruct (orderItems_of js _ (item :: cart) 0%float) as [[lines t] |] eqn:Hlines;
    [| discriminate].
  injection H as <- <-.
  exists (item :: cart), productIds, lines, t.
  repeat split; assumption || reflexivity.
Qed.

(** All-or-nothing: an answer other than 201 leaves the database as it was. *)
Lemma createOrder_all_or_nothing (env : Env) (db : DB) (storeId : string)
  (items customerInfo total : value) (r : response) (db' : DB) :
  createOrder js svc env db storeId items customerInfo total = Some (r, db') ->
  status r <> 201%nat -> db' = db.
Proof.
  unfold createOrder. intros H Hstatus.
  destruct items as [| | | | | cart |]; try (injection H as _ <-; reflexivity).
  destruct cart as [| item cart]; [injection H as _ <-; reflexivity |].
  destruct (validateStoreAccess db storeId);
    [| injection H as _ <-; reflexivity].
  cbn [negb] in H. unfold bind in H.
  destruct (productIds_of (item :: cart)) as [productIds |]; [| discriminate].
  destruct (in_list_refused svc productIds); [discriminate |].
  destruct (negb _); [injection H as _ <-; reflexivity |].
  destruct (orderItems_of js _ (item :: cart) 0%float) as [[lines t] |];
    [| discriminate].
  injection H as <- _. simpl in Hstatus. contradiction.
Qed.

Lemma POST_orders_all_or_nothing (env : Env) (db : DB) (storeId : string)
  (body : value) :
  status (fst (POST_orders js svc env db storeId body)) <> 201%nat ->
  snd (POST_orders js svc env db storeId body) = db.
Proof.
  unfold POST_orders, bind.
  destruct (get body "items") as [items |]; [| reflexivity].
  destruct (get body "customerInfo") as [customerInfo |]; [| reflexivity].
  destruct (get body "total") as [total |]; [| reflexivity].
  destruct (createOrder js svc env db storeId items customerInfo total)
    as [[r db'] |] eqn:H; [| reflexivity].
  simpl. intros Hstatus. exact (createOrder_all_or_nothing _ _ _ _ _ _ _ _ H Hstatus).
Qed.

(** A 201 answer of the route comes from [createOrder] on the three
    destructured properties. *)
Lemma POST_orders_created (env : Env) (db : DB) (storeId : string)
  (body : value) (r : response) (db' : DB) :
  POST_orders js svc env db storeId body = (r, db') ->
  status r = 201%nat ->
  exists items customerInfo total,
    get body "items" = Some items
    /\ get body "customerInfo" = Some customerInfo
    /\ get body "total" = Some total
    /\ createOrder js svc env db storeId items customerInfo total = Some (r, db').
Proof.
  unfold POST_orders, bind. intros H Hstatus.
  destruct (get body "items") as [items |];
    [| injection H as <- _; discriminate Hstatus].
  destruct (get body "customerInfo") as [customerInfo |];
    [| injection H as <- _; discriminate Hstatus].
  destruct (get body "total") as [total |];
    [| injection H as <- _; discriminate Hstatus].
  destruct (createOrder js svc env db storeId items customerInfo total)
    as [[r0 db0] |] eqn:Hc; simpl in H;
    [| injection H as <- _; discriminate Hstatus].
  injection H as <- <-. exists items, customerInfo, total. auto.
Qed.

Lemma Forall2_refine {A B : Type} (P R : A -> B -> Prop) (Q : A -> Prop)
  (l : list A) (l' : list B) :
  (forall x y, P x y -> Q x -> R x y) ->
  Forall2 P l l' -> Forall Q l -> Forall2 R l l'.
Proof.
  intros HR H. induction H as [| x y l l' Hxy _ IH]; intros HQ.
  - constructor.
  - inversion HQ; subst. constructor; auto.
Qed.

Lemma orderItem_of_snapshot (db : DB) (storeId : string)
  (productIds : list value) (item : value) (line : OrderItem.t) :
  orderItem_of js (find_products db storeId productIds) item = Some line ->
  (exists q, get item "quantity" = Some (VNum q)) ->
  snapshot_of db storeId item line.
Proof.
  intros Hline [q Hq].
  apply orderItem_of_inv in Hline.
  destruct Hline
    as (productId & p & quantity & Hid & Hfind & Hquantity & q' & Hq' & ->).
  apply find_some in Hfind. destruct Hfind as [Hin Hp].
  apply is_string_true in Hp. subst productId.
  apply find_products_In in Hin. destruct Hin as (Hin & Hstore & Hactive).
  assert (quantity = VNum q) as -> by congruence.
  injection Hq' as <-.
  exists p, q. repeat split; assumption || reflexivity.
Qed.

(** C2 — Order total invariant. A request without a [total], whose cart
    lines carry numeric quantities, is answered 201: the order is the one
    document appended to the collection, each of its items is the snapshot
    of its cart line (price of the product at that time, total = price x
    quantity), and its total is the sum of the item totals. *)
Theorem order_total_invariant (env : Env) (db : DB) (storeId : string)
  (body : value) (cart : list value) (r : response) (db' : DB) :
  get body "items" = Some (VArr cart) ->
  Forall (fun item => exists q, get item "quantity" = Some (VNum q)) cart ->
  get body "total" = Some VUndefined ->
  POST_orders js svc env db storeId body = (r, db') ->
  status r = 201%nat ->
  exists o : Order.t,
    r = Json (OrderDoc o) 201
    /\ db' = mkDB (stores db) (products db) (orders db ++ [o])
    /\ Forall2 (snapshot_of db storeId) cart (Order.items o)
    /\ Order.total o = VNum (sum_from 0 (map OrderItem.total (Order.items o))).
Proof.
  intros Hitems Hvalid Htotal Hpost Hstatus.
  destruct (POST_orders_created env db storeId body r db' Hpost Hstatus)
    as (items & customerInfo & total & Hi & _ & Ht & Hcreate).
  assert (items = VArr cart) as -> by congruence.
  assert (total = VUndefined) as -> by congruence.
  destruct (createOrder_created _ _ _ _ _ _ _ _ Hcreate Hstatus)
    as (cart' & productIds & lines & t & Hcart & _ & _ & _ & Hlines & -> & ->).
  injection Hcart as <-.
  apply orderItems_of_spec in Hlines. destruct Hlines as [Hall ->].
  eexists. split; [reflexivity | split; [reflexivity | split]].
  - cbn [newOrder Order.items].
    refine (Forall2_refine _ _ _ _ _ _ Hall Hvalid).
    intros item line. apply orderItem_of_snapshot.
  - reflexivity.
Qed.

(** C3 (as the code has it) — The stored total is the caller's [total] when
    that value is truthy; when it is absent or falsy (0, NaN, null, false,
    the empty string) it is the computed sum of the item totals. *)
Theorem order_total_override (env : Env) (db : DB) (storeId : string)
  (body : value) (total : value) (r : response) (db' : DB) :
  get body "total" = Some total ->
  POST_orders js svc env db storeId body = (r, db') ->
  status r = 201%nat ->
  exists o : Order.t,
    r = Json (OrderDoc o) 201
    /\ db' = mkDB (stores db) (products db) (orders db ++ [o])
    /\ (ToBoolean total = true -> Order.total o = total)
    /\ (ToBoolean total = false ->
        Order.total o = VNum (sum_from 0 (map OrderItem.total (Order.items o)))).
Proof.
  intros Htotal Hpost Hstatus.
  destruct (POST_orders_created env db storeId body r db' Hpost Hstatus)
    as (items & customerInfo & total' & _ & _ & Ht & Hcreate).
  assert (total' = total) as -> by congruence.
  destruct (createOrder_created _ _ _ _ _ _ _ _ Hcreate Hstatus)
    as (cart & productIds & lines & t & _ & _ & _ & _ & Hlines & -> & ->).
  apply orderItems_of_spec in Hlines. destruct Hlines as [_ ->].
  eexists. split; [reflexivity | split; [reflexivity |]].
  cbn [newOrder Order.total Order.items]. unfold or_else.
  split; intros ->; reflexivity.
Qed.

(** C9 — The stored [customerInfo] is the caller's value when it is truthy
    and the empty object otherwise, and nothing else depends on it: two
    requests with the same [items] and [total] get the same status
    whatever their [customerInfo]. *)
Theorem customerInfo_defaulted_not_validated (env : Env) (db : DB)
  (storeId : string) (body : value) :
  (forall o db',
     POST_orders js svc env db storeId body = (Json (OrderDoc o) 201, db') ->
     exists customerInfo,
       get body "customerInfo" = Some customerInfo
       /\ Order.customerInfo o
          = (if ToBoolean customerInfo then customerInfo else VObj [])
       /\ db' = mkDB (stores db) (products db) (orders db ++ [o]))
  /\
  (forall body',
     get body' "items" = get body "items" ->
     get body' "total" = get body "total" ->
     status (fst (POST_orders js svc env db storeId body'))
     = status (fst (POST_orders js svc env db storeId body))).
Proof.
  split.
  - intros o db' Hpost.
    destruct (POST_orders_created env db storeId body _ db' Hpost eq_refl)
      as (items & customerInfo & total & _ & Hc & _ & Hcreate).
    destruct (createOrder_created _ _ _ _ _ _ _ _ Hcreate eq_refl)
      as (cart & productIds & lines & t & _ & _ & _ & _ & _ & Hr & ->).
    injection Hr as ->.
    exists customerInfo. repeat split; assumption || reflexivity.
  - intros body' Hitems Htotal. unfold POST_orders, bind.
    destruct (get body "items") as [items |] eqn:Hi.
    + destruct (get_defined body _ "customerInfo" _ Hi) as [c ->].
      destruct (get_defined body _ "total" _ Hi) as [t Ht].
      destruct (get_defined body' _ "customerInfo" _ Hitems) as [c' ->].
      rewrite Hitems, Htotal, Ht.
      unfold createOrder.
      destruct items as [| | | | | cart |]; try reflexivity.
      destruct cart as [| item cart]; [reflexivity |].
      destruct (validateStoreAccess db storeId); [| reflexivity].
      cbn [negb]. unfold bind.
      destruct (productIds_of (item :: cart)) as [productIds |]; [| reflexivity].
      destruct (in_list_refused svc productIds); [reflexivity |].
      destruct (negb _); [reflexivity |].
      destruct (orderItems_of js _ (item :: cart) 0%float) as [[lines tt] |];
        reflexivity.
    + rewrite Hitems. reflexivity.
Qed.

(** The products check as the handler makes it: for an active store and a
    cart whose lines can be read and whose ids the server accepts, the
    request is refused with "One or more
    products not found" exactly when the batch lookup returns a number of
    products other than the number of cart lines. *)
Lemma createOrder_products_check (env : Env) (db : DB) (storeId : string)
  (cart productIds : list value) (customerInfo total : value) :
  validateStoreAccess db storeId = true ->
  cart <> [] ->
  productIds_of cart = Some productIds ->
  in_list_refused svc productIds = false ->
  createOrder js svc env db storeId (VArr cart) customerInfo total
  = Some (Json (Error "One or more products not found") 400, db)
  <-> List.length (find_products db storeId productIds) <> List.length productIds.
Proof.
  intros Hstore Hcart Hids Haccepted. unfold createOrder.
  destruct cart as [| item cart]; [contradiction |].
  rewrite Hstore. cbn [negb]. rewrite Hids. cbn [bind]. rewrite Haccepted.
  destruct (Nat.eqb_spec (List.length (find_products db storeId productIds))
              (List.length productIds)) as [Hlen | Hlen]; cbn [negb].
  - split; [| contradiction]. unfold bind.
    destruct (orderItems_of js _ (item :: cart) 0%float); discriminate.
  - split; [intros _; exact Hlen | reflexivity].
Qed.

Lemma existsb_is_string (ids : list string) (s : string) :
  existsb (fun v => is_string v s) (map VStr ids) = true <-> In s ids.
Proof.
  rewrite existsb_exists. split.
  - intros (v & Hin & Hv). apply in_map_iff in Hin.
    destruct Hin as (id & <- & Hin). apply String.eqb_eq in Hv. congruence.
  - intros Hin. exists (VStr s). split; [apply in_map, Hin | apply is_string_refl].
Qed.

Lemma find_products_spec (db : DB) (storeId : string) (ids : list string)
  (p : Product.t) :
  In p (find_products db storeId (map VStr ids))
  <-> In p (products db) /\ In (Product.id p) ids
      /\ Product.storeId p = storeId /\ Product.isActive p = true.
Proof.
  unfold find_products. rewrite filter_In, !andb_true_iff, existsb_is_string.
  rewrite String.eqb_eq. tauto.
Qed.

Lemma resolves_spec (db : DB) (storeId id : string) :
  resolves db storeId (VStr id) = true
  <-> exists p, In p (products db) /\ Product.id p = id
                /\ Product.storeId p = storeId /\ Product.isActive p = true.
Proof.
  unfold resolves. rewrite existsb_exists. split.
  - intros (p & Hin & Hp). apply andb_prop in Hp. destruct Hp as [Hp Hactive].
    apply andb_prop in Hp. destruct Hp as [Hid Hstore].
    apply String.eqb_eq in Hid, Hstore. eauto 6.
  - intros (p & Hin & <- & <- & Hactive). exists p. split; [assumption |].
    rewrite is_string_refl, String.eqb_refl, Hactive. reflexivity.
Qed.

(** On a cart whose product ids are pairwise distinct strings, and when no
    two selected products share an id, the length comparison of the handler
    is the check the specification describes: the lookup returns as many
    products as the cart has ids exactly when every id resolves to an active
    product of the store. *)
Lemma products_check_on_distinct_ids (db : DB) (storeId : string)
  (ids : list string) :
  NoDup ids ->
  NoDup (map Product.id (find_products db storeId (map VStr ids))) ->
  List.length (find_products db storeId (map VStr ids))
  = List.length (map VStr ids)
  <-> forallb (resolves db storeId) (map VStr ids) = true.
Proof.
  intros Hids Hfound.
  set (found := find_products db storeId (map VStr ids)) in *.
  assert (incl (map Product.id found) ids) as Hincl.
  { intros id Hin. apply in_map_iff in Hin. destruct Hin as (p & <- & Hp).
    apply find_products_spec in Hp. tauto. }
  rewrite forallb_forall, <- (length_map Product.id found), (length_map VStr ids).
  split.
  - intros Hlen v Hv. apply in_map_iff in Hv. destruct Hv as (id & <- & Hid).
    assert (incl ids (map Product.id found)) as Hback.
    { apply NoDup_length_incl; [assumption | lia | assumption]. }
    apply Hback in Hid. apply in_map_iff in Hid. destruct Hid as (p & <- & Hp).
    apply find_products_spec in Hp. apply resolves_spec. exists p. tauto.
  - intros Hall. apply Nat.le_antisymm.
    + apply NoDup_incl_length; assumption.
    + apply NoDup_incl_length; [assumption |].
      intros id Hid.
      assert (resolves db storeId (VStr id) = true) as Hr
        by (apply Hall, in_map, Hid).
      apply resolves_spec in Hr. destruct Hr as (p & Hin & <- & Hstore & Hactive).
      apply in_map. apply find_products_spec. tauto.
Qed.

(** *** Payment bridge: initiation *)

(** A strictly negative number is neither zero nor NaN. *)
Lemma negative_is_truthy (x : float) :
  (x <? 0)%float = true -> ToBoolean (VNum x) = true.
Proof.
  unfold ToBoolean, PrimFloat.is_zero, PrimFloat.is_nan.
  rewrite ltb_spec, !eqb_spec.
  change (Prim2SF 0%float) with (S754_zero false).
  change (Prim2SF zero) with (S754_zero false).
  destruct (Prim2SF x) as [s | s | | s m e]; cbn; try discriminate.
  - destruct s; [reflexivity | discriminate].
  - destruct s; [| discriminate]. intros _.
    unfold SFeqb, SFcompare. rewrite Z.compare_refl, Pos.compare_cont_refl.
    reflexivity.
Qed.

(** C6 (as the code has it) — The request is refused with "Amount and
    receipt are required" (status 400), the gateway not being contacted,
    exactly when [amount] or [receipt] is absent or falsy (for the amount:
    0, NaN, null, false, the empty string); no other request is answered
    400. Among the others, with the gateway client constructed: an amount
    that has the number [x] (a number is its own) is handed to the gateway
    as [Math.round(x * 100)] minor units, and an amount that has no number
    (the product [amount * 100] throws) is answered 500, the gateway not
    being contacted. A strictly negative number is truthy and is its own
    number, so it is among the amounts handed over. *)
Theorem initiatePayment_validation (body amount receipt : value) :
  get body "amount" = Some amount ->
  get body "receipt" = Some receipt ->
  (ToBoolean amount && ToBoolean receipt = false ->
   POST_payment_create_order js svc body
   = (Json (Error "Amount and receipt are required") 400, []))
  /\
  (ToBoolean amount && ToBoolean receipt = true ->
   status (fst (POST_payment_create_order js svc body)) <> 400%nat)
  /\
  (forall x,
     ToBoolean amount && ToBoolean receipt = true ->
     razorpay_new svc = None ->
     ToNumber js amount = Some x ->
     exists req,
       snd (POST_payment_create_order js svc body) = [req]
       /\ Razorpay.amount req = Math_round (x * 100)%float
       /\ Razorpay.receipt req = receipt)
  /\
  (ToBoolean amount && ToBoolean receipt = true ->
   razorpay_new svc = None ->
   ToNumber js amount = None ->
   POST_payment_create_order js svc body
   = (Json (Failure (TypeError_message js)) 500, []))
  /\
  (forall x, amount = VNum x -> (x <? 0)%float = true ->
             ToBoolean amount = true /\ ToNumber js amount = Some x).
Proof.
  intros Ha Hr.
  destruct (get_defined body _ "currency" _ Ha) as [currency Hc].
  destruct (get_defined body _ "notes" _ Ha) as [notes Hn].
  destruct (get_defined body _ "storeId" _ Ha) as [storeId Hs].
  unfold POST_payment_create_order.
  rewrite Ha, Hc, Hr, Hn, Hs. cbn [bind]. rewrite <- negb_andb.
  split; [| split; [| split; [| split]]].
  - intros ->. reflexivity.
  - intros ->. cbn [negb].
    destruct (razorpay_new svc); [discriminate |].
    destruct (ToNumber js amount); [| discriminate].
    cbv zeta. destruct (razorpay_orders_create svc _); discriminate.
  - intros x -> -> ->. cbn [negb]. cbv zeta. eexists.
    destruct (razorpay_orders_create svc _); cbn;
      (split; [reflexivity | split; reflexivity]).
  - intros -> -> ->. reflexivity.
  - intros x -> Hx. split; [apply negative_is_truthy, Hx | reflexivity].
Qed.

(** *** Analytics engine *)

(** [tenths m e] is the integer nearest to ten times [m * 2^e], the larger
    of the two on a tie: [n - 1/2 <= 10 * m * 2^e < n + 1/2], with the
    power of two of a negative exponent multiplied out. *)
Lemma tenths_nearest (m e : Z) :
  let n := tenths m e in
  let num := (20 * m * 2 ^ Z.max 0 e)%Z in
  let den := (2 ^ Z.max 0 (- e))%Z in
  (den * (2 * n - 1) <= num < den * (2 * n + 1))%Z.
Proof.
  unfold tenths.
  set (num := (20 * m * 2 ^ Z.max 0 e)%Z).
  set (den := (2 ^ Z.max 0 (- e))%Z).
  assert (0 < den)%Z as Hden by (apply Z.pow_pos_nonneg; lia).
  cbv zeta.
  pose proof (Z.mul_div_le (num + den) (2 * den) ltac:(lia)) as Hle.
  pose proof (Z.mul_succ_div_gt (num + den) (2 * den) ltac:(lia)) as Hgt.
  nia.
Qed.

(** A finite number below [10^21] is rendered as the digits of that nearest
    integer with a point before the last one. *)
Lemma toFixed1_finite (x : float) (s : bool) (m : positive) (e : Z) :
  Prim2SF x = S754_finite s m e ->
  (Z.pos m * 2 ^ Z.max 0 e < 10 ^ 21 * 2 ^ Z.max 0 (- e))%Z ->
  toFixed1 js x
  = (if s then "-" else "")
      ++ decimal (tenths (Z.pos m) e / 10) ++ "." ++ decimal (tenths (Z.pos m) e mod 10).
Proof.
  intros Hx Hsmall. unfold toFixed1. rewrite Hx.
  destruct (Z.leb_spec (10 ^ 21 * 2 ^ Z.max 0 (- e)) (Z.pos m * 2 ^ Z.max 0 e));
    [lia | reflexivity].
Qed.

Lemma counts_countDocuments {A : Type} (P : A -> Prop) (f : A -> bool)
  (docs : list A) :
  (forall d, f d = true <-> P d) -> counts P docs (countDocuments f docs).
Proof.
  intros Hf. unfold countDocuments.
  induction docs as [| d docs IH]; cbn; [constructor |].
  destruct (f d) eqn:Hd.
  - cbn. apply counts_in; [apply Hf, Hd | exact IH].
  - apply counts_out; [| exact IH].
    intros HP. apply Hf in HP. congruence.
Qed.

Lemma in_window_placed (storeId : string) (startDate : Z) (o : Order.t) :
  in_window storeId startDate o = true <-> placed_in_window storeId startDate o.
Proof.
  unfold in_window, placed_in_window.
  rewrite andb_true_iff, String.eqb_eq, Z.leb_le. tauto.
Qed.

Lemma status_is_has_status (o : Order.t) (s : string) :
  status_is (Order.status o) s = true <-> has_status o s.
Proof.
  unfold has_status. destruct (Order.status o) as [| | b | x | t | elems | props];
    cbn; try (split; [discriminate | intros [H | (l & H & _)]; discriminate H]).
  - rewrite String.eqb_eq. split.
    + intros ->. left. reflexivity.
    + intros [[= ->] | (l & H & _)]; [reflexivity | discriminate H].
  - rewrite existsb_exists. split.
    + intros (e & Hin & He). apply is_string_true in He. subst e.
      right. exists elems. split; [reflexivity | exact Hin].
    + intros [H | (l & [= <-] & Hin)]; [discriminate H |].
      exists (VStr s). split; [exact Hin | apply is_string_refl].
Qed.

Lemma paid_or_completed_is_completed (o : Order.t) :
  paid_or_completed o = true <-> is_completed o.
Proof.
  unfold paid_or_completed, is_completed.
  rewrite orb_true_iff, !status_is_has_status. tauto.
Qed.

Lemma tenths_nearest_tenth (m e : Z) : nearest_tenth m e (tenths m e).
Proof.
  pose proof (tenths_nearest m e) as H. cbv zeta in H.
  unfold nearest_tenth. destruct (Z.leb_spec 0 e) as [He | He].
  - rewrite (Z.max_r 0 e He), (Z.max_l 0 (- e)) in H by lia.
    change (2 ^ 0)%Z with 1%Z in H.
    set (k := (m * 2 ^ e)%Z) in *.
    replace (20 * m * 2 ^ e)%Z with (20 * k)%Z in H by (unfold k; ring).
    replace (10 * m * 2 ^ e)%Z with (10 * k)%Z by (unfold k; ring).
    lia.
  - rewrite (Z.max_l 0 e), (Z.max_r 0 (- e)) in H by lia.
    change (2 ^ 0)%Z with 1%Z in H. lia.
Qed.

Lemma toFixed1_one_fraction_digit (x : float) :
  one_fraction_digit js x (toFixed1 js x).
Proof.
  unfold one_fraction_digit, toFixed1.
  destruct (Prim2SF x) as [negative | negative | | negative m e];
    try reflexivity.
  assert (below_1e21 (Z.pos m) e
          <-> (Z.pos m * 2 ^ Z.max 0 e < 10 ^ 21 * 2 ^ Z.max 0 (- e))%Z)
    as Hbelow.
  { unfold below_1e21. destruct (Z.leb_spec 0 e) as [He | He].
    - rewrite (Z.max_r 0 e He), (Z.max_l 0 (- e)) by lia.
      change (2 ^ 0)%Z with 1%Z. lia.
    - rewrite (Z.max_l 0 e), (Z.max_r 0 (- e)) by lia.
      change (2 ^ 0)%Z with 1%Z. lia. }
  destruct (Z.leb_spec (10 ^ 21 * 2 ^ Z.max 0 (- e)) (Z.pos m * 2 ^ Z.max 0 e))
    as [Hbig | Hsmall].
  - split; [| reflexivity].
    intros H. apply Hbelow in H. lia.
  - split.
    + intros _. exists (tenths (Z.pos m) e).
      split; [apply tenths_nearest_tenth | reflexivity].
    + intros H. destruct H. apply Hbelow, Hsmall.
Qed.

(** C7 — Conversion rate. For an existing (active) store the report is
    answered with status 200; [totalOrders] is the number of orders of the
    store placed in the window, and [completedOrders] the number of those
    whose status is paid or completed; [conversionRate] is the number 0
    when [totalOrders] is 0, and otherwise a string: the quotient
    [completedOrders / totalOrders * 100] written with one digit after the
    point. *)
Theorem conversionRate_boundary (db : DB) (storeId : string) (startDate : Z) :
  validateStoreAccess db storeId = true ->
  exists s : Summary.t,
    GET_analytics js db storeId startDate = Json (Analytics s) 200
    /\ counts (placed_in_window storeId startDate) (orders db)
         (Summary.totalOrders s)
    /\ counts (fun o => placed_in_window storeId startDate o /\ is_completed o)
         (orders db) (Summary.completedOrders s)
    /\ (Summary.totalOrders s = 0%nat -> Summary.conversionRate s = VNum 0)
    /\ (0 < Summary.totalOrders s ->
        exists rate,
          Summary.conversionRate s = VStr rate
          /\ one_fraction_digit js
               (of_nat (Summary.completedOrders s)
                / of_nat (Summary.totalOrders s) * 100)%float
               rate).
Proof.
  intros Hstore. unfold GET_analytics. rewrite Hstore. cbn [negb].
  eexists. split; [reflexivity |]. cbn [Summary.totalOrders
    Summary.completedOrders Summary.conversionRate].
  split; [| split; [| split]].
  - apply counts_countDocuments, in_window_placed.
  - apply counts_countDocuments. intros o.
    rewrite andb_true_iff, in_window_placed, paid_or_completed_is_completed.
    tauto.
  - unfold conversionRate_of. intros ->. reflexivity.
  - unfold conversionRate_of. intros Hpos. apply Nat.ltb_lt in Hpos.
    rewrite Hpos. eexists. split; [reflexivity |].
    apply toFixed1_one_fraction_digit.
Qed.

End Properties.

(* ================================================================= *)
(** ** The properties on concrete requests *)

(** The slug generator on the names of the examples. *)
Example generateSlug_examples :
  generateSlug example_engine "Acme" = "acme"
  /\ generateSlug example_engine "  Acme -- Store!! 42 " = "acme-store-42"
  /\ generateSlug example_engine "ACME store 42" = "acme-store-42"
  /\ generateSlug example_engine "!!!" = "".
Proof. repeat split; reflexivity. Qed.

(** The scenario of the specification: two widgets at 9.99 make an order
    of 19.98, pending. *)
Example scenario_order :
  exists o db',
    POST_orders example_engine example_services example_env example_db "s1" scenario_body
    = (Json (OrderDoc o) 201, db')
    /\ Order.total o = VNum 19.98
    /\ Order.status o = VStr "pending"
    /\ Order.orderNumber o = "ORD-00000123"
    /\ orders db' = [o].
Proof. do 2 eexists. repeat split; reflexivity. Qed.

(** C1 — A cart with two lines for the same active product of the store:
    every line resolves, and the batch lookup returns as many products as
    the cart has distinct ids (one), yet the request is refused with "One
    or more products not found"; nothing is stored. *)
Theorem repeated_productId_rejected :
  POST_orders example_engine example_services example_env example_db "s1" repeated_cart_body
  = (Json (Error "One or more products not found") 400, example_db)
  /\ forallb (resolves example_db "s1") [VStr "p1"; VStr "p1"] = true
  /\ List.length (find_products example_db "s1" [VStr "p1"; VStr "p1"])
     = List.length (distinct ["p1"; "p1"]).
Proof. repeat split; reflexivity. Qed.

Lemma order_total_invariant_witness :
  let r := fst (POST_orders example_engine example_services example_env example_db "s1" scenario_body) in
  let db' := snd (POST_orders example_engine example_services example_env example_db "s1" scenario_body) in
  status r = 201%nat
  /\ exists o : Order.t,
       r = Json (OrderDoc o) 201
       /\ db' = mkDB (stores example_db) (products example_db) (orders example_db ++ [o])
       /\ Forall2 (snapshot_of example_db "s1") [cart_line "p1" 2] (Order.items o)
       /\ Order.total o = VNum (sum_from 0 (map OrderItem.total (Order.items o))).
Proof.
  split; [reflexivity |].
  apply (order_total_invariant example_engine example_services example_env example_db "s1"
           scenario_body [cart_line "p1" 2]).
  - reflexivity.
  - repeat constructor. exists 2%float. reflexivity.
  - reflexivity.
  - reflexivity.
  - reflexivity.
Defined.

(** C3, as stated, fails: a supplied total of 0 is not the stored total. *)
Lemma supplied_zero_total_not_stored :
  get zero_total_body "total" = Some (VNum 0)
  /\ exists o db',
       POST_orders example_engine example_services example_env example_db "s1" zero_total_body
       = (Json (OrderDoc o) 201, db')
       /\ Order.total o = VNum 5
       /\ Order.total o <> VNum 0.
Proof.
  split; [reflexivity |]. do 2 eexists.
  split; [reflexivity | split; [reflexivity |]].
  cbn. intros H.
  apply (f_equal (fun v => match v with VNum x => PrimFloat.is_zero x | _ => false end)) in H.
  vm_compute in H. discriminate H.
Qed.

Lemma order_total_override_witness :
  let r := fst (POST_orders example_engine example_services example_env example_db "s1" override_body) in
  let db' := snd (POST_orders example_engine example_services example_env example_db "s1" override_body) in
  status r = 201%nat
  /\ exists o : Order.t,
       r = Json (OrderDoc o) 201
       /\ db' = mkDB (stores example_db) (products example_db) (orders example_db ++ [o])
       /\ (ToBoolean (VNum 1) = true -> Order.total o = VNum 1)
       /\ (ToBoolean (VNum 1) = false ->
           Order.total o = VNum (sum_from 0 (map OrderItem.total (Order.items o)))).
Proof.
  split; [reflexivity |].
  apply (order_total_override example_engine example_services example_env example_db "s1"
           override_body (VNum 1)); reflexivity.
Defined.

Lemma verifyPayment_rejects_bad_signature_witness :
  POST_payment_verify example_engine example_services example_env orders_db
    (verify_body "0badc0de" "o2")
  = (Json (Failure "Invalid payment signature") 400, orders_db).
Proof.
  apply (verifyPayment_rejects_bad_signature example_engine example_services
           example_env orders_db (verify_body "0badc0de" "o2")
           (VStr "order_R1") (VStr "pay_1") (VStr "0badc0de")
           "order_R1" "pay_1" "key_secret");
    try reflexivity.
  discriminate.
Defined.


(** C6, as stated, fails: a strictly negative amount is not refused; it
    reaches the gateway as -500 minor units. *)
Lemma negative_amount_reaches_gateway :
  get negative_amount_body "amount" = Some (VNum (-5))
  /\ (-5 <? 0)%float = true
  /\ exists order req,
       POST_payment_create_order example_engine example_services negative_amount_body
       = (Json (GatewayOrder order) 200, [req])
       /\ Razorpay.amount req = (-500)%float.
Proof.
  split; [reflexivity | split; [reflexivity |]].
  do 2 eexists. split; reflexivity.
Qed.

Lemma initiatePayment_validation_witness :
  let body := negative_amount_body in
  get body "amount" = Some (VNum (-5))
  /\ get body "receipt" = Some (VStr "rcpt_1")
  /\ status (fst (POST_payment_create_order example_engine example_services body))
     <> 400%nat
  /\ exists req,
       snd (POST_payment_create_order example_engine example_services body) = [req]
       /\ Razorpay.amount req = Math_round (-5 * 100)%float
       /\ Razorpay.receipt req = VStr "rcpt_1".
Proof.
  intros body. split; [reflexivity | split; [reflexivity |]].
  destruct (initiatePayment_validation example_engine example_services
              body (VNum (-5)) (VStr "rcpt_1") eq_refl eq_refl)
    as (_ & Hpassed & Hhanded & _ & _).
  split.
  - apply Hpassed. reflexivity.
  - apply (Hhanded (-5)%float); reflexivity.
Defined.

(** A request without an amount, or with the amount 0, is refused before
    the gateway is contacted. *)
Example missing_amount_refused :
  POST_payment_create_order example_engine example_services
    (VObj [("receipt", VStr "rcpt_1")])
  = (Json (Error "Amount and receipt are required") 400, [])
  /\ POST_payment_create_order example_engine example_services
       (VObj [("amount", VNum 0); ("receipt", VStr "rcpt_1")])
     = (Json (Error "Amount and receipt are required") 400, []).
Proof. split; reflexivity. Qed.

(** A JSON object with a property named [toString] has no primitive
    value. As a gateway identifier or an amount it is caught by the inner
    [try] of the payment routes (500 with the message of the TypeError); as
    a quantity or a price it is caught by the [try] of the route (500
    "Internal server error"). Nothing is written and the gateway is not
    contacted. *)
Example TypeError_examples :
  let unprintable := VObj [("toString", VNum 1)] in
  ToString example_engine unprintable = None
  /\ ToString example_engine (VArr [VNum 1; unprintable]) = None
  /\ ToString example_engine (VArr [VNull; VStr "a"; VObj [("valueOf", VNum 1)]])
     = Some ",a,[object Object]"
  /\ POST_payment_verify example_engine example_services example_env orders_db
       (VObj [("razorpay_order_id", unprintable);
              ("razorpay_payment_id", VStr "pay_1");
              ("razorpay_signature", VStr "0badc0de");
              ("orderId", VStr "o2"); ("storeId", VStr "s1")])
     = (Json (Failure "Cannot convert object to primitive value") 500, orders_db)
  /\ POST_payment_create_order example_engine example_services
       (VObj [("amount", unprintable); ("receipt", VStr "rcpt_1")])
     = (Json (Failure "Cannot convert object to primitive value") 500, [])
  /\ POST_orders example_engine example_services example_env example_db "s1"
       (VObj [("items", VArr [VObj [("productId", VStr "p1");
                                    ("quantity", unprintable)]])])
     = (internal_server_error, example_db)
  /\ PUT_products example_engine example_parsers example_env example_db "s1" "p1"
       (VObj [("price", unprintable)])
     = (Reply (inl "Internal server error") 500, example_db).
Proof. repeat split; reflexivity. Qed.

(** One paid order out of three in the window: 33.3; no order: 0. *)
Example conversionRate_examples :
  (exists s, GET_analytics example_engine orders_db "s1" 0 = Json (Analytics s) 200
             /\ Summary.totalOrders s = 3%nat
             /\ Summary.completedOrders s = 1%nat
             /\ Summary.conversionRate s = VStr "33.3")
  /\ (exists s, GET_analytics example_engine orders_db "s1" 2100 = Json (Analytics s) 200
                /\ Summary.totalOrders s = 2%nat
                /\ Summary.completedOrders s = 0%nat
                /\ Summary.conversionRate s = VStr "0.0")
  /\ (exists s, GET_analytics example_engine example_db "s1" 0 = Json (Analytics s) 200
                /\ Summary.totalOrders s = 0%nat
                /\ Summary.conversionRate s = VNum 0).
Proof. repeat split; eexists; repeat split; reflexivity. Qed.

Lemma conversionRate_boundary_witness :
  validateStoreAccess orders_db "s1" = true
  /\ exists s : Summary.t,
       GET_analytics example_engine orders_db "s1" 0 = Json (Analytics s) 200
       /\ Summary.totalOrders s = 3%nat
       /\ Summary.completedOrders s = 1%nat
       /\ Summary.conversionRate s = VStr "33.3"
       /\ counts (placed_in_window "s1" 0) (orders orders_db) 3
       /\ counts (fun o => placed_in_window "s1" 0 o /\ is_completed o)
            (orders orders_db) 1
       /\ one_fraction_digit example_engine (1 / 3 * 100)%float "33.3".
Proof.
  split; [reflexivity |].
  destruct (conversionRate_boundary example_engine orders_db "s1" 0 eq_refl)
    as (s & Hreport & Htotal & Hcompleted & _ & Hrate).
  assert (s = {| Summary.totalOrders := 3; Summary.completedOrders := 1;
                 Summary.pendingOrders := 2; Summary.totalProducts := 2;
                 Summary.conversionRate := VStr "33.3" |}) as ->.
  { vm_compute in Hreport. injection Hreport as <-. reflexivity. }
  exists {| Summary.totalOrders := 3; Summary.completedOrders := 1;
            Summary.pendingOrders := 2; Summary.totalProducts := 2;
            Summary.conversionRate := VStr "33.3" |}.
  split; [reflexivity |].
  split; [reflexivity | split; [reflexivity | split; [reflexivity |]]].
  split; [exact Htotal | split; [exact Hcompleted |]].
  destruct (Hrate ltac:(cbn; lia)) as (rate & Heq & Hrendered).
  injection Heq as <-. exact Hrendered.
Defined.

Lemma slug_uniqueness_witness :
  let first := POST_stores example_engine example_env example_db (store_body "Fresh Mart") in
  generateSlug example_engine "Fresh Mart" = generateSlug example_engine "fresh---MART!"
  /\ status (fst first) = 201%nat
  /\ POST_stores example_engine (mkEnv "s4" 1730000001000) (snd first)
       (store_body "fresh---MART!")
     = (Json (Error "Store name already taken") 400, snd first).
Proof.
  intros first. split; [reflexivity | split; [reflexivity |]].
  apply (slug_uniqueness example_engine example_env (mkEnv "s4" 1730000001000)
           example_db (snd first) (store_body "Fresh Mart")
           (store_body "fresh---MART!") "Fresh Mart" "fresh---MART!").
  - reflexivity.
  - discriminate.
  - reflexivity.
  - discriminate.
  - reflexivity.
  - apply incl_refl.
Defined.

Lemma customerInfo_defaulted_not_validated_witness :
  (exists o db',
     POST_orders example_engine example_services example_env example_db "s1" override_body
     = (Json (OrderDoc o) 201, db')
     /\ get override_body "customerInfo" = Some VUndefined
     /\ Order.customerInfo o = VObj [])
  /\ status (fst (POST_orders example_engine example_services example_env example_db "s1"
                    (VObj [("items", VArr [cart_line "p2" 1]); ("total", VNum 1);
                           ("customerInfo", VStr "not an object")])))
     = 201%nat.
Proof.
  destruct (customerInfo_defaulted_not_validated example_engine example_services example_env
              example_db "s1" override_body) as [Hstored Hsame].
  split.
  - do 2 eexists. split; [reflexivity |].
    destruct (Hstored _ _ eq_refl) as (c & Hc & Hinfo & _).
    split; [reflexivity |].
    injection Hc as <-. exact Hinfo.
  - rewrite Hsame; reflexivity.
Defined.

Lemma slug_check_ignores_isActive_witness :
  Store.isActive closed_shop = false
  /\ POST_stores example_engine example_env example_db (store_body "Closed Shop!")
     = (Json (Error "Store name already taken") 400, example_db).
Proof.
  split; [reflexivity |].
  apply (slug_check_ignores_isActive example_engine example_env example_db
           (store_body "Closed Shop!") "Closed Shop!" closed_shop false).
  - reflexivity.
  - discriminate.
  - right; left; reflexivity.
  - reflexivity.
  - reflexivity.
Defined.

(* ================================================================= *)
(** ** Properties of the other routes *)

Section MoreProperties.
Variable js : Engine.
Variable svc : Services.
Variable parsers : Parsers.

(** *** Slug generator *)

Lemma dash_not_slug_char (c : ascii) : Ascii.eqb c "-" = true -> is_slug_char c = false.
Proof. intros H. apply Ascii.eqb_eq in H. subst c. reflexivity. Qed.

Lemma replace_runs_shaped (s : string) :
  forall in_run, slug_shaped in_run (replace_runs in_run s) = true.
Proof.
  induction s as [| c s IH]; intros in_run; [reflexivity |]. cbn [replace_runs].
  destruct (is_slug_char c) eqn:Hc.
  - cbn [slug_shaped]. destruct (Ascii.eqb c "-") eqn:Hd.
    + rewrite (dash_not_slug_char c Hd) in Hc. discriminate.
    + rewrite Hc, IH. reflexivity.
  - destruct in_run; [apply IH |]. cbn. apply IH.
Qed.

Lemma slug_shaped_weaken (s : string) :
  slug_shaped true s = true -> slug_shaped false s = true.
Proof.
  destruct s as [| c s]; [reflexivity |]. cbn.
  destruct (Ascii.eqb c "-"); [discriminate | auto].
Qed.

Lemma drop_trailing_dash_cons (c : ascii) (s : string) :
  drop_trailing_dash (String c s)
  = if Ascii.eqb c "-" && match s with EmptyString => true | _ => false end
    then EmptyString
    else String c (drop_trailing_dash s).
Proof.
  destruct c as [[] [] [] [] [] [] [] []]; destruct s; reflexivity.
Qed.

Lemma drop_leading_dash_cons (c : ascii) (s : string) :
  drop_leading_dash (String c s) = if Ascii.eqb c "-" then s else String c s.
Proof.
  destruct c as [[] [] [] [] [] [] [] []]; reflexivity.
Qed.

Lemma drop_trailing_dash_shaped (s : string) :
  forall after_dash, slug_shaped after_dash s = true ->
  slug_shaped after_dash (drop_trailing_dash s) = true.
Proof.
  induction s as [| c s IH]; intros after_dash H; [reflexivity |].
  rewrite drop_trailing_dash_cons.
  destruct (Ascii.eqb c "-" && _) eqn:Hlast; [reflexivity |].
  cbn [slug_shaped] in *. destruct (Ascii.eqb c "-").
  - apply andb_prop in H. destruct H as [-> H]. cbn. apply IH, H.
  - apply andb_prop in H. destruct H as [-> H]. cbn. apply IH, H.
Qed.

(** Every character of a shaped string is in [[a-z0-9]] or is a dash. *)
Lemma slug_shaped_chars (s : string) :
  forall after_dash, slug_shaped after_dash s = true ->
  Forall (fun c => is_slug_char c = true \/ c = "-"%char) (list_ascii_of_string s).
Proof.
  induction s as [| c s IH]; intros after_dash H; cbn; [constructor |].
  cbn [slug_shaped] in H. destruct (Ascii.eqb c "-") eqn:Hd.
  - apply andb_prop in H. destruct H as [_ H]. apply Ascii.eqb_eq in Hd.
    constructor; [right; exact Hd | exact (IH _ H)].
  - apply andb_prop in H. destruct H as [Hc H].
    constructor; [left; exact Hc | exact (IH _ H)].
Qed.

Lemma slug_shaped_no_double_dash (a b : string) :
  forall after_dash, slug_shaped after_dash (a ++ "--" ++ b) = false.
Proof.
  induction a as [| c a IH]; intros after_dash; cbn.
  - destruct after_dash; reflexivity.
  - destruct (Ascii.eqb c "-"); rewrite IH; [apply andb_false_r | apply andb_false_r].
Qed.

Lemma drop_trailing_dash_no_dash (s : string) :
  forall after_dash, slug_shaped after_dash s = true ->
  forall s', drop_trailing_dash s <> s' ++ "-".
Proof.
  induction s as [| c s IH]; intros after_dash H s' Heq.
  - destruct s'; discriminate.
  - rewrite drop_trailing_dash_cons in Heq.
    destruct (Ascii.eqb c "-" && _) eqn:Hlast; [destruct s'; discriminate |].
    assert (exists p, slug_shaped p s = true) as [p Hs].
    { cbn [slug_shaped] in H. destruct (Ascii.eqb c "-");
        apply andb_prop in H; destruct H as [_ H]; eauto. }
    destruct s' as [| e s']; [| injection Heq as _ Heq; exact (IH _ Hs s' Heq)].
    cbn in Heq. injection Heq as -> Hdrop.
    cbn [slug_shaped Ascii.eqb] in H. cbn in Hlast.
    destruct s as [| d s]; [discriminate Hlast |].
    rewrite drop_trailing_dash_cons in Hdrop.
    destruct (Ascii.eqb d "-") eqn:Hd; [| discriminate Hdrop].
    apply andb_prop in H. destruct H as [_ H].
    cbn [slug_shaped] in H. rewrite Hd in H. discriminate H.
Qed.

Lemma drop_leading_dash_shaped (s : string) :
  slug_shaped false s = true ->
  slug_shaped true (drop_leading_dash s) = true.
Proof.
  destruct s as [| c s]; [reflexivity |]. rewrite drop_leading_dash_cons.
  cbn [slug_shaped]. destruct (Ascii.eqb c "-") eqn:Hd; [cbn; auto |].
  intros H. cbn [slug_shaped]. rewrite Hd. exact H.
Qed.

Lemma generateSlug_shaped (name : string) :
  slug_shaped true (generateSlug js name) = true.
Proof.
  unfold generateSlug, strip_edge_dashes.
  apply drop_trailing_dash_shaped, drop_leading_dash_shaped, replace_runs_shaped.
Qed.

Lemma generateSlug_no_trailing_dash (name : string) :
  forall s', generateSlug js name <> s' ++ "-".
Proof.
  intros s'. unfold generateSlug, strip_edge_dashes.
  apply (drop_trailing_dash_no_dash _ false).
  apply slug_shaped_weaken, drop_leading_dash_shaped, replace_runs_shaped.
Qed.

(** X1 — A slug is safe in a URL whatever the name: each of its characters
    is in [[a-z0-9]] or is a dash, it neither starts nor ends with a dash,
    and it has no two dashes in a row. *)
Theorem generateSlug_url_safe (name : string) :
  let slug := generateSlug js name in
  Forall (fun c => is_slug_char c = true \/ c = "-"%char) (list_ascii_of_string slug)
  /\ (forall rest, slug <> "-" ++ rest)
  /\ (forall s', slug <> s' ++ "-")
  /\ (forall a b, slug <> a ++ "--" ++ b).
Proof.
  cbv zeta. pose proof (generateSlug_shaped name) as H.
  split; [exact (slug_shaped_chars _ _ H) | split; [| split]].
  - intros rest Heq. rewrite Heq in H. discriminate H.
  - apply generateSlug_no_trailing_dash.
  - intros a b Heq. rewrite Heq, slug_shaped_no_double_dash in H. discriminate H.
Qed.

Lemma replace_runs_fixed (s : string) :
  forall b, slug_shaped b s = true -> replace_runs b s = s.
Proof.
  induction s as [| c s IH]; intros b H; [reflexivity |].
  cbn [slug_shaped] in H. cbn [replace_runs].
  destruct (Ascii.eqb c "-") eqn:Hd.
  - apply andb_prop in H. destruct H as [Hb H].
    rewrite (dash_not_slug_char c Hd). destruct b; [discriminate Hb |].
    apply Ascii.eqb_eq in Hd. subst c. rewrite (IH _ H). reflexivity.
  - apply andb_prop in H. destruct H as [-> H]. rewrite (IH _ H). reflexivity.
Qed.

Lemma drop_trailing_dash_fixed (s : string) :
  (forall s', s <> s' ++ "-") -> drop_trailing_dash s = s.
Proof.
  induction s as [| c s IH]; intros H; [reflexivity |].
  rewrite drop_trailing_dash_cons.
  destruct (Ascii.eqb c "-") eqn:Hd; destruct s as [| d s]; cbn [andb].
  - apply Ascii.eqb_eq in Hd. subst c. destruct (H "" eq_refl).
  - rewrite IH; [reflexivity |]. intros s' Heq. apply (H (String c s')).
    cbn. rewrite Heq. reflexivity.
  - reflexivity.
  - rewrite IH; [reflexivity |]. intros s' Heq. apply (H (String c s')).
    cbn. rewrite Heq. reflexivity.
Qed.

(** X2 — A slug is its own slug: generating the slug of a slug gives it
    back, as soon as lower-casing leaves the slug (a string of [[a-z0-9-]])
    as it is. *)
Theorem generateSlug_idempotent (name : string) :
  toLowerCase js (generateSlug js name) = generateSlug js name ->
  generateSlug js (generateSlug js name) = generateSlug js name.
Proof.
  intros Hlower.
  pose proof (generateSlug_no_trailing_dash name) as Hend.
  pose proof (generateSlug_shaped name) as Hshape.
  set (slug := generateSlug js name) in *.
  unfold generateSlug at 1. fold slug. rewrite Hlower.
  rewrite (replace_runs_fixed slug false (slug_shaped_weaken _ Hshape)).
  unfold strip_edge_dashes.
  assert (drop_leading_dash slug = slug) as ->.
  { destruct slug as [| c s]; [reflexivity |]. rewrite drop_leading_dash_cons.
    cbn [slug_shaped] in Hshape. destruct (Ascii.eqb c "-"); [discriminate | reflexivity]. }
  apply drop_trailing_dash_fixed, Hend.
Qed.

(** *** Store directory *)

Lemma find_none_slug (slug : string) (l : list Store.t) :
  find (fun s => String.eqb (Store.slug s) slug) l = None ->
  ~ In slug (map Store.slug l).
Proof.
  intros Hfind Hin. apply in_map_iff in Hin. destruct Hin as (s & Hs & Hin).
  pose proof (find_none _ _ Hfind s Hin) as H. cbn in H.
  rewrite Hs, String.eqb_refl in H. discriminate H.
Qed.

(** X3 — Store creation keeps the slugs of the stores collection pairwise
    distinct, soft-deleted stores included; it writes one store document at
    most, at the end of the collection, and never touches the products or
    the orders. *)
Theorem POST_stores_keeps_slugs_distinct (env : Env) (db : DB) (body : value) :
  NoDup (map Store.slug (stores db)) ->
  let db' := snd (POST_stores js env db body) in
  NoDup (map Store.slug (stores db'))
  /\ (stores db' = stores db
      \/ exists s, stores db' = (stores db ++ [s])%list
                   /\ Store.isActive s = true
                   /\ fst (POST_stores js env db body) = Json (StoreDoc s) 201)
  /\ products db' = products db
  /\ orders db' = orders db.
Proof.
  intros Hnodup. unfold POST_stores, bind.
  destruct (get body "name") as [name |]; [| cbn; auto].
  destruct (get body "description") as [description |]; [| cbn; auto].
  destruct (get body "domain") as [domain |]; [| cbn; auto].
  destruct (negb (ToBoolean name)); [cbn; auto |].
  destruct name as [| | | | name | |]; try (cbn; auto; fail).
  destruct (find _ (stores db)) as [existing |] eqn:Hfind; [cbn; auto |].
  cbn. split; [| split; [right; eexists; repeat split | split; reflexivity]].
  rewrite map_app. cbn.
  apply (Permutation_NoDup (l := generateSlug js name :: map Store.slug (stores db))).
  - apply Permutation_cons_append.
  - constructor; [apply find_none_slug, Hfind | exact Hnodup].
Qed.

(** *** Sorting *)

Lemma insert_newest_perm {A : Type} (key : A -> Z) (d : A) (l : list A) :
  Permutation (insert_newest key d l) (d :: l).
Proof.
  induction l as [| x l IH]; cbn; [reflexivity |].
  destruct (key x <=? key d)%Z; [reflexivity |].
  rewrite IH. apply perm_swap.
Qed.

Lemma newest_first_perm {A : Type} (key : A -> Z) (l : list A) :
  Permutation (newest_first key l) l.
Proof.
  induction l as [| x l IH]; cbn; [constructor |].
  rewrite insert_newest_perm. constructor. exact IH.
Qed.

Lemma insert_newest_sorted {A : Type} (key : A -> Z) (d : A) (l : list A) :
  newest_to_oldest key l -> newest_to_oldest key (insert_newest key d l).
Proof.
  unfold newest_to_oldest. induction 1 as [| x l Hl IH Hx]; cbn.
  - constructor; constructor.
  - destruct (Z.leb_spec (key x) (key d)) as [Hle | Hgt].
    + constructor; [constructor; assumption |].
      constructor; [exact Hle |].
      eapply Forall_impl; [| exact Hx]. cbn. intros b Hb. lia.
    + constructor; [exact IH |].
      rewrite insert_newest_perm.
      constructor; [lia | exact Hx].
Qed.

Lemma newest_first_sorted {A : Type} (key : A -> Z) (l : list A) :
  newest_to_oldest key (newest_first key l).
Proof.
  induction l as [| x l IH]; cbn; [constructor |].
  apply insert_newest_sorted, IH.
Qed.

(** X4 — The list of stores holds the active stores and only them, each
    document once, newest first; a soft-deleted store is never listed. *)
Theorem GET_stores_lists_active (db : DB) :
  exists l,
    GET_stores db = Reply (inr l) 200
    /\ Permutation l (filter Store.isActive (stores db))
    /\ newest_to_oldest Store.createdAt l
    /\ (forall s, In s l <-> In s (stores db) /\ Store.isActive s = true).
Proof.
  eexists. split; [reflexivity |].
  split; [apply newest_first_perm | split; [apply newest_first_sorted |]].
  intros s. rewrite <- filter_In. split; apply Permutation_in.
  - apply newest_first_perm.
  - symmetry. apply newest_first_perm.
Qed.

(** *** Storefront *)

Lemma In_firstn {A : Type} (n : nat) (l : list A) (x : A) :
  In x (firstn n l) -> In x l.
Proof.
  intros H. rewrite <- (firstn_skipn n l). apply in_or_app. left. exact H.
Qed.

(** X5 — The products of a storefront are at most 20 active products of
    the store, newest first, and they are the newest ones: together with
    the products left out they are all the active products of the store in
    that order, and none is left out when fewer than 20 are shown. *)
Theorem storefront_products_newest_20 (db : DB) (store : Store.t) :
  let shown := storefront_products db store in
  let eligible := filter (fun p => String.eqb (Product.storeId p) (Store.id store)
                                   && Product.isActive p) (products db) in
  List.length shown <= 20
  /\ Forall (fun p => In p (products db)
                      /\ Product.storeId p = Store.id store
                      /\ Product.isActive p = true) shown
  /\ exists rest,
       Permutation (shown ++ rest) eligible
       /\ newest_to_oldest Product.createdAt (shown ++ rest)
       /\ (List.length shown < 20 -> rest = []).
Proof.
  cbv zeta. unfold storefront_products.
  set (eligible := filter _ (products db)).
  set (sorted := newest_first Product.createdAt eligible).
  split; [apply firstn_le_length |]. split.
  - apply Forall_forall. intros p Hp. apply In_firstn in Hp.
    apply (Permutation_in _ (newest_first_perm _ _)) in Hp.
    apply filter_In in Hp. destruct Hp as [Hin Hp].
    apply andb_prop in Hp. destruct Hp as [Hs Ha].
    apply String.eqb_eq in Hs. auto.
  - exists (skipn 20 sorted). rewrite firstn_skipn.
    split; [apply newest_first_perm | split; [apply newest_first_sorted |]].
    intros Hlen. apply skipn_all2. rewrite length_firstn in Hlen. lia.
Qed.

(** X6 — The two storefront routes give the same answer exactly when the
    slug does not start with "demo-" or an active store carries it: the
    demo data of the page route never replaces a store of the collection,
    and on an unclaimed demo slug the page route answers 200 where the
    catch-all route answers 404. *)
Theorem storefront_routes_agree (env : Env) (db : DB) (slug : string) :
  GET_storefront_page env db slug = GET_storefront db slug
  <-> String.prefix "demo-" slug = false \/ find_storefront db slug <> None.
Proof.
  unfold GET_storefront_page, GET_storefront.
  destruct (find_storefront db slug) as [store |].
  - split; [right; discriminate | reflexivity].
  - destruct (String.prefix "demo-" slug).
    + split; [discriminate | intros [H | H]; [discriminate | contradiction]].
    + split; [left; reflexivity | reflexivity].
Qed.

(** X7 — A demo storefront cannot check out: the page posts the order to
    the id of the demo store, which is the slug, and as long as no active
    store has that id the order route answers "Store not found" and stores
    nothing, whatever the cart. *)
Theorem demo_store_cannot_order (env env' : Env) (db : DB) (slug : string)
  (body : value) (item : value) (items : list value) :
  find_storefront db slug = None ->
  String.prefix "demo-" slug = true ->
  validateStoreAccess db slug = false ->
  get body "items" = Some (VArr (item :: items)) ->
  exists store products,
    GET_storefront_page env db slug = Reply (inr (store, products)) 200
    /\ Forall (fun p => Product.storeId p = Store.id store) products
    /\ POST_orders js svc env' db (Store.id store) body
       = (Json (Error "Store not found") 404, db).
Proof.
  intros Hfind Hdemo Hstore Hitems.
  exists (demoStore env slug), (demoProducts env slug).
  unfold GET_storefront_page. rewrite Hfind, Hdemo.
  split; [reflexivity | split; [repeat constructor |]].
  unfold POST_orders.
  destruct (get_defined body _ "customerInfo" _ Hitems) as [c ->].
  destruct (get_defined body _ "total" _ Hitems) as [t ->].
  rewrite Hitems. cbn [bind demoStore Store.id createOrder].
  rewrite Hstore. reflexivity.
Qed.

(** *** Catalog *)

Lemma find_none_product_key (storeId slug : string) (l : list Product.t) :
  find (fun p => String.eqb (Product.storeId p) storeId
                 && String.eqb (Product.slug p) slug) l = None ->
  ~ In (storeId, slug) (map product_key l).
Proof.
  intros Hfind Hin. apply in_map_iff in Hin. destruct Hin as (p & Hp & Hin).
  pose proof (find_none _ _ Hfind p Hin) as H. cbn in H.
  injection Hp as Hs Hg. rewrite Hs, Hg, !String.eqb_refl in H. discriminate H.
Qed.

(** What a 201 answer of product creation says. *)
Lemma POST_products_created (env : Env) (db : DB) (storeId : string)
  (body : value) (p : Product.t) (db' : DB) :
  POST_products js parsers env db storeId body = (Reply (inr p) 201, db') ->
  validateStoreAccess db storeId = true
  /\ db' = mkDB (stores db) (products db ++ [p]) (orders db)
  /\ Product.id p = uuidv4 env
  /\ Product.storeId p = storeId
  /\ Product.isActive p = true
  /\ ~ In (product_key p) (map product_key (products db))
  /\ exists name price inventory,
       get body "name" = Some (VStr name)
       /\ get body "price" = Some price
       /\ get body "inventory" = Some inventory
       /\ Product.name p = name
       /\ Product.slug p = generateSlug js name
       /\ exists price_string inventory_string,
            ToString js price = Some price_string
            /\ ToString js inventory = Some inventory_string
            /\ Product.price p = parseFloat parsers price_string
            /\ Product.inventory p
               = (let parsed := parseInt parsers inventory_string in
                  if ToBoolean (VNum parsed) then parsed else 0%float).
Proof.
  unfold POST_products, bind.
  destruct (get body "name") as [name |]; [| discriminate].
  destruct (get body "description") as [description |]; [| discriminate].
  destruct (get body "price") as [price |]; [| discriminate].
  destruct (get body "inventory") as [inventory |]; [| discriminate].
  destruct (get body "images") as [images |]; [| discriminate].
  destruct (negb (ToBoolean name) || _); [discriminate |].
  destruct (validateStoreAccess db storeId); [| discriminate].
  cbn [negb]. destruct name as [| | | | name | |]; try discriminate.
  destruct (find _ (products db)) as [existing |] eqn:Hfind; [discriminate |].
  destruct (ToString js price) as [price_string |] eqn:Hprice; [| discriminate].
  destruct (ToString js inventory) as [inventory_string |] eqn:Hinventory;
    [| discriminate].
  cbn. intros [= <- <-]. cbn.
  repeat split; try reflexivity.
  - apply find_none_product_key, Hfind.
  - exists name, price, inventory. repeat split; try reflexivity.
    exists price_string, inventory_string. repeat split; assumption || reflexivity.
Qed.

(** X8 — Product creation keeps the pairs (store, slug) of the products
    collection pairwise distinct; it writes one product at most, at the end
    of the collection, active and owned by the store of the path. *)
Theorem POST_products_keeps_slugs_distinct (env : Env) (db : DB)
  (storeId : string) (body : value) :
  NoDup (map product_key (products db)) ->
  let db' := snd (POST_products js parsers env db storeId body) in
  NoDup (map product_key (products db'))
  /\ (products db' = products db
      \/ exists p, products db' = (products db ++ [p])%list
                   /\ Product.storeId p = storeId
                   /\ Product.isActive p = true
                   /\ fst (POST_products js parsers env db storeId body)
                      = Reply (inr p) 201).
Proof.
  intros Hnodup. cbv zeta.
  destruct (POST_products js parsers env db storeId body) as [r db'] eqn:Hpost.
  destruct r as [[message | p] c].
  - assert (db' = db) as ->; [| cbn; auto].
    revert Hpost. unfold POST_products, bind.
    destruct (get body "name") as [name |]; [| intros [= _ _ <-]; reflexivity].
    destruct (get body "description"); [| intros [= _ _ <-]; reflexivity].
    destruct (get body "price"); [| intros [= _ _ <-]; reflexivity].
    destruct (get body "inventory"); [| intros [= _ _ <-]; reflexivity].
    destruct (get body "images"); [| intros [= _ _ <-]; reflexivity].
    destruct (negb (ToBoolean name) || _); [intros [= _ _ <-]; reflexivity |].
    destruct (negb _); [intros [= _ _ <-]; reflexivity |].
    destruct name; try (intros [= _ _ <-]; reflexivity).
    destruct (find _ (products db)); [intros [= _ _ <-]; reflexivity |].
    destruct (ToString js _); [| intros [= _ _ <-]; reflexivity].
    destruct (ToString js _); [| intros [= _ _ <-]; reflexivity].
    cbn. discriminate.
  - assert (c = 201%nat) as ->.
    { revert Hpost. unfold POST_products, bind.
      destruct (get body "name") as [name |]; [| discriminate].
      destruct (get body "description"); [| discriminate].
      destruct (get body "price"); [| discriminate].
      destruct (get body "inventory"); [| discriminate].
      destruct (get body "images"); [| discriminate].
      destruct (negb (ToBoolean name) || _); [discriminate |].
      destruct (negb _); [discriminate |].
      destruct name; try discriminate.
      destruct (find _ (products db)); [discriminate |].
      destruct (ToString js _); [| discriminate].
      destruct (ToString js _); [| discriminate].
      cbn. intros [= _ <- _]. reflexivity. }
    destruct (POST_products_created _ _ _ _ _ _ Hpost)
      as (_ & -> & _ & Hstore & Hactive & Hfresh & _).
    cbn. split.
    + rewrite map_app. cbn.
      apply (Permutation_NoDup (l := product_key p :: map product_key (products db))).
      * apply Permutation_cons_append.
      * constructor; assumption.
    + right. exists p. auto.
Qed.

(** X9 — The inventory a creation stores is never NaN: what [parseInt]
    cannot read, and 0, are stored as 0. The price has no such default: it
    is what [parseFloat] reads in the string of the [price] of the body. *)
Theorem POST_products_inventory_not_NaN (env : Env) (db : DB)
  (storeId : string) (body : value) (p : Product.t) (db' : DB) :
  POST_products js parsers env db storeId body = (Reply (inr p) 201, db') ->
  PrimFloat.is_nan (Product.inventory p) = false
  /\ exists inventory price inventory_string price_string,
       get body "inventory" = Some inventory
       /\ get body "price" = Some price
       /\ ToString js inventory = Some inventory_string
       /\ ToString js price = Some price_string
       /\ (PrimFloat.is_nan (parseInt parsers inventory_string) = true ->
           Product.inventory p = 0%float)
       /\ Product.price p = parseFloat parsers price_string.
Proof.
  intros Hpost.
  destruct (POST_products_created _ _ _ _ _ _ Hpost)
    as (_ & _ & _ & _ & _ & _ & name & price & inventory
        & _ & Hprice & Hinv & _ & _ & price_string & inventory_string
        & Sp & Si & Hp & Hi).
  rewrite Hi. cbv zeta. cbn [ToBoolean].
  set (parsed := parseInt parsers inventory_string).
  split.
  - destruct (PrimFloat.is_zero parsed); [reflexivity |].
    destruct (PrimFloat.is_nan parsed) eqn:Hnan; [reflexivity | exact Hnan].
  - exists inventory, price, inventory_string, price_string.
    repeat split; try assumption.
    intros Hnan. fold parsed in Hnan. rewrite Hnan, orb_true_r. reflexivity.
Qed.

Lemma filter_none {A : Type} (f : A -> bool) (l : list A) :
  Forall (fun x => f x = false) l -> filter f l = [].
Proof.
  induction 1 as [| x l Hx _ IH]; cbn; [reflexivity |]. rewrite Hx. exact IH.
Qed.

Lemma find_first_match {A : Type} (f : A -> bool) (pre post : list A) (d : A) :
  Forall (fun x => f x = false) pre -> f d = true ->
  find f (pre ++ d :: post) = Some d.
Proof.
  induction 1 as [| x pre Hx _ IH]; cbn; intros Hd.
  - rewrite Hd. reflexivity.
  - rewrite Hx. exact (IH Hd).
Qed.

Lemma deleteOne_no_match {A : Type} (matches : A -> bool) (docs : list A) :
  Forall (fun d => matches d = false) docs ->
  deleteOne matches docs = (docs, 0%nat).
Proof.
  induction 1 as [| d docs Hd _ IH]; cbn; [reflexivity |].
  rewrite Hd, IH. reflexivity.
Qed.

Lemma deleteOne_first_match {A : Type} (matches : A -> bool)
  (pre post : list A) (d : A) :
  Forall (fun x => matches x = false) pre -> matches d = true ->
  deleteOne matches (pre ++ d :: post) = ((pre ++ post)%list, 1%nat).
Proof.
  induction 1 as [| x pre Hx _ IH]; cbn; intros Hd.
  - rewrite Hd. reflexivity.
  - rewrite Hx, (IH Hd). reflexivity.
Qed.

(** Case analysis on every test of a handler, innermost test first, for
    the properties that hold on each of its paths. *)
Ltac destruct_innermost t :=
  first [ match t with
          | context [match ?y with _ => _ end] => destruct_innermost y
          end
        | destruct t ].

Ltac on_every_path :=
  repeat (match goal with
          | |- context [match ?x with _ => _ end] => destruct_innermost x
          end; cbn beta iota);
  cbn; try reflexivity.

(** X10 — A product just created can be ordered: when the id it was given
    is new in the collection, an order of [q] units of it alone, without a
    total, is accepted by the store of the product, with the parsed price
    as the price of the item and [price * q] as its total and the total of
    the order. *)
Theorem created_product_can_be_ordered (env env' : Env) (db db1 : DB)
  (storeId : string) (body body2 item : value) (p : Product.t) (q : float) :
  POST_products js parsers env db storeId body = (Reply (inr p) 201, db1) ->
  Forall (fun x => Product.id x <> uuidv4 env) (products db) ->
  in_list_refused svc [VStr (Product.id p)] = false ->
  get body2 "items" = Some (VArr [item]) ->
  get item "productId" = Some (VStr (Product.id p)) ->
  get item "quantity" = Some (VNum q) ->
  get body2 "total" = Some VUndefined ->
  exists o,
    POST_orders js svc env' db1 storeId body2
    = (Json (OrderDoc o) 201,
       mkDB (stores db1) (products db1) (orders db1 ++ [o]))
    /\ Order.items o
       = [ {| OrderItem.productId := VStr (Product.id p);
              OrderItem.productName := Product.name p;
              OrderItem.quantity := VNum q;
              OrderItem.price := Product.price p;
              OrderItem.total := (Product.price p * q)%float |} ]
    /\ Order.total o = VNum (0 + Product.price p * q)%float
    /\ Order.status o = VStr "pending".
Proof.
  intros Hpost Hfresh Haccepted Hitems Hid Hq Htotal.
  destruct (POST_products_created _ _ _ _ _ _ Hpost)
    as (Hstore & -> & Hpid & Hpstore & Hactive & _).
  destruct (get_defined body2 _ "customerInfo" _ Hitems) as [customerInfo Hc].
  assert (find_products (mkDB (stores db) (products db ++ [p]) (orders db))
            storeId [VStr (Product.id p)] = [p]) as Hfound.
  { unfold find_products. cbn [products]. rewrite filter_app.
    rewrite filter_none.
    - cbn. rewrite String.eqb_refl, Hpstore, String.eqb_refl, Hactive. reflexivity.
    - eapply Forall_impl; [| exact Hfresh]. cbn. intros x Hx.
      rewrite Hpid. destruct (String.eqb_spec (uuidv4 env) (Product.id x)) as [He | _];
        [symmetry in He; contradiction | reflexivity]. }
  assert (productIds_of [item] = Some [VStr (Product.id p)]) as Hids
    by (cbn; rewrite Hid; reflexivity).
  assert (orderItems_of js [p] [item] 0%float
          = Some ([ {| OrderItem.productId := VStr (Product.id p);
                       OrderItem.productName := Product.name p;
                       OrderItem.quantity := VNum q;
                       OrderItem.price := Product.price p;
                       OrderItem.total := (Product.price p * q)%float |} ],
                  (0 + Product.price p * q)%float)) as Hlines.
  { cbn. unfold orderItem_of. rewrite Hid, Hq. cbn. rewrite String.eqb_refl.
    reflexivity. }
  eexists. unfold POST_orders. rewrite Hitems, Hc, Htotal. cbn [bind].
  unfold createOrder.
  assert (validateStoreAccess (mkDB (stores db) (products db ++ [p]) (orders db))
            storeId = true) as -> by exact Hstore.
  cbn [negb]. rewrite Hids. cbn [bind]. rewrite Haccepted, Hfound.
  cbn [List.length Nat.eqb negb]. rewrite Hlines. cbn.
  repeat split; reflexivity.
Qed.

(** X11 — No operation on products changes an order or a store: creating,
    updating or deleting a product leaves both collections as they were,
    so the items of the orders placed keep the name and price they were
    placed with. *)
Theorem product_operations_keep_orders (env : Env) (db : DB)
  (storeId itemId : string) (body : value) :
  (orders (snd (POST_products js parsers env db storeId body)) = orders db
   /\ stores (snd (POST_products js parsers env db storeId body)) = stores db)
  /\ (orders (snd (PUT_products js parsers env db storeId itemId body)) = orders db
      /\ stores (snd (PUT_products js parsers env db storeId itemId body)) = stores db)
  /\ (orders (snd (DELETE_products db storeId itemId)) = orders db
      /\ stores (snd (DELETE_products db storeId itemId)) = stores db).
Proof.
  repeat split.
  1, 2: unfold POST_products, try_catch, bind; on_every_path.
  1, 2: unfold PUT_products, try_catch, bind; on_every_path.
  1, 2: unfold DELETE_products; on_every_path.
Qed.

Lemma parsed_update_some (parse : string -> float) (v : value) :
  ToString js v <> None -> exists r, parsed_update js parse v = Some r.
Proof.
  intros Hv. unfold parsed_update.
  destruct (ToString js v) as [s |]; [| contradiction].
  destruct v; cbn; eauto.
Qed.

(** X12 — An update with a name, whose [price] and [inventory] are absent
    or have a string to parse (every value but an object without a
    primitive value), renames the first product of that id in
    the store and gives it the slug of the new name without looking at the
    other products: when another product of the store already has that
    slug, the collection ends with two products of the store under one
    slug, which creation never allows. The answer is the updated product. *)
Theorem PUT_products_renames_unchecked (env : Env) (db : DB)
  (storeId itemId : string) (body : value) (name : string)
  (price inventory : value) (pre post : list Product.t) (p : Product.t) :
  validateStoreAccess db storeId = true ->
  get body "name" = Some (VStr name) -> name <> "" ->
  get body "price" = Some price -> ToString js price <> None ->
  get body "inventory" = Some inventory -> ToString js inventory <> None ->
  products db = (pre ++ p :: post)%list ->
  Forall (fun x => product_matches itemId storeId x = false) pre ->
  product_matches itemId storeId p = true ->
  exists p',
    PUT_products js parsers env db storeId itemId body
    = (Reply (inr (Some p')) 200,
       mkDB (stores db) (pre ++ p' :: post) (orders db))
    /\ Product.name p' = name
    /\ Product.slug p' = generateSlug js name
    /\ Product.id p' = Product.id p
    /\ Product.storeId p' = Product.storeId p
    /\ Product.createdAt p' = Product.createdAt p
    /\ (forall other,
          In other (pre ++ post) ->
          Product.storeId other = Product.storeId p ->
          Product.slug other = generateSlug js name ->
          ~ NoDup (map product_key (pre ++ p' :: post))).
Proof.
  intros Hstore Hname Hne Hpr Sprice Hi Sinventory Hproducts Hpre Hp.
  destruct (get_defined body _ "description" _ Hname) as [description Hd].
  destruct (get_defined body _ "images" _ Hname) as [images Him].
  destruct (get_defined body _ "isActive" _ Hname) as [isActive Ha].
  destruct (parsed_update_some (parseFloat parsers) price Sprice)
    as [price' Hprice'].
  destruct (parsed_update_some (parseInt parsers) inventory Sinventory)
    as [inventory' Hinventory'].
  set (set := set_product env (Some (name, generateSlug js name))
                description price' inventory' images isActive).
  exists (set p). split; [| split; [reflexivity | split; [reflexivity |
    split; [reflexivity | split; [reflexivity | split; [reflexivity |]]]]]].
  - unfold PUT_products. rewrite Hname, Hd, Hpr, Hi, Him, Ha. cbn [bind].
    rewrite Hstore, (ToBoolean_nonempty name Hne). cbn [negb bind].
    rewrite Hprice', Hinventory'. cbn [bind].
    fold set. rewrite Hproducts.
    rewrite (updateOne_first_match _ set pre post p Hpre Hp). cbn.
    rewrite (find_first_match _ pre post (set p) Hpre); [reflexivity | exact Hp].
  - intros other Hin Hs Hslug Hnodup.
    rewrite map_app in Hnodup. cbn [map] in Hnodup.
    apply NoDup_remove_2 in Hnodup. apply Hnodup.
    rewrite <- map_app. apply in_map_iff. exists other. split; [| exact Hin].
    unfold product_key. cbn. rewrite Hs, Hslug. reflexivity.
Qed.

Lemma Forall2_In_l {A B : Type} (P : A -> B -> Prop) (l : list A) (l' : list B)
  (x : A) :
  Forall2 P l l' -> In x l -> exists y, In y l' /\ P x y.
Proof.
  induction 1 as [| a b l l' Hab _ IH]; cbn; [contradiction |].
  intros [-> | Hin]; [eauto | ].
  destruct (IH Hin) as (y & Hy & Hxy). eauto.
Qed.

(** An order that is created has every line of its cart resolved to an
    active product of the store in the collection. *)
Lemma created_order_lines_resolve (env : Env) (db db' : DB) (storeId : string)
  (body : value) (r : response) (cart : list value) (item productId : value) :
  POST_orders js svc env db storeId body = (r, db') ->
  status r = 201%nat ->
  get body "items" = Some (VArr cart) ->
  In item cart ->
  get item "productId" = Some productId ->
  exists p, In p (products db) /\ productId = VStr (Product.id p)
            /\ Product.storeId p = storeId /\ Product.isActive p = true.
Proof.
  intros Hpost Hstatus Hitems Hin Hid.
  destruct (POST_orders_created js svc env db storeId body r db' Hpost Hstatus)
    as (items & customerInfo & total & Hi & _ & _ & Hcreate).
  assert (items = VArr cart) as -> by congruence.
  destruct (createOrder_created js svc _ _ _ _ _ _ _ _ Hcreate Hstatus)
    as (cart' & productIds & lines & t & Hcart & _ & _ & _ & Hlines & _).
  injection Hcart as <-.
  apply orderItems_of_spec in Hlines. destruct Hlines as [Hall _].
  destruct (Forall2_In_l _ _ _ _ Hall Hin) as (line & _ & Hline).
  apply orderItem_of_inv in Hline.
  destruct Hline as (productId' & p & quantity & Hid' & Hfind & _).
  assert (productId' = productId) as -> by congruence.
  apply find_some in Hfind. destruct Hfind as [Hp Heq].
  apply is_string_true in Heq. apply find_products_In in Hp.
  exists p. tauto.
Qed.

(** X13 — Deletion removes the product for good: the first product of that
    id in the store leaves the collection, and when the store has no other
    product of that id, no later order with a line for it is created —
    the request is refused and stores nothing. *)
Theorem deleted_product_cannot_be_ordered (db : DB) (storeId itemId : string)
  (pre post : list Product.t) (p : Product.t) :
  validateStoreAccess db storeId = true ->
  products db = (pre ++ p :: post)%list ->
  Forall (fun x => product_matches itemId storeId x = false) pre ->
  product_matches itemId storeId p = true ->
  Forall (fun x => product_matches itemId storeId x = false) post ->
  let db' := mkDB (stores db) (pre ++ post) (orders db) in
  DELETE_products db storeId itemId = (Reply (inr tt) 200, db')
  /\ forall env body cart item,
       get body "items" = Some (VArr cart) ->
       In item cart ->
       get item "productId" = Some (VStr itemId) ->
       status (fst (POST_orders js svc env db' storeId body)) <> 201%nat
       /\ snd (POST_orders js svc env db' storeId body) = db'.
Proof.
  intros Hstore Hproducts Hpre Hp Hpost. cbv zeta. split.
  - unfold DELETE_products. rewrite Hstore, Hproducts. cbn [negb].
    rewrite (deleteOne_first_match _ pre post p Hpre Hp). reflexivity.
  - intros env body cart item Hitems Hin Hid.
    set (db' := mkDB (stores db) (pre ++ post) (orders db)).
    assert (status (fst (POST_orders js svc env db' storeId body)) <> 201%nat)
      as Hrefused.
    { intros Hstatus.
      destruct (created_order_lines_resolve env db' _ storeId body _ cart item _
                  (surjective_pairing _) Hstatus Hitems Hin Hid)
        as (x & Hx & Hxid & Hxstore & _).
      injection Hxid as Hxid. cbn [db' products] in Hx.
      assert (product_matches itemId storeId x = false) as Hno.
      { apply in_app_or in Hx. destruct Hx as [Hx | Hx].
        - exact (proj1 (Forall_forall _ _) Hpre x Hx).
        - exact (proj1 (Forall_forall _ _) Hpost x Hx). }
      unfold product_matches in Hno.
      rewrite <- Hxid, Hxstore, !String.eqb_refl in Hno. discriminate Hno. }
    split; [exact Hrefused |].
    apply POST_orders_all_or_nothing, Hrefused.
Qed.

(** *** Order engine: status updates *)

Lemma updateOne_unmatched {A : Type} (matches : A -> bool) (set : A -> A)
  (docs : list A) :
  snd (updateOne matches set docs) = 0%nat ->
  fst (updateOne matches set docs) = docs.
Proof.
  induction docs as [| d docs IH]; cbn; [reflexivity |].
  destruct (matches d); cbn; [discriminate |].
  intros H. rewrite (IH H). reflexivity.
Qed.

Lemma updateOne_length {A : Type} (matches : A -> bool) (set : A -> A)
  (docs : list A) :
  List.length (fst (updateOne matches set docs)) = List.length docs.
Proof.
  induction docs as [| d docs IH]; cbn; [reflexivity |].
  destruct (matches d); cbn; [reflexivity | rewrite IH; reflexivity].
Qed.

Lemma PUT_orders_on_first_match (env : Env) (db : DB)
  (storeId itemId : string) (body status : value)
  (pre post : list Order.t) (o : Order.t) :
  get body "status" = Some status -> ToBoolean status = true ->
  validateStoreAccess db storeId = true ->
  orders db = (pre ++ o :: post)%list ->
  Forall (fun x => order_is itemId storeId x = false) pre ->
  order_is itemId storeId o = true ->
  PUT_orders env db storeId itemId body
  = (Reply (inr (Some (set_status env status o))) 200,
     mkDB (stores db) (products db) (pre ++ set_status env status o :: post)).
Proof.
  intros Hstatus Htruthy Hstore Horders Hpre Ho.
  unfold PUT_orders. rewrite Hstatus. cbn [bind]. rewrite Htruthy, Hstore.
  cbn [negb]. rewrite Horders.
  rewrite (updateOne_first_match _ (set_status env status) pre post o Hpre Ho).
  cbn. rewrite (find_first_match _ pre post _ Hpre); [reflexivity | exact Ho].
Qed.

(** X14 — A status update enforces no transition table: whatever the
    current status of the first order of that id in an active store, any
    truthy status replaces it. Only the status and the update time change;
    items, total, customer and payment fields are kept, no other order is
    touched, and the answer is the updated order. *)
Theorem PUT_orders_sets_any_status (env : Env) (db : DB)
  (storeId itemId : string) (body status : value)
  (pre post : list Order.t) (o : Order.t) :
  get body "status" = Some status -> ToBoolean status = true ->
  validateStoreAccess db storeId = true ->
  orders db = (pre ++ o :: post)%list ->
  Forall (fun x => order_is itemId storeId x = false) pre ->
  order_is itemId storeId o = true ->
  exists o',
    PUT_orders env db storeId itemId body
    = (Reply (inr (Some o')) 200,
       mkDB (stores db) (products db) (pre ++ o' :: post))
    /\ Order.status o' = status
    /\ Order.updatedAt o' = now env
    /\ Order.items o' = Order.items o
    /\ Order.total o' = Order.total o
    /\ Order.customerInfo o' = Order.customerInfo o
    /\ Order.paymentStatus o' = Order.paymentStatus o
    /\ Order.razorpayOrderId o' = Order.razorpayOrderId o
    /\ Order.razorpayPaymentId o' = Order.razorpayPaymentId o
    /\ Order.paymentCompletedAt o' = Order.paymentCompletedAt o
    /\ Order.id o' = Order.id o
    /\ Order.storeId o' = Order.storeId o
    /\ Order.orderNumber o' = Order.orderNumber o
    /\ Order.createdAt o' = Order.createdAt o.
Proof.
  intros Hstatus Htruthy Hstore Horders Hpre Ho.
  exists (set_status env status o). split; [| repeat split; reflexivity].
  apply PUT_orders_on_first_match; assumption.
Qed.

(** X15 — A status update writes nothing unless it answers 200: a missing
    or falsy status (400), an inactive or unknown store (404), an unknown
    order (404) and a body that cannot be read (500) leave the database as
    it was. On every path the stores and products are untouched and the
    orders collection keeps its length. *)
Theorem PUT_orders_writes_only_on_200 (env : Env) (db : DB)
  (storeId itemId : string) (body : value) :
  let r := PUT_orders env db storeId itemId body in
  (code (fst r) <> 200%nat -> snd r = db)
  /\ stores (snd r) = stores db
  /\ products (snd r) = products db
  /\ List.length (orders (snd r)) = List.length (orders db).
Proof.
  cbv zeta. unfold PUT_orders, bind.
  destruct (get body "status") as [status |]; [| cbn; auto].
  destruct (negb (ToBoolean status)); [cbn; auto |].
  destruct (negb (validateStoreAccess db storeId)); [cbn; auto |].
  cbn [try_catch].
  destruct (Nat.eqb_spec (snd (updateOne (order_is itemId storeId)
                                 (set_status env status) (orders db))) 0)
    as [Hzero | _]; cbn.
  - rewrite (updateOne_unmatched _ _ _ Hzero), mkDB_eta. auto.
  - rewrite updateOne_length. split; [intros H; contradiction H; reflexivity | auto].
Qed.

(** *** Order engine: creation *)


Lemma same_productIds (cart cart' : list value) :
  Forall2 (fun i i' => get i "productId" = get i' "productId") cart cart' ->
  productIds_of cart = productIds_of cart'.
Proof.
  induction 1 as [| i i' cart cart' Hi _ IH]; cbn; [reflexivity |].
  rewrite Hi, IH. reflexivity.
Qed.

Lemma get_both (v : value) (k k' : string) :
  get v k = None <-> get v k' = None.
Proof. destruct v; cbn; split; intros H; discriminate H || reflexivity. Qed.

Lemma orderItems_of_regardless_of_quantity (found : list Product.t)
  (cart cart' : list value) :
  Forall2 (fun i i' => get i "productId" = get i' "productId") cart cart' ->
  Forall (fun i => forall quantity,
            get i "quantity" = Some quantity -> ToNumber js quantity <> None)
         cart ->
  Forall (fun i => forall quantity,
            get i "quantity" = Some quantity -> ToNumber js quantity <> None)
         cart' ->
  forall acc acc',
    orderItems_of js found cart acc = None
    <-> orderItems_of js found cart' acc' = None.
Proof.
  induction 1 as [| i i' cart cart' Hi _ IH]; intros Hn Hn' acc acc'; cbn.
  - split; discriminate.
  - apply Forall_cons_iff in Hn, Hn'.
    destruct Hn as [Hnum Hn], Hn' as [Hnum' Hn'].
    specialize (IH Hn Hn').
    unfold orderItem_of, bind. rewrite <- Hi.
    destruct (get i "productId") as [productId |] eqn:Hid; [| tauto].
    destruct (find _ found) as [product |]; [| tauto].
    destruct (get i "quantity") as [q |] eqn:Hq;
      [| apply (get_both i "quantity" "productId") in Hq; congruence].
    destruct (get i' "quantity") as [q' |] eqn:Hq';
      [| apply (get_both i' "quantity" "productId") in Hq'; congruence].
    destruct (ToNumber js q) as [x |] eqn:Hx; [| destruct (Hnum q eq_refl Hx)].
    destruct (ToNumber js q') as [x' |] eqn:Hx';
      [| destruct (Hnum' q' eq_refl Hx')].
    cbn.
    specialize (IH (acc + Product.price product * x)%float
                   (acc' + Product.price product * x')%float).
    destruct (orderItems_of js found cart _), (orderItems_of js found cart' _);
      cbn; split; intros H; try discriminate H; try reflexivity;
      destruct IH as [IH1 IH2]; try (discriminate (IH1 eq_refl));
      discriminate (IH2 eq_refl).
Qed.

(** X17 — Order creation checks no quantity against a range or a type: two
    requests whose carts name the same products line by line, the quantity
    of every line having a number (a number — negative, zero, fractional,
    NaN —, a string, a boolean, [null], an array or object with a primitive
    value, or no quantity at all, which is NaN), get the same status,
    whatever those quantities, the totals and the customers they carry. *)
Theorem POST_orders_ignores_quantities (env env' : Env) (db : DB)
  (storeId : string) (body body' : value) (cart cart' : list value) :
  get body "items" = Some (VArr cart) ->
  get body' "items" = Some (VArr cart') ->
  Forall2 (fun i i' => get i "productId" = get i' "productId") cart cart' ->
  Forall (fun i => forall quantity,
            get i "quantity" = Some quantity -> ToNumber js quantity <> None)
         cart ->
  Forall (fun i => forall quantity,
            get i "quantity" = Some quantity -> ToNumber js quantity <> None)
         cart' ->
  status (fst (POST_orders js svc env db storeId body))
  = status (fst (POST_orders js svc env' db storeId body')).
Proof.
  intros Hitems Hitems' Hsame Hnum Hnum'. unfold POST_orders.
  destruct (get_defined body _ "customerInfo" _ Hitems) as [c ->].
  destruct (get_defined body _ "total" _ Hitems) as [t ->].
  destruct (get_defined body' _ "customerInfo" _ Hitems') as [c' ->].
  destruct (get_defined body' _ "total" _ Hitems') as [t' ->].
  rewrite Hitems, Hitems'. cbn [bind]. unfold createOrder.
  pose proof (same_productIds _ _ Hsame) as Hids.
  pose proof (orderItems_of_regardless_of_quantity) as Hlines.
  destruct Hsame as [| i i' cart cart' Hi Hrest]; [reflexivity |].
  destruct (validateStoreAccess db storeId); [| reflexivity].
  cbn [negb]. rewrite <- Hids.
  destruct (productIds_of (i :: cart)) as [productIds |]; [| reflexivity].
  cbn [bind]. destruct (in_list_refused svc productIds); [reflexivity |].
  destruct (negb _); [reflexivity |].
  specialize (Hlines (find_products db storeId productIds) (i :: cart) (i' :: cart')
                (Forall2_cons _ _ Hi Hrest) Hnum Hnum' 0%float 0%float).
  destruct (orderItems_of js _ (i :: cart) 0%float),
           (orderItems_of js _ (i' :: cart') 0%float); cbn; try reflexivity;
    destruct Hlines as [H1 H2]; try (discriminate (H1 eq_refl));
    discriminate (H2 eq_refl).
Qed.

(** *** Payment bridge *)

Lemma field_filter_string (s : string) : field_filter svc (VStr s) = inr (String.eqb s).
Proof. reflexivity. Qed.

(** The verification of a request with string identifiers of the order and
    the store, a valid signature and a configured secret. *)
Lemma POST_payment_verify_valid (env : Env) (db : DB) (body : value)
  (oid pid : value) (order_id payment_id orderId storeId key : string) :
  get body "razorpay_order_id" = Some oid ->
  get body "razorpay_payment_id" = Some pid ->
  ToString js oid = Some order_id -> ToString js pid = Some payment_id ->
  get body "razorpay_signature"
  = Some (VStr (hmac_sha256_hex svc key (order_id ++ "|" ++ payment_id))) ->
  get body "orderId" = Some (VStr orderId) ->
  get body "storeId" = Some (VStr storeId) ->
  ToBoolean oid = true -> ToBoolean pid = true ->
  hmac_sha256_hex svc key (order_id ++ "|" ++ payment_id) <> "" ->
  RAZORPAY_KEY_SECRET svc = Some key ->
  POST_payment_verify js svc env db body
  = let result := updateOne (order_matches (String.eqb orderId) (String.eqb storeId))
                    (set_paid env oid pid) (orders db) in
    let db' := mkDB (stores db) (products db) (fst result) in
    if (snd result =? 0)%nat
    then (Json (Error "Order not found") 404, db')
    else (Json (Success "Payment verified successfully") 200, db').
Proof.
  intros Ho Hp So Sp Hs HorderId HstoreId To Tp Hdigest Hkey.
  destruct (POST_payment_verify_unfold js svc env db body oid pid _
              order_id payment_id key
              Ho Hp Hs To Tp (ToBoolean_nonempty _ Hdigest) So Sp Hkey)
    as (orderId' & storeId' & HorderId' & HstoreId' & ->).
  assert (orderId' = VStr orderId) as -> by congruence.
  assert (storeId' = VStr storeId) as -> by congruence.
  rewrite is_string_refl. reflexivity.
Qed.

(** X18 — Replaying a valid verification (its two gateway identifiers have
    the strings [order_id] and [payment_id], its signature is their HMAC)
    is harmless: it answers 200
    again and rewrites the same order with the same values, so the database
    after the replay is the one a single verification at the time of the
    replay gives, and is unchanged when the clock has not moved. *)
Theorem verifyPayment_replay (env env' : Env) (db : DB) (body : value)
  (oid pid : value) (order_id payment_id orderId storeId key : string)
  (pre post : list Order.t) (o : Order.t) :
  get body "razorpay_order_id" = Some oid ->
  get body "razorpay_payment_id" = Some pid ->
  ToString js oid = Some order_id -> ToString js pid = Some payment_id ->
  get body "razorpay_signature"
  = Some (VStr (hmac_sha256_hex svc key (order_id ++ "|" ++ payment_id))) ->
  get body "orderId" = Some (VStr orderId) ->
  get body "storeId" = Some (VStr storeId) ->
  ToBoolean oid = true -> ToBoolean pid = true ->
  hmac_sha256_hex svc key (order_id ++ "|" ++ payment_id) <> "" ->
  RAZORPAY_KEY_SECRET svc = Some key ->
  orders db = (pre ++ o :: post)%list ->
  Forall (fun x => order_matches (String.eqb orderId) (String.eqb storeId) x = false) pre ->
  order_matches (String.eqb orderId) (String.eqb storeId) o = true ->
  let first := POST_payment_verify js svc env db body in
  let replay := POST_payment_verify js svc env' (snd first) body in
  fst first = Json (Success "Payment verified successfully") 200
  /\ fst replay = Json (Success "Payment verified successfully") 200
  /\ snd replay = snd (POST_payment_verify js svc env' db body)
  /\ (now env' = now env -> snd replay = snd first).
Proof.
  intros Ho Hp So Sp Hs HorderId HstoreId To Tp Hdigest Hkey Horders Hpre Hmatch.
  cbv zeta.
  rewrite !(POST_payment_verify_valid _ _ body oid pid order_id payment_id
              orderId storeId key
              Ho Hp So Sp Hs HorderId HstoreId To Tp Hdigest Hkey).
  cbv zeta. rewrite Horders.
  rewrite !(updateOne_first_match _ _ pre post o Hpre Hmatch). cbn.
  rewrite (updateOne_first_match _ (set_paid env' oid pid) pre post
             (set_paid env oid pid o) Hpre Hmatch). cbn.
  repeat split; try reflexivity.
  intros Hnow. unfold set_paid. cbn. rewrite Hnow. reflexivity.
Qed.

(** X19 — The verification never inserts or removes an order and never
    touches stores or products; unless it answers 200 the database is left
    as it was, also when identifiers are missing, the secret is not
    configured, the filter is refused or no order matches. *)
Theorem verifyPayment_writes_only_on_200 (env : Env) (db : DB) (body : value) :
  let r := POST_payment_verify js svc env db body in
  (status (fst r) <> 200%nat -> snd r = db)
  /\ stores (snd r) = stores db
  /\ products (snd r) = products db
  /\ List.length (orders (snd r)) = List.length (orders db).
Proof.
  cbv zeta. unfold POST_payment_verify, bind.
  destruct (get body "razorpay_order_id") as [oid |]; [| cbn; auto].
  destruct (get body "razorpay_payment_id") as [pid |]; [| cbn; auto].
  destruct (get body "razorpay_signature") as [sig |]; [| cbn; auto].
  destruct (get body "orderId") as [orderId |]; [| cbn; auto].
  destruct (get body "storeId") as [storeId |]; [| cbn; auto].
  destruct (_ || _); [cbn; auto |].
  destruct (RAZORPAY_KEY_SECRET svc) as [key |]; [| cbn; auto].
  destruct (generatedSignature js svc key oid pid) as [generated |];
    [| cbn; auto].
  destruct (negb _); [cbn; auto |].
  destruct (field_filter svc orderId) as [m | id_ok]; [cbn; auto |].
  destruct (field_filter svc storeId) as [m | storeId_ok]; [cbn; auto |].
  cbn [try_catch].
  destruct (Nat.eqb_spec (snd (updateOne (order_matches id_ok storeId_ok)
                                 (set_paid env oid pid) (orders db))) 0)
    as [Hzero | _]; cbn.
  - rewrite (updateOne_unmatched _ _ _ Hzero), mkDB_eta. auto.
  - rewrite updateOne_length. split; [intros H; contradiction H; reflexivity | auto].
Qed.

Lemma no_order_of_id (id storeId : string) (l : list Order.t) :
  Forall (fun x => Order.id x <> id) l ->
  Forall (fun x => order_matches (String.eqb id) (String.eqb storeId) x = false) l.
Proof.
  intros H. eapply Forall_impl; [| exact H]. cbn. intros x Hx.
  unfold order_matches.
  destruct (String.eqb_spec id (Order.id x)) as [He | _];
    [symmetry in He; contradiction | reflexivity].
Qed.

(** X20 — An order just created is the one its payment marks paid: when
    the id it was given is new among the orders, a valid verification for
    that id and store (its two gateway identifiers have the strings
    [order_id] and [payment_id], its signature is their HMAC) answers 200
    and turns exactly this order to paid,
    the items and total it was created with being kept. *)
Theorem created_order_gets_paid (env env' : Env) (db db1 : DB)
  (storeId : string) (body vbody : value) (o : Order.t)
  (oid pid : value) (order_id payment_id key : string) :
  POST_orders js svc env db storeId body = (Json (OrderDoc o) 201, db1) ->
  Forall (fun x => Order.id x <> uuidv4 env) (orders db) ->
  get vbody "razorpay_order_id" = Some oid ->
  get vbody "razorpay_payment_id" = Some pid ->
  ToString js oid = Some order_id -> ToString js pid = Some payment_id ->
  get vbody "razorpay_signature"
  = Some (VStr (hmac_sha256_hex svc key (order_id ++ "|" ++ payment_id))) ->
  get vbody "orderId" = Some (VStr (Order.id o)) ->
  get vbody "storeId" = Some (VStr storeId) ->
  ToBoolean oid = true -> ToBoolean pid = true ->
  hmac_sha256_hex svc key (order_id ++ "|" ++ payment_id) <> "" ->
  RAZORPAY_KEY_SECRET svc = Some key ->
  exists paid,
    POST_payment_verify js svc env' db1 vbody
    = (Json (Success "Payment verified successfully") 200,
       mkDB (stores db) (products db) (orders db ++ [paid]))
    /\ Order.id paid = Order.id o
    /\ Order.status o = VStr "pending"
    /\ Order.status paid = VStr "paid"
    /\ Order.paymentStatus paid = Some "completed"
    /\ Order.items paid = Order.items o
    /\ Order.total paid = Order.total o.
Proof.
  intros Hpost Hfresh Ho Hp So Sp Hs HorderId HstoreId To Tp Hdigest Hkey.
  destruct (POST_orders_created js svc env db storeId body _ db1 Hpost eq_refl)
    as (items & customerInfo & total & _ & _ & _ & Hcreate).
  destruct (createOrder_created js svc _ _ _ _ _ _ _ _ Hcreate eq_refl)
    as (cart & productIds & lines & t & _ & _ & _ & _ & _ & Hr & ->).
  injection Hr as ->.
  exists (set_paid env' oid pid (newOrder env storeId lines t customerInfo total)).
  split; [| repeat split; reflexivity].
  rewrite (POST_payment_verify_valid _ _ vbody oid pid order_id payment_id
             _ storeId key
             Ho Hp So Sp Hs HorderId HstoreId To Tp Hdigest Hkey).
  cbv zeta. cbn [orders stores products].
  rewrite (updateOne_first_match _ _ (orders db) []).
  - reflexivity.
  - apply no_order_of_id, Hfresh.
  - unfold order_matches. cbn. rewrite !String.eqb_refl. reflexivity.
Qed.

(** X21 — A status update after the payment keeps the payment: when the
    merchant puts an order that a valid verification (its two gateway
    identifiers have the strings [order_id] and [payment_id], its signature
    is their HMAC) has marked paid back to any status, the order keeps
    paymentStatus "completed", both gateway identifiers and the completion
    time. *)
Theorem status_update_keeps_payment (env env' : Env) (db : DB)
  (body sbody status : value) (oid pid : value)
  (order_id payment_id orderId storeId key : string)
  (pre post : list Order.t) (o : Order.t) :
  get body "razorpay_order_id" = Some oid ->
  get body "razorpay_payment_id" = Some pid ->
  ToString js oid = Some order_id -> ToString js pid = Some payment_id ->
  get body "razorpay_signature"
  = Some (VStr (hmac_sha256_hex svc key (order_id ++ "|" ++ payment_id))) ->
  get body "orderId" = Some (VStr orderId) ->
  get body "storeId" = Some (VStr storeId) ->
  ToBoolean oid = true -> ToBoolean pid = true ->
  hmac_sha256_hex svc key (order_id ++ "|" ++ payment_id) <> "" ->
  RAZORPAY_KEY_SECRET svc = Some key ->
  orders db = (pre ++ o :: post)%list ->
  Forall (fun x => order_is orderId storeId x = false) pre ->
  order_is orderId storeId o = true ->
  validateStoreAccess db storeId = true ->
  get sbody "status" = Some status -> ToBoolean status = true ->
  exists o',
    PUT_orders env' (snd (POST_payment_verify js svc env db body))
      storeId orderId sbody
    = (Reply (inr (Some o')) 200,
       mkDB (stores db) (products db) (pre ++ o' :: post))
    /\ Order.status o' = status
    /\ Order.paymentStatus o' = Some "completed"
    /\ Order.razorpayOrderId o' = Some oid
    /\ Order.razorpayPaymentId o' = Some pid
    /\ Order.paymentCompletedAt o' = Some (now env).
Proof.
  intros Ho Hp So Sp Hs HorderId HstoreId To Tp Hdigest Hkey Horders Hpre Hmatch
    Hstore Hstatus Htruthy.
  assert (forall x, order_matches (String.eqb orderId) (String.eqb storeId) x
                    = order_is orderId storeId x) as Hsame.
  { intros x. unfold order_matches, order_is.
    rewrite (String.eqb_sym orderId), (String.eqb_sym storeId). reflexivity. }
  rewrite (POST_payment_verify_valid _ _ body oid pid order_id payment_id
             orderId storeId key
             Ho Hp So Sp Hs HorderId HstoreId To Tp Hdigest Hkey).
  cbv zeta. rewrite Horders.
  rewrite (updateOne_first_match _ _ pre post o).
  - cbn [fst snd Nat.eqb].
    exists (set_status env' status (set_paid env oid pid o)).
    split; [| repeat split; reflexivity].
    exact (PUT_orders_on_first_match env'
             (mkDB (stores db) (products db) (pre ++ set_paid env oid pid o :: post))
             storeId orderId sbody status pre post (set_paid env oid pid o)
             Hstatus Htruthy Hstore eq_refl Hpre Hmatch).
  - eapply Forall_impl; [| exact Hpre]. cbn. intros x Hx. rewrite Hsame. exact Hx.
  - rewrite Hsame. exact Hmatch.
Qed.

(** *** Analytics engine *)

Lemma countDocuments_le {A : Type} (f g : A -> bool) (docs : list A) :
  (forall d, f d = true -> g d = true) ->
  countDocuments f docs <= countDocuments g docs.
Proof.
  intros Himp. unfold countDocuments.
  induction docs as [| d docs IH]; cbn; [lia |].
  destruct (f d) eqn:Hf.
  - rewrite (Himp d Hf). cbn. lia.
  - destruct (g d); cbn; lia.
Qed.

Lemma in_window_earlier (storeId : string) (startDate startDate' : Z)
  (o : Order.t) :
  (startDate <= startDate')%Z ->
  in_window storeId startDate' o = true -> in_window storeId startDate o = true.
Proof.
  unfold in_window. intros Hle H. apply andb_prop in H. destruct H as [-> H].
  apply Z.leb_le in H. cbn. apply Z.leb_le. lia.
Qed.

(** X22 — A longer window never counts less: with an earlier window start
    the report has at least as many orders, completed orders and pending
    orders; and in every report the completed orders and the pending
    orders are each at most the orders, so the ratio behind the conversion
    rate is at most 1. *)
Theorem analytics_window_monotone (db : DB) (storeId : string)
  (startDate startDate' : Z) :
  validateStoreAccess db storeId = true ->
  (startDate <= startDate')%Z ->
  exists s s',
    GET_analytics js db storeId startDate = Json (Analytics s) 200
    /\ GET_analytics js db storeId startDate' = Json (Analytics s') 200
    /\ Summary.totalOrders s' <= Summary.totalOrders s
    /\ Summary.completedOrders s' <= Summary.completedOrders s
    /\ Summary.pendingOrders s' <= Summary.pendingOrders s
    /\ Summary.completedOrders s <= Summary.totalOrders s
    /\ Summary.pendingOrders s <= Summary.totalOrders s
    /\ Summary.totalProducts s' = Summary.totalProducts s.
Proof.
  intros Hstore Hle. unfold GET_analytics. rewrite Hstore. cbn [negb].
  do 2 eexists. split; [reflexivity | split; [reflexivity |]]. cbn.
  repeat split; try (apply countDocuments_le; intros o Ho).
  - exact (in_window_earlier _ _ _ _ Hle Ho).
  - apply andb_prop in Ho. destruct Ho as [Hw ->].
    rewrite (in_window_earlier _ _ _ _ Hle Hw). reflexivity.
  - apply andb_prop in Ho. destruct Ho as [Hw ->].
    rewrite (in_window_earlier _ _ _ _ Hle Hw). reflexivity.
  - apply andb_prop in Ho. tauto.
  - apply andb_prop in Ho. tauto.
Qed.

(** X23 — The four counts and the rate of the summary ([totalOrders],
    [completedOrders], [pendingOrders], [totalProducts], [conversionRate])
    depend only on the orders of the store inside the window: an order of
    another store, or created before the window start, can be added
    anywhere in the collection without changing any of the five. Nothing is
    said of the rest of the report; its [recentOrders] are not restricted
    to the window. *)
Theorem analytics_counts_ignore_outside_orders (db : DB) (storeId : string)
  (startDate : Z) (pre post : list Order.t) (o : Order.t) :
  validateStoreAccess db storeId = true ->
  orders db = (pre ++ post)%list ->
  Order.storeId o <> storeId \/ (Order.createdAt o < startDate)%Z ->
  exists s s',
    GET_analytics js db storeId startDate = Json (Analytics s) 200
    /\ GET_analytics js (mkDB (stores db) (products db) (pre ++ o :: post))
         storeId startDate
       = Json (Analytics s') 200
    /\ Summary.totalOrders s' = Summary.totalOrders s
    /\ Summary.completedOrders s' = Summary.completedOrders s
    /\ Summary.pendingOrders s' = Summary.pendingOrders s
    /\ Summary.totalProducts s' = Summary.totalProducts s
    /\ Summary.conversionRate s' = Summary.conversionRate s.
Proof.
  intros Hstore Horders Hout.
  assert (in_window storeId startDate o = false) as Ho.
  { unfold in_window. destruct Hout as [Hs | Hd].
    - destruct (String.eqb_spec (Order.storeId o) storeId); [contradiction | reflexivity].
    - apply andb_false_iff. right. apply Z.leb_gt. exact Hd. }
  assert (validateStoreAccess (mkDB (stores db) (products db) (pre ++ o :: post))
            storeId = true) as Hstore' by exact Hstore.
  unfold GET_analytics. rewrite Hstore, Hstore'. cbn [negb].
  do 2 eexists. split; [reflexivity | split; [reflexivity |]].
  unfold countDocuments. cbn [stores products orders Summary.totalOrders
    Summary.completedOrders Summary.pendingOrders Summary.totalProducts
    Summary.conversionRate].
  rewrite Horders, !filter_app. cbn [filter]. rewrite Ho. cbn [andb].
  repeat split; reflexivity.
Qed.

(** *** The cart of the storefront page *)

Lemma ids_map_same (f : Cart.item -> Cart.item) (cart : list Cart.item) :
  (forall it, Cart.id (Cart.line_product (f it)) = Cart.id (Cart.line_product it)) ->
  Cart.ids (map f cart) = Cart.ids cart.
Proof.
  intros Hf. unfold Cart.ids. rewrite map_map. apply map_ext. exact Hf.
Qed.

Lemma ids_removeFromCart (cart : list Cart.item) (productId : string) :
  NoDup (Cart.ids cart) ->
  NoDup (Cart.ids (Cart.removeFromCart cart productId))
  /\ ~ In productId (Cart.ids (Cart.removeFromCart cart productId)).
Proof.
  unfold Cart.removeFromCart, Cart.ids. intros Hnodup. split.
  - induction cart as [| it cart IH]; cbn; [constructor |].
    cbn in Hnodup. apply NoDup_cons_iff in Hnodup. destruct Hnodup as [Hnotin Hnodup].
    destruct (negb (Cart.has_id productId it)); [| exact (IH Hnodup)].
    cbn. constructor; [| exact (IH Hnodup)].
    intros Hin. apply Hnotin. apply in_map_iff in Hin.
    destruct Hin as (x & Hx & Hin). apply filter_In in Hin.
    apply in_map_iff. exists x. tauto.
  - intros Hin. apply in_map_iff in Hin. destruct Hin as (x & Hx & Hin).
    apply filter_In in Hin. destruct Hin as [_ Hin].
    unfold Cart.has_id in Hin. rewrite Hx, String.eqb_refl in Hin. discriminate Hin.
Qed.

Lemma find_has_id_none (cart : list Cart.item) (productId : string) :
  find (Cart.has_id productId) cart = None -> ~ In productId (Cart.ids cart).
Proof.
  intros Hfind Hin. apply in_map_iff in Hin. destruct Hin as (x & Hx & Hin).
  pose proof (find_none _ _ Hfind x Hin) as H. unfold Cart.has_id in H.
  rewrite Hx, String.eqb_refl in H. discriminate H.
Qed.

(** X24 — The cart never holds two lines for one product: adding a
    product, removing one and changing a quantity each keep the product ids
    of the lines pairwise distinct (adding a product already in the cart
    raises its quantity instead), and a removed product is in no line. *)
Theorem cart_lines_stay_distinct (products : list Cart.product)
  (cart : list Cart.item) (p : Cart.product) (productId : string)
  (newQuantity : float) :
  NoDup (Cart.ids cart) ->
  NoDup (Cart.ids (fst (Cart.addToCart js cart p)))
  /\ NoDup (Cart.ids (Cart.removeFromCart cart productId))
  /\ ~ In productId (Cart.ids (Cart.removeFromCart cart productId))
  /\ (forall cart' toast,
        Cart.updateCartQuantity js products cart productId newQuantity
        = Some (cart', toast) ->
        NoDup (Cart.ids cart')).
Proof.
  intros Hnodup.
  split; [| split; [apply ids_removeFromCart, Hnodup
                   | split; [apply ids_removeFromCart, Hnodup |]]].
  - unfold Cart.addToCart.
    destruct (find (Cart.has_id (Cart.id p)) cart) as [existing |] eqn:Hfind;
      (destruct (ToNumber js (Cart.inventory p)) as [inventory |];
       [| exact Hnodup]).
    + destruct (_ <? _)%float; cbn [fst]; [| exact Hnodup].
      rewrite ids_map_same; [exact Hnodup |].
      intros it. destruct (Cart.has_id (Cart.id p) it); reflexivity.
    + destruct (_ <? _)%float; cbn [fst]; [| exact Hnodup].
      unfold Cart.ids. rewrite map_app. cbn.
      apply (Permutation_NoDup (l := Cart.id p :: Cart.ids cart)).
      * apply Permutation_cons_append.
      * constructor; [apply find_has_id_none, Hfind | exact Hnodup].
  - intros cart' toast. unfold Cart.updateCartQuantity, bind.
    destruct (newQuantity =? 0)%float.
    + intros [= <- _]. apply ids_removeFromCart, Hnodup.
    + destruct (find _ products) as [product |]; [| discriminate].
      destruct (ToNumber js _) as [inventory |]; [| discriminate].
      destruct (_ <? _)%float; intros [= <- _]; [exact Hnodup |].
      rewrite ids_map_same; [exact Hnodup |].
      intros it. destruct (Cart.has_id productId it); reflexivity.
Qed.

Lemma productIds_of_orderItems (cart : list Cart.item) :
  productIds_of (Cart.orderItems cart) = Some (map VStr (Cart.ids cart)).
Proof.
  induction cart as [| it cart IH]; cbn; [reflexivity |].
  unfold Cart.orderItems in IH. rewrite IH. reflexivity.
Qed.

Lemma find_exists {A : Type} (f : A -> bool) (l : list A) (x : A) :
  In x l -> f x = true -> exists y, find f l = Some y.
Proof.
  induction l as [| a l IH]; cbn; [contradiction |].
  intros Hin Hx. destruct (f a) eqn:Ha; [eauto |].
  destruct Hin as [-> | Hin]; [congruence | auto].
Qed.

Lemma orderItem_of_cart_line (found : list Product.t) (id : string)
  (q : float) (y : Product.t) :
  find (fun x => is_string (VStr id) (Product.id x)) found = Some y ->
  orderItem_of js found (cart_line id q)
  = Some {| OrderItem.productId := VStr id;
            OrderItem.productName := Product.name y;
            OrderItem.quantity := VNum q;
            OrderItem.price := Product.price y;
            OrderItem.total := (Product.price y * q)%float |}.
Proof.
  intros Hfind. unfold orderItem_of.
  change (get (cart_line id q) "productId") with (Some (VStr id)).
  change (get (cart_line id q) "quantity") with (Some (VNum q)).
  cbn [bind]. rewrite Hfind. reflexivity.
Qed.

Lemma orderItems_of_checkout (db : DB) (storeId : string)
  (productIds : list value) (cart : list Cart.item) :
  (forall id, In id (Cart.ids cart) ->
              exists p, In p (find_products db storeId productIds)
                        /\ Product.id p = id) ->
  forall acc, exists r,
    orderItems_of js (find_products db storeId productIds)
      (Cart.orderItems cart) acc = Some r.
Proof.
  induction cart as [| it cart IH]; intros Hall acc; [cbn; eauto |].
  destruct (Hall (Cart.id (Cart.line_product it)) (or_introl eq_refl))
    as (p & Hp & Hid).
  destruct (find_exists (fun x => is_string (VStr (Cart.id (Cart.line_product it)))
                                     (Product.id x)) _ p Hp) as [y Hy].
  { cbn. rewrite Hid. apply String.eqb_refl. }
  change (Cart.orderItems (it :: cart))
    with (cart_line (Cart.id (Cart.line_product it)) (Cart.quantity it)
          :: Cart.orderItems cart).
  cbn [orderItems_of].
  rewrite (orderItem_of_cart_line _ _ _ _ Hy). cbn [bind].
  destruct (IH (fun id Hin => Hall id (or_intror Hin))
              (acc + Product.price y * Cart.quantity it)%float) as [r Hr].
  cbn [OrderItem.total]. rewrite Hr. cbn. eauto.
Qed.

(** X25 — What the storefront page sends is checked as the specification
    describes. For the order request of a non-empty cart with pairwise
    distinct product ids, sent to an active store where no two selected
    products share an id: the order is created when every line names an
    active product of the store, and is refused with "One or more products
    not found", nothing being stored, when some line does not. *)
Theorem checkout_cart_accepted_iff_resolved (env : Env) (db : DB)
  (storeId : string) (body : value) (cart : list Cart.item) :
  cart <> [] ->
  NoDup (Cart.ids cart) ->
  get body "items" = Some (VArr (Cart.orderItems cart)) ->
  validateStoreAccess db storeId = true ->
  in_list_refused svc (map VStr (Cart.ids cart)) = false ->
  NoDup (map Product.id (find_products db storeId (map VStr (Cart.ids cart)))) ->
  (forallb (resolves db storeId) (map VStr (Cart.ids cart)) = true ->
   status (fst (POST_orders js svc env db storeId body)) = 201%nat)
  /\
  (forallb (resolves db storeId) (map VStr (Cart.ids cart)) = false ->
   POST_orders js svc env db storeId body
   = (Json (Error "One or more products not found") 400, db)).
Proof.
  intros Hcart Hnodup Hitems Hstore Haccepted Hunique.
  destruct (get_defined body _ "customerInfo" _ Hitems) as [customerInfo Hc].
  destruct (get_defined body _ "total" _ Hitems) as [total Ht].
  assert (Cart.orderItems cart <> []) as Hlines
    by (destruct cart; [contradiction | discriminate]).
  pose proof (products_check_on_distinct_ids db storeId (Cart.ids cart)
                Hnodup Hunique) as Hcheck.
  pose proof (createOrder_products_check js svc env db storeId
                (Cart.orderItems cart) (map VStr (Cart.ids cart)) customerInfo total
                Hstore Hlines (productIds_of_orderItems cart) Haccepted) as Hcode.
  unfold POST_orders. rewrite Hitems, Hc, Ht. cbn [bind]. split.
  - intros Hall. apply Hcheck in Hall.
    unfold createOrder. destruct (Cart.orderItems cart) as [| line lines] eqn:Hl;
      [contradiction |].
    rewrite Hstore. cbn [negb]. rewrite <- Hl, productIds_of_orderItems. cbn [bind].
    rewrite Haccepted, Hall, Nat.eqb_refl. cbn [negb].
    destruct (orderItems_of_checkout db storeId (map VStr (Cart.ids cart)) cart)
      with (acc := 0%float) as [r ->]; [| reflexivity].
    intros id Hid.
    assert (incl (Cart.ids cart)
              (map Product.id (find_products db storeId (map VStr (Cart.ids cart)))))
      as Hback.
    { apply NoDup_length_incl; [exact Hunique | |].
      - rewrite length_map, Hall, length_map. lia.
      - intros x Hx. apply in_map_iff in Hx. destruct Hx as (p & <- & Hp).
        apply find_products_spec in Hp. tauto. }
    apply Hback in Hid. apply in_map_iff in Hid. destruct Hid as (p & Hp & Hin).
    eauto.
  - intros Hsome.
    assert (createOrder js svc env db storeId (VArr (Cart.orderItems cart))
              customerInfo total
            = Some (Json (Error "One or more products not found") 400, db)) as ->.
    { apply Hcode. intros Hlen. apply Hcheck in Hlen. congruence. }
    reflexivity.
Qed.

(** *** Soft-deleted stores *)

(** X27 — Order creation, product creation, product update, product
    deletion, order status update and the analytics look the store of the
    path up with [validateStoreAccess]. For a store that is soft-deleted or
    unknown the first five write nothing and answer 400, 404 or 500
    (product update: 404 or 500; deletion: 404), whatever the body; they
    answer 404 "Store not found" as soon as the body passes the checks
    made before the store is looked up. The analytics answer 404. The
    payment verification is not one of these routes: it never reads the
    stores collection, so its answer and the orders it leaves are the same
    whatever that collection holds. *)
Theorem store_checked_routes_refuse_inactive_store (env : Env) (db : DB)
  (storeId itemId : string) (body : value) (startDate : Z) :
  validateStoreAccess db storeId = false ->
  (snd (POST_orders js svc env db storeId body) = db
   /\ In (status (fst (POST_orders js svc env db storeId body)))
         [400; 404; 500]%nat
   /\ (forall item items,
         get body "items" = Some (VArr (item :: items)) ->
         fst (POST_orders js svc env db storeId body)
         = Json (Error "Store not found") 404))
  /\ (snd (POST_products js parsers env db storeId body) = db
      /\ In (code (fst (POST_products js parsers env db storeId body)))
            [400; 404; 500]%nat
      /\ (forall name price,
            get body "name" = Some name -> ToBoolean name = true ->
            get body "price" = Some price -> price <> VUndefined ->
            fst (POST_products js parsers env db storeId body)
            = Reply (inl "Store not found") 404))
  /\ (snd (PUT_products js parsers env db storeId itemId body) = db
      /\ In (code (fst (PUT_products js parsers env db storeId itemId body)))
            [404; 500]%nat
      /\ (forall name,
            get body "name" = Some name ->
            fst (PUT_products js parsers env db storeId itemId body)
            = Reply (inl "Store not found") 404))
  /\ DELETE_products db storeId itemId = (Reply (inl "Store not found") 404, db)
  /\ (snd (PUT_orders env db storeId itemId body) = db
      /\ In (code (fst (PUT_orders env db storeId itemId body)))
            [400; 404; 500]%nat
      /\ (forall status,
            get body "status" = Some status -> ToBoolean status = true ->
            fst (PUT_orders env db storeId itemId body)
            = Reply (inl "Store not found") 404))
  /\ GET_analytics js db storeId startDate = Json (Error "Store not found") 404
  /\ (forall stores',
        fst (POST_payment_verify js svc env
               (mkDB stores' (products db) (orders db)) body)
        = fst (POST_payment_verify js svc env db body)
        /\ orders (snd (POST_payment_verify js svc env
                          (mkDB stores' (products db) (orders db)) body))
           = orders (snd (POST_payment_verify js svc env db body))).
Proof.
  intros Hstore.
  split; [| split; [| split; [| split; [| split; [| split]]]]].
  - split; [| split].
    + unfold POST_orders, createOrder, try_catch, bind. rewrite Hstore.
      cbn [negb]. on_every_path.
    + unfold POST_orders, createOrder, try_catch, bind. rewrite Hstore.
      cbn [negb]. on_every_path; auto.
    + intros item items Hitems. unfold POST_orders.
      destruct (get_defined body _ "customerInfo" _ Hitems) as [c ->].
      destruct (get_defined body _ "total" _ Hitems) as [t ->].
      rewrite Hitems. cbn [bind createOrder]. rewrite Hstore. reflexivity.
  - split; [| split].
    + unfold POST_products, try_catch, bind. rewrite Hstore.
      cbn [negb]. on_every_path.
    + unfold POST_products, try_catch, bind. rewrite Hstore.
      cbn [negb]. on_every_path; auto.
    + intros name price Hname Htruthy Hprice Hdefined. unfold POST_products.
      destruct (get_defined body _ "description" _ Hname) as [d ->].
      destruct (get_defined body _ "inventory" _ Hname) as [i ->].
      destruct (get_defined body _ "images" _ Hname) as [m ->].
      rewrite Hname, Hprice. cbn [bind]. rewrite Htruthy, Hstore.
      destruct price; try reflexivity. contradiction.
  - split; [| split].
    + unfold PUT_products, try_catch, bind. rewrite Hstore.
      cbn [negb]. on_every_path.
    + unfold PUT_products, try_catch, bind. rewrite Hstore.
      cbn [negb]. on_every_path; auto.
    + intros name Hname. unfold PUT_products.
      destruct (get_defined body _ "description" _ Hname) as [d ->].
      destruct (get_defined body _ "price" _ Hname) as [c ->].
      destruct (get_defined body _ "inventory" _ Hname) as [i ->].
      destruct (get_defined body _ "images" _ Hname) as [m ->].
      destruct (get_defined body _ "isActive" _ Hname) as [a ->].
      rewrite Hname. cbn [bind]. rewrite Hstore. reflexivity.
  - unfold DELETE_products. rewrite Hstore. reflexivity.
  - split; [| split].
    + unfold PUT_orders, try_catch, bind. rewrite Hstore.
      cbn [negb]. on_every_path.
    + unfold PUT_orders, try_catch, bind. rewrite Hstore.
      cbn [negb]. on_every_path; auto.
    + intros status Hstatus Htruthy. unfold PUT_orders.
      rewrite Hstatus. cbn [bind]. rewrite Htruthy, Hstore. reflexivity.
  - unfold GET_analytics. rewrite Hstore. reflexivity.
  - intros stores'. unfold POST_payment_verify, try_catch, bind.
    cbn [stores products orders].
    split; on_every_path.
Qed.

End MoreProperties.

(* ================================================================= *)
(** ** Order numbers *)

Section OrderNumbers.
Import Decimal DecimalPos.

Lemma to_lu_digit (p : positive) (d : N) :
  (d < 10)%N ->
  Unsigned.to_lu (d + 10 * N.pos p) = cons_digit d (Unsigned.to_lu (N.pos p)).
Proof.
  intros Hd.
  assert (d = 0 \/ d = 1 \/ d = 2 \/ d = 3 \/ d = 4 \/ d = 5 \/ d = 6 \/ d = 7
          \/ d = 8 \/ d = 9)%N as Hcases by lia.
  pose proof (Unsigned.to_ldec_tenfold p) as H0.
  assert (forall n, Unsigned.to_lu (1 + n) = Little.succ (Unsigned.to_lu n)) as Hs.
  { intros n. rewrite <- Unsigned.to_lu_succ. f_equal. lia. }
  repeat destruct Hcases as [-> | Hcases]; try subst d.
  - rewrite N.add_0_l. exact H0.
  - rewrite Hs, H0. reflexivity.
  - replace (2 + 10 * N.pos p)%N with (1 + (1 + 10 * N.pos p))%N by lia.
    rewrite !Hs, H0. reflexivity.
  - replace (3 + 10 * N.pos p)%N with (1 + (1 + (1 + 10 * N.pos p)))%N by lia.
    rewrite !Hs, H0. reflexivity.
  - replace (4 + 10 * N.pos p)%N with (1 + (1 + (1 + (1 + 10 * N.pos p))))%N by lia.
    rewrite !Hs, H0. reflexivity.
  - replace (5 + 10 * N.pos p)%N with (1 + (1 + (1 + (1 + (1 + 10 * N.pos p)))))%N by lia.
    rewrite !Hs, H0. reflexivity.
  - replace (6 + 10 * N.pos p)%N with (1 + (1 + (1 + (1 + (1 + (1 + 10 * N.pos p))))))%N by lia.
    rewrite !Hs, H0. reflexivity.
  - replace (7 + 10 * N.pos p)%N with (1 + (1 + (1 + (1 + (1 + (1 + (1 + 10 * N.pos p)))))))%N by lia.
    rewrite !Hs, H0. reflexivity.
  - replace (8 + 10 * N.pos p)%N with (1 + (1 + (1 + (1 + (1 + (1 + (1 + (1 + 10 * N.pos p))))))))%N by lia.
    rewrite !Hs, H0. reflexivity.
  - replace (9 + 10 * N.pos p)%N with (1 + (1 + (1 + (1 + (1 + (1 + (1 + (1 + (1 + 10 * N.pos p)))))))))%N by lia.
    rewrite !Hs, H0. reflexivity.
Qed.

Lemma to_lu_low (k : nat) :
  forall (r : N) (q : positive),
    (r < 10 ^ N.of_nat k)%N ->
    Unsigned.to_lu (r + 10 ^ N.of_nat k * N.pos q)
    = low_digits k r (Unsigned.to_lu (N.pos q)).
Proof.
  induction k as [| k IH]; intros r q Hr.
  - cbn in Hr. assert (r = 0%N) as -> by lia. cbn. reflexivity.
  - rewrite Nat2N.inj_succ, N.pow_succ_r' in *.
    cbn [low_digits].
    pose proof (N.div_mod r 10 ltac:(lia)) as Hdm.
    pose proof (N.mod_lt r 10 ltac:(lia)) as Hmod.
    assert (r / 10 < 10 ^ N.of_nat k)%N as Hdiv
      by (apply N.Div0.div_lt_upper_bound; lia).
    rewrite <- (IH (r / 10)%N q Hdiv).
    assert (exists p, (r / 10 + 10 ^ N.of_nat k * N.pos q)%N = N.pos p) as [p Hp].
    { destruct (r / 10 + 10 ^ N.of_nat k * N.pos q)%N as [| p] eqn:He; [| eauto].
      pose proof (N.pow_nonzero 10 (N.of_nat k) ltac:(lia)). nia. }
    rewrite Hp, <- to_lu_digit by exact Hmod.
    f_equal. rewrite <- Hp. lia.
Qed.

Lemma string_app_assoc (x y z : string) : (x ++ y) ++ z = x ++ (y ++ z).
Proof. induction x as [| c x IH]; cbn; [reflexivity | rewrite IH; reflexivity]. Qed.

Lemma string_length_app (x y : string) :
  String.length (x ++ y) = (String.length x + String.length y)%nat.
Proof. induction x as [| c x IH]; cbn; [reflexivity | rewrite IH; reflexivity]. Qed.

Lemma string_revapp (d : uint) :
  forall acc,
    NilEmpty.string_of_uint (revapp d acc)
    = NilEmpty.string_of_uint (revapp d Nil) ++ NilEmpty.string_of_uint acc.
Proof.
  induction d; intros acc; cbn [revapp]; [reflexivity | ..];
    rewrite IHd, (IHd (_ Nil)), string_app_assoc; reflexivity.
Qed.

Lemma revapp_cons_digit (d : N) (u acc : uint) :
  revapp (cons_digit d u) acc = revapp u (cons_digit d acc).
Proof.
  unfold cons_digit. destruct d as [| p]; [reflexivity |].
  repeat (destruct p as [p | p |]; try reflexivity).
Qed.

Lemma length_cons_digit (d : N) (u : uint) :
  String.length (NilEmpty.string_of_uint (cons_digit d u))
  = S (String.length (NilEmpty.string_of_uint u)).
Proof.
  unfold cons_digit. destruct d as [| p]; [reflexivity |].
  repeat (destruct p as [p | p |]; try reflexivity).
Qed.

Lemma revapp_low_digits (k : nat) :
  forall r tail acc,
    revapp (low_digits k r tail) acc = revapp tail (digits_of k r acc).
Proof.
  induction k as [| k IH]; intros r tail acc; cbn [low_digits digits_of]; [reflexivity |].
  rewrite <- IH. apply revapp_cons_digit.
Qed.

Lemma length_digits_of (k : nat) :
  forall r acc,
    String.length (NilEmpty.string_of_uint (digits_of k r acc))
    = (k + String.length (NilEmpty.string_of_uint acc))%nat.
Proof.
  induction k as [| k IH]; intros r acc; cbn [digits_of]; [reflexivity |].
  rewrite IH, length_cons_digit. lia.
Qed.

Lemma substring_suffix (x y : string) :
  substring (String.length x) (String.length y) (x ++ y) = y.
Proof.
  induction x as [| c x IH]; cbn; [| exact IH].
  induction y as [| c y IHy]; cbn; [reflexivity |]. rewrite IHy. reflexivity.
Qed.

Lemma slice_last_suffix (n : nat) (x y : string) :
  String.length y = n -> slice_last n (x ++ y) = y.
Proof.
  intros <-. unfold slice_last. rewrite string_length_app.
  replace (String.length x + String.length y - String.length y)%nat
    with (String.length x) by lia.
  apply substring_suffix.
Qed.

Lemma decimal_pos (p : positive) :
  Js.decimal (Z.pos p) = NilEmpty.string_of_uint (Pos.to_uint p).
Proof.
  unfold Js.decimal. cbn. unfold NilZero.string_of_uint.
  pose proof (Unsigned.to_uint_nonnil p) as H.
  destruct (Pos.to_uint p); [contradiction | reflexivity ..].
Qed.

Lemma orderNumber_last_digits (t : Z) :
  (10 ^ 8 <= t)%Z ->
  orderNumber_at t
  = "ORD-" ++ NilEmpty.string_of_uint (digits_of 8 (Z.to_N t mod 10 ^ 8) Nil).
Proof.
  intros Ht. unfold orderNumber_at. f_equal.
  destruct t as [| p |]; try lia. rewrite decimal_pos.
  change (Z.to_N (Z.pos p)) with (N.pos p).
  pose proof (N.div_mod (N.pos p) (10 ^ 8) ltac:(lia)) as Hdm.
  pose proof (N.mod_lt (N.pos p) (10 ^ 8) ltac:(lia)) as Hmod.
  remember (N.pos p mod 10 ^ 8)%N as r eqn:Hr.
  destruct (N.pos p / 10 ^ 8)%N as [| q] eqn:Hq; [lia |].
  unfold Pos.to_uint.
  change (Pos.to_little_uint p) with (Unsigned.to_lu (N.pos p)).
  replace (Unsigned.to_lu (N.pos p))
    with (Unsigned.to_lu (r + 10 ^ N.of_nat 8 * N.pos q))
    by (f_equal; change (N.of_nat 8) with 8%N; lia).
  rewrite (to_lu_low 8 r q Hmod).
  unfold rev. rewrite revapp_low_digits, string_revapp.
  apply slice_last_suffix. apply length_digits_of.
Qed.

(** X26 — Order numbers repeat: the number of an order keeps only the
    last eight digits of the creation time in milliseconds, so two orders
    created a multiple of 10^8 ms (about 27 hours 47 minutes) apart get the
    same order number. *)
Theorem orderNumber_repeats (t t' : Z) :
  (10 ^ 8 <= t)%Z -> (10 ^ 8 <= t')%Z ->
  (t mod 10 ^ 8 = t' mod 10 ^ 8)%Z ->
  orderNumber_at t = orderNumber_at t'.
Proof.
  intros Ht Ht' Hmod.
  rewrite !orderNumber_last_digits by assumption.
  do 3 f_equal.
  rewrite <- (Z2N.id t), <- (Z2N.id t') in Hmod by lia.
  change (10 ^ 8)%Z with (Z.of_N (10 ^ 8)) in Hmod.
  rewrite <- !N2Z.inj_mod in Hmod. apply N2Z.inj in Hmod. exact Hmod.
Qed.

End OrderNumbers.

(* ================================================================= *)
(** ** The other routes on concrete requests *)

Lemma NoDup_example_slugs : NoDup (map Store.slug (stores example_db)).
Proof.
  cbn. constructor; [intros [H | []]; discriminate H |].
  constructor; [intros [] | constructor].
Qed.

Lemma NoDup_example_product_keys : NoDup (map product_key (products example_db)).
Proof.
  cbn. constructor; [intros [H | []]; discriminate H |].
  constructor; [intros [] | constructor].
Qed.

Lemma NoDup_example_cart : NoDup (Cart.ids example_cart).
Proof.
  cbn. constructor; [intros [H | []]; discriminate H |].
  constructor; [intros [] | constructor].
Qed.

Example demo_name_examples :
  demo_name "demo-my-shop" = "My Shop"
  /\ demo_name "demo-a_b-c9d-" = "A_b C9d "
  /\ demo_name "demo-" = "".
Proof. repeat split; reflexivity. Qed.

Lemma generateSlug_idempotent_witness :
  generateSlug example_engine (generateSlug example_engine "  Acme -- Store!! 42 ")
  = generateSlug example_engine "  Acme -- Store!! 42 ".
Proof.
  apply (generateSlug_idempotent example_engine "  Acme -- Store!! 42 ").
  reflexivity.
Defined.

Lemma POST_stores_keeps_slugs_distinct_witness :
  let db' := snd (POST_stores example_engine example_env example_db
                    (store_body "Fresh Mart")) in
  NoDup (map Store.slug (stores db'))
  /\ (stores db' = stores example_db
      \/ exists s, stores db' = (stores example_db ++ [s])%list
                   /\ Store.isActive s = true
                   /\ fst (POST_stores example_engine example_env example_db
                             (store_body "Fresh Mart")) = Json (StoreDoc s) 201)
  /\ products db' = products example_db
  /\ orders db' = orders example_db.
Proof.
  apply (POST_stores_keeps_slugs_distinct example_engine example_env example_db
           (store_body "Fresh Mart")).
  exact NoDup_example_slugs.
Defined.

Lemma demo_store_cannot_order_witness :
  exists store products,
    GET_storefront_page example_env example_db "demo-my-shop"
    = Reply (inr (store, products)) 200
    /\ Forall (fun p => Product.storeId p = Store.id store) products
    /\ POST_orders example_engine example_services later_env example_db
         (Store.id store) scenario_body
       = (Json (Error "Store not found") 404, example_db).
Proof.
  apply (demo_store_cannot_order example_engine example_services example_env
           later_env example_db "demo-my-shop" scenario_body
           (cart_line "p1" 2) []); reflexivity.
Defined.

Lemma POST_products_keeps_slugs_distinct_witness :
  let db' := snd (POST_products example_engine example_parsers example_env
                    example_db "s1" lamp_body) in
  NoDup (map product_key (products db'))
  /\ (products db' = products example_db
      \/ exists p, products db' = (products example_db ++ [p])%list
                   /\ Product.storeId p = "s1"
                   /\ Product.isActive p = true
                   /\ fst (POST_products example_engine example_parsers example_env
                             example_db "s1" lamp_body) = Reply (inr p) 201).
Proof.
  apply (POST_products_keeps_slugs_distinct example_engine example_parsers
           example_env example_db "s1" lamp_body).
  exact NoDup_example_product_keys.
Defined.

Lemma POST_products_inventory_not_NaN_witness :
  POST_products example_engine example_parsers example_env example_db "s1" lamp_body
  = (Reply (inr lamp) 201, lamp_db)
  /\ PrimFloat.is_nan (Product.inventory lamp) = false.
Proof.
  split; [reflexivity |].
  apply (POST_products_inventory_not_NaN example_engine example_parsers
           example_env example_db "s1" lamp_body lamp lamp_db).
  reflexivity.
Defined.

Lemma created_product_can_be_ordered_witness :
  exists o,
    POST_orders example_engine example_services later_env lamp_db "s1"
      (VObj [("items", VArr [cart_line "o1" 3])])
    = (Json (OrderDoc o) 201,
       mkDB (stores lamp_db) (products lamp_db) (orders lamp_db ++ [o]))
    /\ Order.items o
       = [ {| OrderItem.productId := VStr (Product.id lamp);
              OrderItem.productName := Product.name lamp;
              OrderItem.quantity := VNum 3;
              OrderItem.price := Product.price lamp;
              OrderItem.total := (Product.price lamp * 3)%float |} ]
    /\ Order.total o = VNum (0 + Product.price lamp * 3)%float
    /\ Order.status o = VStr "pending".
Proof.
  apply (created_product_can_be_ordered example_engine example_services
           example_parsers example_env later_env example_db lamp_db "s1"
           lamp_body (VObj [("items", VArr [cart_line "o1" 3])])
           (cart_line "o1" 3) lamp 3%float); try reflexivity.
  repeat constructor; discriminate.
Defined.

Lemma PUT_products_renames_unchecked_witness :
  exists p',
    PUT_products example_engine example_parsers later_env example_db "s1" "p2"
      (VObj [("name", VStr "Widget"); ("price", VStr "12.5")])
    = (Reply (inr (Some p')) 200,
       mkDB (stores example_db) ([widget] ++ p' :: []) (orders example_db))
    /\ Product.slug p' = Product.slug widget
    /\ ~ NoDup (map product_key ([widget] ++ p' :: [])).
Proof.
  destruct (PUT_products_renames_unchecked example_engine example_parsers
              later_env example_db "s1" "p2"
              (VObj [("name", VStr "Widget"); ("price", VStr "12.5")])
              "Widget" (VStr "12.5") VUndefined [widget] [] gadget)
    as (p' & Hput & _ & Hslug & _ & _ & _ & Hdup); try reflexivity.
  - discriminate.
  - discriminate.
  - discriminate.
  - repeat constructor.
  - exists p'. split; [exact Hput | split; [exact Hslug |]].
    apply (Hdup widget); [left; reflexivity | reflexivity | reflexivity].
Defined.

Lemma deleted_product_cannot_be_ordered_witness :
  let db' := mkDB (stores example_db) [gadget] (orders example_db) in
  DELETE_products example_db "s1" "p1" = (Reply (inr tt) 200, db')
  /\ status (fst (POST_orders example_engine example_services example_env db'
                    "s1" scenario_body)) <> 201%nat
  /\ snd (POST_orders example_engine example_services example_env db'
            "s1" scenario_body) = db'.
Proof.
  destruct (deleted_product_cannot_be_ordered example_engine example_services
              example_db "s1" "p1" [] [gadget] widget)
    as [Hdelete Horder]; try reflexivity.
  - constructor.
  - repeat constructor.
  - split; [exact Hdelete |].
    apply (Horder example_env scenario_body [cart_line "p1" 2] (cart_line "p1" 2));
      [reflexivity | left; reflexivity | reflexivity].
Defined.

Lemma PUT_orders_sets_any_status_witness :
  exists o',
    PUT_orders later_env orders_db "s1" "o1" (status_body "pending")
    = (Reply (inr (Some o')) 200,
       mkDB (stores orders_db) (products orders_db)
         ([] ++ o' :: [example_order "o2" "pending" 2100;
                       example_order "o3" "pending" 2200]))
    /\ Order.status (example_order "o1" "paid" 2000) = VStr "paid"
    /\ Order.status o' = VStr "pending".
Proof.
  destruct (PUT_orders_sets_any_status later_env orders_db "s1" "o1"
              (status_body "pending") (VStr "pending") []
              [example_order "o2" "pending" 2100; example_order "o3" "pending" 2200]
              (example_order "o1" "paid" 2000))
    as (o' & Hput & Hstatus & _); try reflexivity.
  - constructor.
  - exists o'. split; [exact Hput | split; [reflexivity | exact Hstatus]].
Defined.

Lemma POST_orders_ignores_quantities_witness :
  status (fst (POST_orders example_engine example_services example_env example_db
                 "s1" scenario_body))
  = status (fst (POST_orders example_engine example_services later_env example_db
                   "s1" (VObj [("items", VArr [VObj [("productId", VStr "p1");
                                                     ("quantity", VNum (-3))]])]))).
Proof.
  apply (POST_orders_ignores_quantities example_engine example_services
           example_env later_env example_db "s1" scenario_body _
           [cart_line "p1" 2]
           [VObj [("productId", VStr "p1"); ("quantity", VNum (-3))]]);
    [ reflexivity
    | reflexivity
    | repeat constructor
    | repeat constructor; intros quantity [= <-]; discriminate
    | repeat constructor; intros quantity [= <-]; discriminate ].
Defined.

Lemma verifyPayment_replay_witness :
  let first := POST_payment_verify example_engine example_services example_env
                 orders_db (verify_body valid_signature "o2") in
  let replay := POST_payment_verify example_engine example_services later_env
                  (snd first) (verify_body valid_signature "o2") in
  fst first = Json (Success "Payment verified successfully") 200
  /\ fst replay = Json (Success "Payment verified successfully") 200
  /\ snd replay
     = snd (POST_payment_verify example_engine example_services later_env
              orders_db (verify_body valid_signature "o2"))
  /\ (now later_env = now example_env -> snd replay = snd first).
Proof.
  apply (verifyPayment_replay example_engine example_services example_env
           later_env orders_db (verify_body valid_signature "o2")
           (VStr "order_R1") (VStr "pay_1") "order_R1" "pay_1"
           "o2" "s1" "key_secret"
           [example_order "o1" "paid" 2000]
           [example_order "o3" "pending" 2200]
           (example_order "o2" "pending" 2100)); try reflexivity.
  - discriminate.
  - repeat constructor.
Defined.

Lemma created_order_gets_paid_witness :
  let o := newOrder later_env "s1" (Order.items scenario_created) 19.98%float
             (Order.customerInfo scenario_created) VUndefined in
  let db1 := mkDB (stores orders_db) (products orders_db)
               (orders orders_db ++ [o]) in
  POST_orders example_engine example_services later_env orders_db "s1"
    scenario_body
  = (Json (OrderDoc o) 201, db1)
  /\ List.length (orders orders_db) = 3%nat
  /\ exists paid,
       POST_payment_verify example_engine example_services example_env db1
         (verify_body valid_signature "o7")
       = (Json (Success "Payment verified successfully") 200,
          mkDB (stores orders_db) (products orders_db)
            (orders orders_db ++ [paid]))
       /\ Order.id paid = "o7"
       /\ Order.status o = VStr "pending"
       /\ Order.status paid = VStr "paid"
       /\ Order.paymentStatus paid = Some "completed"
       /\ Order.items paid = Order.items o
       /\ Order.total paid = VNum 19.98.
Proof.
  intros o db1. split; [reflexivity | split; [reflexivity |]].
  apply (created_order_gets_paid example_engine example_services later_env
           example_env orders_db db1 "s1" scenario_body
           (verify_body valid_signature "o7") o
           (VStr "order_R1") (VStr "pay_1") "order_R1" "pay_1" "key_secret");
    try reflexivity.
  - repeat constructor; discriminate.
  - discriminate.
Defined.

Lemma status_update_keeps_payment_witness :
  exists o',
    PUT_orders later_env
      (snd (POST_payment_verify example_engine example_services example_env
              orders_db (verify_body valid_signature "o2")))
      "s1" "o2" (status_body "pending")
    = (Reply (inr (Some o')) 200,
       mkDB (stores orders_db) (products orders_db)
         ([example_order "o1" "paid" 2000] ++ o'
            :: [example_order "o3" "pending" 2200]))
    /\ Order.status o' = VStr "pending"
    /\ Order.paymentStatus o' = Some "completed"
    /\ Order.razorpayOrderId o' = Some (VStr "order_R1")
    /\ Order.razorpayPaymentId o' = Some (VStr "pay_1")
    /\ Order.paymentCompletedAt o' = Some (now example_env).
Proof.
  apply (status_update_keeps_payment example_engine example_services example_env
           later_env orders_db (verify_body valid_signature "o2")
           (status_body "pending") (VStr "pending")
           (VStr "order_R1") (VStr "pay_1") "order_R1" "pay_1"
           "o2" "s1" "key_secret"
           [example_order "o1" "paid" 2000]
           [example_order "o3" "pending" 2200]
           (example_order "o2" "pending" 2100)); try reflexivity.
  - discriminate.
  - repeat constructor.
Defined.

Lemma analytics_window_monotone_witness :
  exists s s',
    GET_analytics example_engine orders_db "s1" 0 = Json (Analytics s) 200
    /\ GET_analytics example_engine orders_db "s1" 2100 = Json (Analytics s') 200
    /\ Summary.totalOrders s' <= Summary.totalOrders s
    /\ Summary.completedOrders s' <= Summary.completedOrders s
    /\ Summary.pendingOrders s' <= Summary.pendingOrders s
    /\ Summary.completedOrders s <= Summary.totalOrders s
    /\ Summary.pendingOrders s <= Summary.totalOrders s
    /\ Summary.totalProducts s' = Summary.totalProducts s.
Proof.
  apply (analytics_window_monotone example_engine orders_db "s1" 0 2100);
    [reflexivity | lia].
Defined.

Lemma analytics_counts_ignore_outside_orders_witness :
  exists s s',
    GET_analytics example_engine orders_db "s1" 1000 = Json (Analytics s) 200
    /\ GET_analytics example_engine
         (mkDB (stores orders_db) (products orders_db)
            ([example_order "o1" "paid" 2000]
               ++ example_order "o0" "paid" 500
               :: [example_order "o2" "pending" 2100;
                   example_order "o3" "pending" 2200]))
         "s1" 1000
       = Json (Analytics s') 200
    /\ Summary.totalOrders s' = Summary.totalOrders s
    /\ Summary.completedOrders s' = Summary.completedOrders s
    /\ Summary.pendingOrders s' = Summary.pendingOrders s
    /\ Summary.totalProducts s' = Summary.totalProducts s
    /\ Summary.conversionRate s' = Summary.conversionRate s.
Proof.
  apply (analytics_counts_ignore_outside_orders example_engine orders_db "s1" 1000
           [example_order "o1" "paid" 2000]
           [example_order "o2" "pending" 2100; example_order "o3" "pending" 2200]
           (example_order "o0" "paid" 500));
    [reflexivity | reflexivity | right; reflexivity].
Defined.

Lemma cart_lines_stay_distinct_witness :
  NoDup (Cart.ids (fst (Cart.addToCart example_engine example_cart widget_on_page)))
  /\ NoDup (Cart.ids (Cart.removeFromCart example_cart "p1"))
  /\ ~ In "p1" (Cart.ids (Cart.removeFromCart example_cart "p1"))
  /\ (forall cart' toast,
        Cart.updateCartQuantity example_engine [widget_on_page] example_cart "p1" 3
        = Some (cart', toast) ->
        NoDup (Cart.ids cart')).
Proof.
  apply (cart_lines_stay_distinct example_engine [widget_on_page] example_cart
           widget_on_page "p1" 3%float).
  exact NoDup_example_cart.
Defined.

(** Adding a widget to a cart that holds two of the three in stock makes
    three; adding one more is refused; setting the quantity to 0 removes
    the line. *)
Example cart_examples :
  fst (Cart.addToCart example_engine example_cart widget_on_page)
  = [ Cart.mkItem widget_on_page 3;
      Cart.mkItem {| Cart.id := "p2"; Cart.price := VNum 5; Cart.inventory := VNum 10 |} 1 ]
  /\ snd (Cart.addToCart example_engine
            (fst (Cart.addToCart example_engine example_cart widget_on_page))
            widget_on_page)
     = Some (Cart.toast_error "Not enough inventory")
  /\ Cart.updateCartQuantity example_engine [widget_on_page] example_cart "p1" 0
     = Some ([ Cart.mkItem {| Cart.id := "p2"; Cart.price := VNum 5;
                              Cart.inventory := VNum 10 |} 1 ], None)
  /\ Cart.updateCartQuantity example_engine [widget_on_page] example_cart "p2" 4
     = None.
Proof. repeat split; reflexivity. Qed.

Lemma checkout_cart_accepted_iff_resolved_witness :
  forallb (resolves example_db "s1") (map VStr (Cart.ids example_cart)) = true
  /\ status (fst (POST_orders example_engine example_services example_env
                    example_db "s1" checkout_body)) = 201%nat.
Proof.
  split; [reflexivity |].
  apply (checkout_cart_accepted_iff_resolved example_engine example_services
           example_env example_db "s1" checkout_body example_cart);
    first [ reflexivity
          | discriminate
          | exact NoDup_example_cart
          | cbn; constructor; [intros [H | []]; discriminate H |];
            constructor; [intros [] | constructor] ].
Defined.

Lemma orderNumber_repeats_witness :
  orderNumber_at 1730000000123 = orderNumber_at (1730000000123 + 10 ^ 8).
Proof.
  apply (orderNumber_repeats 1730000000123 (1730000000123 + 10 ^ 8));
    [lia | lia | reflexivity].
Defined.

Lemma store_checked_routes_refuse_inactive_store_witness :
  validateStoreAccess example_db "s2" = false
  /\ POST_orders example_engine example_services example_env example_db
       "s2" scenario_body
     = (Json (Error "Store not found") 404, example_db)
  /\ DELETE_products example_db "s2" "p1"
     = (Reply (inl "Store not found") 404, example_db).
Proof.
  split; [reflexivity |].
  destruct (store_checked_routes_refuse_inactive_store example_engine
              example_services example_parsers example_env example_db "s2" "p1"
              scenario_body 0 eq_refl)
    as ((Hkept & _ & Horders) & _ & _ & Hdelete & _).
  split; [| exact Hdelete].
  rewrite (surjective_pairing (POST_orders _ _ _ _ _ _)), Hkept.
  rewrite (Horders (cart_line "p1" 2) [] eq_refl). reflexivity.
Defined.
